(** * Project access control of the test-case management backend

    A shallow embedding of the access-control core of the Go backend
    (packages [models], [repository], [services] and [api]) together with
    the properties its design specification states about it.

    - Go's [int] is the 64-bit signed integer, with wrap-around arithmetic.
    - [int64] identifiers and [time.Time] stamps are integers; the code only
      compares and copies them.
    - A function returning [(T, error)] returns a [result T]; a function that
      talks to the database also threads the state of its backing store.
    - The repositories are Go interfaces: the services and handlers are
      written against type classes, and the SQL repositories are instances
      over an in-memory picture of the three tables they query. *)

From Stdlib Require Import ZArith List Bool String Lia.
From Stdlib Require Import Sorting.Sorted Sorting.Permutation.
Import ListNotations.

Local Open Scope Z_scope.

(** ** Go's [int] *)

Module GoInt.

Definition min_int : Z := - 2 ^ 63.
Definition max_int : Z := 2 ^ 63 - 1.

  (** Two's-complement reduction of a mathematical integer to an [int]. *)
Definition wrap (z : Z) : Z := (z - min_int) mod 2 ^ 64 + min_int.

Definition add (a b : Z) : Z := wrap (a + b).
Definition sub (a b : Z) : Z := wrap (a - b).
Definition mul (a b : Z) : Z := wrap (a * b).

Definition in_range (z : Z) : Prop := min_int <= z <= max_int.

End GoInt.

(** ** Errors, results and the repository monad *)

(** The sentinel errors of package [repository]; [ErrSQL] stands for any
    other error of the database driver (a violated constraint, for one). *)
Inductive error : Type :=
| ErrProjectNotFound
| ErrProjectExists
| ErrProjectAccessNotFound
| ErrProjectAccessExists
| ErrUserNotFound
| ErrUserExists
| ErrSQL.

Definition error_eqb (a b : error) : bool :=
  match a, b with
  | ErrProjectNotFound, ErrProjectNotFound
  | ErrProjectExists, ErrProjectExists
  | ErrProjectAccessNotFound, ErrProjectAccessNotFound
  | ErrProjectAccessExists, ErrProjectAccessExists
  | ErrUserNotFound, ErrUserNotFound
  | ErrUserExists, ErrUserExists
  | ErrSQL, ErrSQL => true
  | _, _ => false
  end.

Inductive result (A : Type) : Type :=
| Ok (a : A)
| Err (e : error).

Arguments Ok {A} a.
Arguments Err {A} e.

(** How a Go call ends: it returns, or it panics at run time. *)
Inductive exec (A : Type) : Type :=
| Returns (a : A)
| Panics.

Arguments Returns {A} a.
Arguments Panics {A}.

(** A call against a store of type [R]: the result and the store after. *)
Definition Repo (R A : Type) : Type := R -> result A * R.

Definition ret {R A : Type} (a : A) : Repo R A := fun r => (Ok a, r).

Definition fail {R A : Type} (e : error) : Repo R A := fun r => (Err e, r).

(** [if err != nil { return nil, err }] *)
Definition bind {R A B : Type} (m : Repo R A) (k : A -> Repo R B) : Repo R B :=
  fun r =>
    match m r with
    | (Ok a, r') => k a r'
    | (Err e, r') => (Err e, r')
    end.

Notation "x <- m ;; k" := (bind m (fun x => k))
  (at level 61, m at next level, right associativity).

(** ** Package [models] *)

(** The two access levels: what the binding tag [oneof=view edit] lets
    through and what the [level] column, an [ENUM('view', 'edit')], stores. *)
Inductive AccessLevel : Type :=
| AccessLevelView
| AccessLevelEdit.

Definition AccessLevel_eqb (a b : AccessLevel) : bool :=
  match a, b with
  | AccessLevelView, AccessLevelView | AccessLevelEdit, AccessLevelEdit => true
  | _, _ => false
  end.

Inductive Role : Type :=
| RoleAdmin
| RoleUser
| RoleTester.

Definition Role_eqb (a b : Role) : bool :=
  match a, b with
  | RoleAdmin, RoleAdmin | RoleUser, RoleUser | RoleTester, RoleTester => true
  | _, _ => false
  end.

Module Project.
Record t : Type := mk {
    ID : Z;
    Name : string;
    Description : string;
    OwnerID : Z;
    CreatedAt : Z;
    UpdatedAt : Z
  }.
End Project.

Module ProjectAccess.
Record t : Type := mk {
    ID : Z;
    ProjectID : Z;
    UserID : Z;
    Level : AccessLevel;
    CreatedAt : Z;
    UpdatedAt : Z
  }.
End ProjectAccess.

Module ProjectAccessCreate.
Record t : Type := mk {
    UserID : Z;
    Level : AccessLevel
  }.
End ProjectAccessCreate.

Module ProjectAccessUpdate.
Record t : Type := mk {
    Level : AccessLevel
  }.
End ProjectAccessUpdate.

Module ProjectCreate.
Record t : Type := mk {
    Name : string;
    Description : string
  }.
End ProjectCreate.

Module ProjectUpdate.
Record t : Type := mk {
    Name : string;
    Description : string
  }.
End ProjectUpdate.

Module User.
Record t : Type := mk {
    ID : Z;
    Username : string;
    Email : string;
    PasswordHash : string;
    Role_ : Role;
    CreatedAt : Z;
    UpdatedAt : Z
  }.
End User.

(** ** Slices *)

Definition len {A : Type} (s : list A) : Z := Z.of_nat (List.length s).

(** The slice expression [s[low:high]]. Its bounds are checked at run time:
    it panics unless [0 <= low <= high <= len(s)] (the code below never asks
    for more than [len(s)]). *)
Definition slice {A : Type} (s : list A) (low high : Z) : exec (list A) :=
  if (0 <=? low) && (low <=? high) && (high <=? len s)
  then Returns (firstn (Z.to_nat (high - low)) (skipn (Z.to_nat low) s))
  else Panics.

(** A [map[int64]bool]: a missing key reads as [false]. *)
Definition int64_set : Type := Z -> bool.

Definition make_set : int64_set := fun _ => false.

Definition set_true (m : int64_set) (k : Z) : int64_set :=
  fun k' => if k' =? k then true else m k'.

(** ** The repository interfaces *)

Module ProjectRepositoryInterface.
Class t (R : Type) : Type := {
    Create : Project.t -> Repo R Project.t;
    GetByID : Z -> Repo R Project.t;
    Update : Project.t -> Repo R Project.t;
    Delete : Z -> Repo R unit;
    ListByOwner : Z -> Repo R (list Project.t)
  }.
End ProjectRepositoryInterface.

Module ProjectAccessRepositoryInterface.
Class t (R : Type) : Type := {
    Create : ProjectAccess.t -> Repo R ProjectAccess.t;
    GetByID : Z -> Repo R ProjectAccess.t;
    Update : ProjectAccess.t -> Repo R ProjectAccess.t;
    Delete : Z -> Repo R unit;
    ListByProject : Z -> Repo R (list ProjectAccess.t);
    GetProjectIDsByUserAccess : Z -> Repo R (list Z);
    HasEditAccess : Z -> Z -> Repo R bool;
    HasViewAccess : Z -> Z -> Repo R bool
  }.
End ProjectAccessRepositoryInterface.

Module UserRepositoryInterface.
Class t (R : Type) : Type := {
    GetByID : Z -> Repo R User.t
  }.
End UserRepositoryInterface.

(** The methods of the two interfaces that the services above never call. *)
Module ProjectRepositoryInterfaceRest.
Class t (R : Type) : Type := {
  List : Z -> Z -> Repo R (list Project.t);
  IsOwner : Z -> Z -> Repo R bool
}.
End ProjectRepositoryInterfaceRest.

Module ProjectAccessRepositoryInterfaceRest.
Class t (R : Type) : Type := {
  GetByProjectAndUser : Z -> Z -> Repo R ProjectAccess.t;
  ListByUser : Z -> Repo R (list ProjectAccess.t)
}.
End ProjectAccessRepositoryInterfaceRest.

(** ** Package [services]: [ProjectService] *)

Module ProjectService.
Section WithRepositories.

Context {R : Type} {projectRepo : ProjectRepositoryInterface.t R}.

Definition Create (projectCreate : ProjectCreate.t) (ownerID : Z)
  : Repo R Project.t :=
  let project :=
    Project.mk 0 (ProjectCreate.Name projectCreate)
               (ProjectCreate.Description projectCreate) ownerID 0 0 in
  ProjectRepositoryInterface.Create project.

Definition GetByID (id : Z) : Repo R Project.t :=
  ProjectRepositoryInterface.GetByID id.

Definition Update (id : Z) (projectUpdate : ProjectUpdate.t)
  : Repo R Project.t :=
  project <- ProjectRepositoryInterface.GetByID id ;;
  let name :=
    if String.eqb (ProjectUpdate.Name projectUpdate) EmptyString
    then Project.Name project
    else ProjectUpdate.Name projectUpdate in
  let project :=
    Project.mk (Project.ID project) name
               (ProjectUpdate.Description projectUpdate)
               (Project.OwnerID project) (Project.CreatedAt project)
               (Project.UpdatedAt project) in
  ProjectRepositoryInterface.Update project.

Definition Delete (id : Z) : Repo R unit :=
  ProjectRepositoryInterface.Delete id.

Definition IsOwner (projectID userID : Z) : Repo R bool :=
  project <- ProjectRepositoryInterface.GetByID projectID ;;
  ret (Project.OwnerID project =? userID).

End WithRepositories.

Section WithWholeInterface.

Context {R : Type} {projectRepo : ProjectRepositoryInterface.t R}
        {projectRepoRest : ProjectRepositoryInterfaceRest.t R}.

Definition ListByOwner (ownerID : Z) : Repo R (list Project.t) :=
  ProjectRepositoryInterface.ListByOwner ownerID.

Definition List (page pageSize : Z) : Repo R (list Project.t) :=
  let page := if page <? 1 then 1 else page in
  let pageSize := if pageSize <? 1 then 10 else pageSize in
  let offset := GoInt.mul (GoInt.sub page 1) pageSize in
  ProjectRepositoryInterfaceRest.List pageSize offset.

End WithWholeInterface.
End ProjectService.

(** ** Package [services]: [ProjectAccessService] *)

Module ProjectAccessService.
Section WithRepositories.

Context {R : Type}
        {projectAccessRepo : ProjectAccessRepositoryInterface.t R}
        {projectRepo : ProjectRepositoryInterface.t R}
        {userRepo : UserRepositoryInterface.t R}.

Definition GrantAccess (projectID : Z) (accessCreate : ProjectAccessCreate.t)
  : Repo R ProjectAccess.t :=
  _ <- ProjectRepositoryInterface.GetByID projectID ;;
  _ <- UserRepositoryInterface.GetByID (ProjectAccessCreate.UserID accessCreate) ;;
  let access :=
    ProjectAccess.mk 0 projectID (ProjectAccessCreate.UserID accessCreate)
                     (ProjectAccessCreate.Level accessCreate) 0 0 in
  ProjectAccessRepositoryInterface.Create access.

Definition UpdateAccess (accessID : Z) (accessUpdate : ProjectAccessUpdate.t)
  : Repo R ProjectAccess.t :=
  access <- ProjectAccessRepositoryInterface.GetByID accessID ;;
  let access :=
    ProjectAccess.mk (ProjectAccess.ID access) (ProjectAccess.ProjectID access)
                     (ProjectAccess.UserID access)
                     (ProjectAccessUpdate.Level accessUpdate)
                     (ProjectAccess.CreatedAt access)
                     (ProjectAccess.UpdatedAt access) in
  ProjectAccessRepositoryInterface.Update access.

Definition RevokeAccess (accessID : Z) : Repo R unit :=
  ProjectAccessRepositoryInterface.Delete accessID.

Definition GetProjectAccess (projectID : Z) : Repo R (list ProjectAccess.t) :=
  ProjectAccessRepositoryInterface.ListByProject projectID.

Definition HasEditAccess (projectID userID : Z) : Repo R bool :=
  project <- ProjectRepositoryInterface.GetByID projectID ;;
  if Project.OwnerID project =? userID
  then ret true
  else ProjectAccessRepositoryInterface.HasEditAccess projectID userID.

Definition HasViewAccess (projectID userID : Z) : Repo R bool :=
  project <- ProjectRepositoryInterface.GetByID projectID ;;
  if Project.OwnerID project =? userID
  then ret true
  else ProjectAccessRepositoryInterface.HasViewAccess projectID userID.

(** [ownedProjectIDs[project.ID] = true] for each owned project. *)
Definition ownedProjectIDs (ownedProjects : list Project.t) : int64_set :=
  fold_left (fun m project => set_true m (Project.ID project))
            ownedProjects make_set.

(** The filtering loop: ids not owned, in the order they came. *)
Definition uniqueAccessibleProjectIDs
  (owned : int64_set) (accessibleProjectIDs : list Z) : list Z :=
  filter (fun id => negb (owned id)) accessibleProjectIDs.

(** The resolving loop: a project that can't be retrieved is skipped
    ([continue]), any other is appended. *)
Fixpoint resolveAccessible (ids : list Z) (accessibleProjects : list Project.t)
  (r : R) : list Project.t * R :=
  match ids with
  | [] => (accessibleProjects, r)
  | projectID :: rest =>
      match ProjectRepositoryInterface.GetByID projectID r with
      | (Err _, r') => resolveAccessible rest accessibleProjects r'
      | (Ok project, r') =>
          resolveAccessible rest (accessibleProjects ++ [project]) r'
      end
  end.

(** The pagination statements; they occur twice in [GetAccessibleProjects],
    once over the owned projects and once over all of them. *)
Definition paginate (page pageSize : Z) (projects : list Project.t)
  : exec (result (list Project.t)) :=
  let start := GoInt.mul (GoInt.sub page 1) pageSize in
  let end_ := GoInt.add start pageSize in
  if start >=? len projects then Returns (Ok [])
  else
    let end_ := if end_ >? len projects then len projects else end_ in
    match slice projects start end_ with
    | Returns s => Returns (Ok s)
    | Panics => Panics
    end.

Definition GetAccessibleProjects (userID page pageSize : Z) (r : R)
  : exec (result (list Project.t)) * R :=
  let page := if page <? 1 then 1 else page in
  let pageSize := if pageSize <? 1 then 10 else pageSize in
  match ProjectRepositoryInterface.ListByOwner userID r with
  | (Err e, r1) => (Returns (Err e), r1)
  | (Ok ownedProjects, r1) =>
      match ProjectAccessRepositoryInterface.GetProjectIDsByUserAccess userID r1 with
      | (Err e, r2) => (Returns (Err e), r2)
      | (Ok accessibleProjectIDs, r2) =>
          if (len accessibleProjectIDs =? 0) && (len ownedProjects =? 0)
          then (Returns (Ok []), r2)
          else
            let unique :=
              uniqueAccessibleProjectIDs (ownedProjectIDs ownedProjects)
                                         accessibleProjectIDs in
            if len unique =? 0
            then (paginate page pageSize ownedProjects, r2)
            else
              let '(accessibleProjects, r3) := resolveAccessible unique [] r2 in
              let allProjects := ownedProjects ++ accessibleProjects in
              (paginate page pageSize allProjects, r3)
      end
  end.

End WithRepositories.

Section WithWholeInterface.

Context {R : Type}
        {projectAccessRepoRest : ProjectAccessRepositoryInterfaceRest.t R}.

Definition GetUserAccess (userID : Z) : Repo R (list ProjectAccess.t) :=
  ProjectAccessRepositoryInterfaceRest.ListByUser userID.

End WithWholeInterface.
End ProjectAccessService.

(** ** Package [api] *)

(** What a handler reads from its [*gin.Context]: the outcome of
    [strconv.ParseInt] on the path parameters ([None] when it fails), the
    outcome of [ShouldBindJSON] on the body ([None] when binding or
    validation fails) and the user the authentication middleware stored. *)
Module gin.
Record Context (B : Type) : Type := mkContext {
  ParamID : option Z;
  ParamAccessID : option Z;
  ShouldBindJSON : option B;
  GetUser : option User.t
}.
Arguments mkContext {B}.
Arguments ParamID {B}.
Arguments ParamAccessID {B}.
Arguments ShouldBindJSON {B}.
Arguments GetUser {B}.

(** The JSON a handler answers with; [H_binding_error] carries the text of
    the binding error, which is the validator's. *)
Inductive Body : Type :=
| H_error (msg : string)
| H_binding_error
| H_message (msg : string)
| AccessJSON (access : ProjectAccess.t)
| AccessListJSON (accesses : list ProjectAccess.t)
| ProjectJSON (project : Project.t).

Record Response : Type := JSON {
  Status : Z;
  Payload : Body
}.
End gin.

Module http.
Definition StatusOK : Z := 200.
Definition StatusCreated : Z := 201.
Definition StatusBadRequest : Z := 400.
Definition StatusUnauthorized : Z := 401.
Definition StatusForbidden : Z := 403.
Definition StatusNotFound : Z := 404.
Definition StatusConflict : Z := 409.
Definition StatusInternalServerError : Z := 500.
End http.

(** What [ListProjects] reads and answers. [Page] and [PageSize] are what
    [strconv.Atoi] returns for the [page] and [page_size] query parameters
    (defaults "1" and "10"); the handler drops the error, so they are any
    [int]. The answer is the list of projects with its status, or one of
    the error answers above. *)
Module query.
Record Context : Type := mkContext {
  Page : Z;
  PageSize : Z;
  GetUser : option User.t
}.

Inductive Answer : Type :=
| ProjectsJSON (status : Z) (projects : list Project.t)
| Refused (answer : gin.Response).
End query.

Module ProjectAccessHandler.
Section WithRepositories.

Context {R : Type}
        {projectAccessRepo : ProjectAccessRepositoryInterface.t R}
        {projectRepo : ProjectRepositoryInterface.t R}
        {userRepo : UserRepositoryInterface.t R}.

Definition GrantAccess (c : gin.Context ProjectAccessCreate.t) (r : R)
  : gin.Response * R :=
  match gin.ParamID c with
  | None => (gin.JSON http.StatusBadRequest (gin.H_error "Invalid project ID"), r)
  | Some projectID =>
  match gin.ShouldBindJSON c with
  | None => (gin.JSON http.StatusBadRequest gin.H_binding_error, r)
  | Some accessCreate =>
  match gin.GetUser c with
  | None =>
      (gin.JSON http.StatusUnauthorized (gin.H_error "User not found in context"), r)
  | Some userModel =>
  match ProjectService.IsOwner projectID (User.ID userModel) r with
  | (Err e, r1) =>
      if error_eqb e ErrProjectNotFound
      then (gin.JSON http.StatusNotFound (gin.H_error "Project not found"), r1)
      else (gin.JSON http.StatusInternalServerError
                     (gin.H_error "Failed to check project ownership"), r1)
  | (Ok isOwner, r1) =>
      if negb isOwner
      then (gin.JSON http.StatusForbidden
              (gin.H_error "You don't have permission to grant access to this project"),
            r1)
      else if ProjectAccessCreate.UserID accessCreate =? User.ID userModel
      then (gin.JSON http.StatusBadRequest
              (gin.H_error "You can't grant access to yourself as the owner"), r1)
      else
        match ProjectAccessService.GrantAccess projectID accessCreate r1 with
        | (Err e, r2) =>
            if error_eqb e ErrProjectAccessExists
            then (gin.JSON http.StatusConflict
                    (gin.H_error "User already has access to this project"), r2)
            else (gin.JSON http.StatusInternalServerError
                    (gin.H_error "Failed to grant access"), r2)
        | (Ok access, r2) => (gin.JSON http.StatusCreated (gin.AccessJSON access), r2)
        end
  end end end end.

Definition UpdateAccess (c : gin.Context ProjectAccessUpdate.t) (r : R)
  : gin.Response * R :=
  match gin.ParamID c with
  | None => (gin.JSON http.StatusBadRequest (gin.H_error "Invalid project ID"), r)
  | Some projectID =>
  match gin.ParamAccessID c with
  | None => (gin.JSON http.StatusBadRequest (gin.H_error "Invalid access ID"), r)
  | Some accessID =>
  match gin.ShouldBindJSON c with
  | None => (gin.JSON http.StatusBadRequest gin.H_binding_error, r)
  | Some accessUpdate =>
  match gin.GetUser c with
  | None =>
      (gin.JSON http.StatusUnauthorized (gin.H_error "User not found in context"), r)
  | Some userModel =>
  match ProjectService.IsOwner projectID (User.ID userModel) r with
  | (Err e, r1) =>
      if error_eqb e ErrProjectNotFound
      then (gin.JSON http.StatusNotFound (gin.H_error "Project not found"), r1)
      else (gin.JSON http.StatusInternalServerError
                     (gin.H_error "Failed to check project ownership"), r1)
  | (Ok isOwner, r1) =>
      if negb isOwner
      then (gin.JSON http.StatusForbidden
              (gin.H_error "You don't have permission to update access to this project"),
            r1)
      else
        match ProjectAccessService.UpdateAccess accessID accessUpdate r1 with
        | (Err e, r2) =>
            if error_eqb e ErrProjectAccessNotFound
            then (gin.JSON http.StatusNotFound
                    (gin.H_error "Access record not found"), r2)
            else (gin.JSON http.StatusInternalServerError
                    (gin.H_error "Failed to update access"), r2)
        | (Ok access, r2) => (gin.JSON http.StatusOK (gin.AccessJSON access), r2)
        end
  end end end end end.

Definition RevokeAccess (c : gin.Context unit) (r : R) : gin.Response * R :=
  match gin.ParamID c with
  | None => (gin.JSON http.StatusBadRequest (gin.H_error "Invalid project ID"), r)
  | Some projectID =>
  match gin.ParamAccessID c with
  | None => (gin.JSON http.StatusBadRequest (gin.H_error "Invalid access ID"), r)
  | Some accessID =>
  match gin.GetUser c with
  | None =>
      (gin.JSON http.StatusUnauthorized (gin.H_error "User not found in context"), r)
  | Some userModel =>
  match ProjectService.IsOwner projectID (User.ID userModel) r with
  | (Err e, r1) =>
      if error_eqb e ErrProjectNotFound
      then (gin.JSON http.StatusNotFound (gin.H_error "Project not found"), r1)
      else (gin.JSON http.StatusInternalServerError
                     (gin.H_error "Failed to check project ownership"), r1)
  | (Ok isOwner, r1) =>
      if negb isOwner
      then (gin.JSON http.StatusForbidden
              (gin.H_error "You don't have permission to revoke access to this project"),
            r1)
      else
        match ProjectAccessService.RevokeAccess accessID r1 with
        | (Err e, r2) =>
            if error_eqb e ErrProjectAccessNotFound
            then (gin.JSON http.StatusNotFound
                    (gin.H_error "Access record not found"), r2)
            else (gin.JSON http.StatusInternalServerError
                    (gin.H_error "Failed to revoke access"), r2)
        | (Ok _, r2) =>
            (gin.JSON http.StatusOK (gin.H_message "Access revoked successfully"), r2)
        end
  end end end end.

End WithRepositories.

Section Listing.

Context {R : Type}
        {projectAccessRepo : ProjectAccessRepositoryInterface.t R}
        {projectRepo : ProjectRepositoryInterface.t R}.

Definition ListAccess (c : gin.Context unit) (r : R) : gin.Response * R :=
  match gin.ParamID c with
  | None => (gin.JSON http.StatusBadRequest (gin.H_error "Invalid project ID"), r)
  | Some projectID =>
  match gin.GetUser c with
  | None =>
      (gin.JSON http.StatusUnauthorized (gin.H_error "User not found in context"), r)
  | Some userModel =>
  match ProjectService.IsOwner projectID (User.ID userModel) r with
  | (Err e, r1) =>
      if error_eqb e ErrProjectNotFound
      then (gin.JSON http.StatusNotFound (gin.H_error "Project not found"), r1)
      else (gin.JSON http.StatusInternalServerError
                     (gin.H_error "Failed to check project ownership"), r1)
  | (Ok isOwner, r1) =>
      if negb isOwner
      then (gin.JSON http.StatusForbidden
              (gin.H_error
                 "You don't have permission to view access records for this project"),
            r1)
      else
        match ProjectAccessService.GetProjectAccess projectID r1 with
        | (Err _, r2) =>
            (gin.JSON http.StatusInternalServerError
               (gin.H_error "Failed to retrieve access records"), r2)
        | (Ok accessList, r2) =>
            (gin.JSON http.StatusOK (gin.AccessListJSON accessList), r2)
        end
  end end end.

End Listing.
End ProjectAccessHandler.

Module ProjectHandler.
Section WithRepositories.

Context {R : Type}
        {projectAccessRepo : ProjectAccessRepositoryInterface.t R}
        {projectRepo : ProjectRepositoryInterface.t R}
        {userRepo : UserRepositoryInterface.t R}.

Definition CreateProject (c : gin.Context ProjectCreate.t) (r : R)
  : gin.Response * R :=
  match gin.ShouldBindJSON c with
  | None => (gin.JSON http.StatusBadRequest gin.H_binding_error, r)
  | Some projectCreate =>
  match gin.GetUser c with
  | None =>
      (gin.JSON http.StatusUnauthorized (gin.H_error "User not found in context"), r)
  | Some userModel =>
  match ProjectService.Create projectCreate (User.ID userModel) r with
  | (Err e, r1) =>
      if error_eqb e ErrProjectExists
      then (gin.JSON http.StatusConflict
              (gin.H_error "Project with this name already exists"), r1)
      else (gin.JSON http.StatusInternalServerError
              (gin.H_error "Failed to create project"), r1)
  | (Ok project, r1) => (gin.JSON http.StatusCreated (gin.ProjectJSON project), r1)
  end end end.

Definition UpdateProject (c : gin.Context ProjectUpdate.t) (r : R)
  : gin.Response * R :=
  match gin.ParamID c with
  | None => (gin.JSON http.StatusBadRequest (gin.H_error "Invalid project ID"), r)
  | Some id =>
  match gin.ShouldBindJSON c with
  | None => (gin.JSON http.StatusBadRequest gin.H_binding_error, r)
  | Some projectUpdate =>
  match gin.GetUser c with
  | None =>
      (gin.JSON http.StatusUnauthorized (gin.H_error "User not found in context"), r)
  | Some userModel =>
  match ProjectAccessService.HasEditAccess id (User.ID userModel) r with
  | (Err e, r1) =>
      if error_eqb e ErrProjectNotFound
      then (gin.JSON http.StatusNotFound (gin.H_error "Project not found"), r1)
      else (gin.JSON http.StatusInternalServerError
              (gin.H_error "Failed to check project access"), r1)
  | (Ok hasEditAccess, r1) =>
      if negb hasEditAccess && negb (Role_eqb (User.Role_ userModel) RoleAdmin)
      then (gin.JSON http.StatusForbidden
              (gin.H_error "You don't have permission to update this project"), r1)
      else
        match ProjectService.Update id projectUpdate r1 with
        | (Err e, r2) =>
            if error_eqb e ErrProjectNotFound
            then (gin.JSON http.StatusNotFound (gin.H_error "Project not found"), r2)
            else (gin.JSON http.StatusInternalServerError
                    (gin.H_error "Failed to update project"), r2)
        | (Ok project, r2) => (gin.JSON http.StatusOK (gin.ProjectJSON project), r2)
        end
  end end end end.

Definition DeleteProject (c : gin.Context unit) (r : R) : gin.Response * R :=
  match gin.ParamID c with
  | None => (gin.JSON http.StatusBadRequest (gin.H_error "Invalid project ID"), r)
  | Some id =>
  match gin.GetUser c with
  | None =>
      (gin.JSON http.StatusUnauthorized (gin.H_error "User not found in context"), r)
  | Some userModel =>
  match ProjectService.IsOwner id (User.ID userModel) r with
  | (Err e, r1) =>
      if error_eqb e ErrProjectNotFound
      then (gin.JSON http.StatusNotFound (gin.H_error "Project not found"), r1)
      else (gin.JSON http.StatusInternalServerError
              (gin.H_error "Failed to check project ownership"), r1)
  | (Ok isOwner, r1) =>
      if negb isOwner && negb (Role_eqb (User.Role_ userModel) RoleAdmin)
      then (gin.JSON http.StatusForbidden
              (gin.H_error "You don't have permission to delete this project"), r1)
      else
        match ProjectService.Delete id r1 with
        | (Err e, r2) =>
            if error_eqb e ErrProjectNotFound
            then (gin.JSON http.StatusNotFound (gin.H_error "Project not found"), r2)
            else (gin.JSON http.StatusInternalServerError
                    (gin.H_error "Failed to delete project"), r2)
        | (Ok _, r2) =>
            (gin.JSON http.StatusOK (gin.H_message "Project deleted successfully"), r2)
        end
  end end end.

End WithRepositories.

Section Reading.

Context {R : Type}
        {projectAccessRepo : ProjectAccessRepositoryInterface.t R}
        {projectRepo : ProjectRepositoryInterface.t R}
        {projectRepoRest : ProjectRepositoryInterfaceRest.t R}.

Definition GetProject (c : gin.Context unit) (r : R) : gin.Response * R :=
  match gin.ParamID c with
  | None => (gin.JSON http.StatusBadRequest (gin.H_error "Invalid project ID"), r)
  | Some id =>
  match gin.GetUser c with
  | None =>
      (gin.JSON http.StatusUnauthorized (gin.H_error "User not found in context"), r)
  | Some userModel =>
  match ProjectAccessService.HasViewAccess id (User.ID userModel) r with
  | (Err e, r1) =>
      if error_eqb e ErrProjectNotFound
      then (gin.JSON http.StatusNotFound (gin.H_error "Project not found"), r1)
      else (gin.JSON http.StatusInternalServerError
              (gin.H_error "Failed to check project access"), r1)
  | (Ok hasAccess, r1) =>
      if negb hasAccess && negb (Role_eqb (User.Role_ userModel) RoleAdmin)
      then (gin.JSON http.StatusForbidden
              (gin.H_error "You don't have permission to view this project"), r1)
      else
        match ProjectService.GetByID id r1 with
        | (Err e, r2) =>
            if error_eqb e ErrProjectNotFound
            then (gin.JSON http.StatusNotFound (gin.H_error "Project not found"), r2)
            else (gin.JSON http.StatusInternalServerError
                    (gin.H_error "Failed to retrieve project"), r2)
        | (Ok project, r2) => (gin.JSON http.StatusOK (gin.ProjectJSON project), r2)
        end
  end end end.

Definition ListProjects (c : query.Context) (r : R) : exec query.Answer * R :=
  let page := query.Page c in
  let pageSize := query.PageSize c in
  match query.GetUser c with
  | None =>
      (Returns (query.Refused
                  (gin.JSON http.StatusUnauthorized
                            (gin.H_error "User not found in context"))), r)
  | Some userModel =>
      let '(listed, r1) :=
        if Role_eqb (User.Role_ userModel) RoleAdmin
        then let '(projects, r1) := ProjectService.List page pageSize r in
             (Returns projects, r1)
        else ProjectAccessService.GetAccessibleProjects
               (User.ID userModel) page pageSize r in
      match listed with
      | Panics => (Panics, r1)
      | Returns (Err _) =>
          (Returns (query.Refused
                      (gin.JSON http.StatusInternalServerError
                                (gin.H_error "Failed to retrieve projects"))), r1)
      | Returns (Ok projects) =>
          (Returns (query.ProjectsJSON http.StatusOK projects), r1)
      end
  end.

End Reading.
End ProjectHandler.

(** ** The database behind [*sql.DB]

    The three tables the access-control code queries, as the migrations
    declare them: rows in storage order, the [AUTO_INCREMENT] counter of the
    two tables the handlers insert into, the wall clock [time.Now()] reads,
    and the statements sent so far. A query over the tables themselves never
    fails; an [INSERT] fails when it violates a declared constraint. *)

Module sql.

Record Tables : Type := mkTables {
  projects : list Project.t;
  project_access : list ProjectAccess.t;
  users : list User.t;
  projects_auto_increment : Z;
  project_access_auto_increment : Z;
  users_auto_increment : Z
}.

Inductive Statement : Type :=
| SelectProjectByID (id : Z)
| CountProjectsByNameAndOwner (name : string) (ownerID : Z)
| InsertProject (name : string) (ownerID : Z)
| UpdateProject (id : Z)
| DeleteProject (id : Z)
| SelectProjectsByOwner (ownerID : Z)
| CountAccess (projectID userID : Z)
| CountEditAccess (projectID userID : Z)
| InsertAccess (projectID userID : Z) (level : AccessLevel)
| SelectAccessByID (id : Z)
| UpdateAccess (id : Z) (level : AccessLevel)
| DeleteAccess (id : Z)
| SelectAccessByProject (projectID : Z)
| SelectProjectIDsByUser (userID : Z)
| SelectUserByID (id : Z)
| CountUsersByEmail (email : string)
| InsertUser (email : string).

(** What the schema leaves to the server. No column names a collation, so
    [WHERE name = ?] and [WHERE email = ?] compare as the server's default
    collation has it: two strings are equal when their weights are
    ([WEIGHT_STRING]). A [TIMESTAMP] column keeps of an instant what its
    precision allows, and that is what the driver reads back. *)
Record Server : Type := mkServer {
  weight : string -> string;
  TIMESTAMP : Z -> Z
}.

(** [now] is what [time.Now()] reads. *)
Record DB : Type := mkDB {
  tables : Tables;
  now : Z;
  statements : list Statement;
  server : Server
}.

(** Sending a statement over the connection. *)
Definition sent (s : Statement) (db : DB) : DB :=
  mkDB (tables db) (now db) (statements db ++ [s]) (server db).

Definition with_tables (t : Tables) (db : DB) : DB :=
  mkDB t (now db) (statements db) (server db).

(** [=] on a [VARCHAR] column. *)
Definition collate (db : DB) (a b : string) : bool :=
  String.eqb (weight (server db) a) (weight (server db) b).

(** What a [TIMESTAMP] column keeps of the instant [time.Now()] read. *)
Definition stamp (db : DB) : Z := TIMESTAMP (server db) (now db).

End sql.

(** ** Package [repository]: the SQL repositories *)

Module ProjectRepository.

(** [ORDER BY created_at DESC]: most recently created first (rows created
    at the same instant keep their storage order). *)
Fixpoint insert_by_created_at (p : Project.t) (l : list Project.t)
  : list Project.t :=
  match l with
  | [] => [p]
  | q :: l' =>
      if Project.CreatedAt q <=? Project.CreatedAt p
      then p :: q :: l'
      else q :: insert_by_created_at p l'
  end.

Definition order_by_created_at_desc (l : list Project.t) : list Project.t :=
  fold_right insert_by_created_at [] l.

Definition GetByID (id : Z) : Repo sql.DB Project.t :=
  fun db =>
    let db := sql.sent (sql.SelectProjectByID id) db in
    match find (fun p => Project.ID p =? id) (sql.projects (sql.tables db)) with
    | Some project => (Ok project, db)
    | None => (Err ErrProjectNotFound, db)
    end.

Definition Create (project : Project.t) : Repo sql.DB Project.t :=
  fun db =>
    let db :=
      sql.sent (sql.CountProjectsByNameAndOwner (Project.Name project)
                                                 (Project.OwnerID project)) db in
    let t := sql.tables db in
    let count :=
      len (filter (fun p => sql.collate db (Project.Name p) (Project.Name project)
                            && (Project.OwnerID p =? Project.OwnerID project))
                  (sql.projects t)) in
    if count >? 0 then (Err ErrProjectExists, db)
    else
      let db :=
        sql.sent (sql.InsertProject (Project.Name project)
                                    (Project.OwnerID project)) db in
      (* fk_project_owner *)
      if negb (existsb (fun u => User.ID u =? Project.OwnerID project) (sql.users t))
      then (Err ErrSQL, db)
      else
        let id := sql.projects_auto_increment t in
        (* the row as the table keeps it *)
        let row :=
          Project.mk id (Project.Name project) (Project.Description project)
                     (Project.OwnerID project) (sql.stamp db) (sql.stamp db) in
        (* [project.ID = id], [project.CreatedAt = now], [project.UpdatedAt = now] *)
        (Ok (Project.mk id (Project.Name project) (Project.Description project)
                        (Project.OwnerID project) (sql.now db) (sql.now db)),
         sql.with_tables
           (sql.mkTables (sql.projects t ++ [row]) (sql.project_access t)
                         (sql.users t) (id + 1)
                         (sql.project_access_auto_increment t)
                         (sql.users_auto_increment t)) db).

Definition Update (project : Project.t) : Repo sql.DB Project.t :=
  _ <- GetByID (Project.ID project) ;;
  fun db =>
    let db := sql.sent (sql.UpdateProject (Project.ID project)) db in
    let t := sql.tables db in
    let set p :=
      if Project.ID p =? Project.ID project
      then Project.mk (Project.ID p) (Project.Name project)
                      (Project.Description project) (Project.OwnerID p)
                      (Project.CreatedAt p) (sql.stamp db)
      else p in
    (Ok (Project.mk (Project.ID project) (Project.Name project)
                    (Project.Description project) (Project.OwnerID project)
                    (Project.CreatedAt project) (sql.now db)),
     sql.with_tables
       (sql.mkTables (map set (sql.projects t)) (sql.project_access t)
                     (sql.users t) (sql.projects_auto_increment t)
                     (sql.project_access_auto_increment t)
                     (sql.users_auto_increment t)) db).

(** [DELETE FROM projects]; [fk_project_access_project] is declared
    [ON DELETE CASCADE], so the project's access rows go with it. *)
Definition Delete (id : Z) : Repo sql.DB unit :=
  _ <- GetByID id ;;
  fun db =>
    let db := sql.sent (sql.DeleteProject id) db in
    let t := sql.tables db in
    (Ok tt,
     sql.with_tables
       (sql.mkTables
          (filter (fun p => negb (Project.ID p =? id)) (sql.projects t))
          (filter (fun a => negb (ProjectAccess.ProjectID a =? id))
                  (sql.project_access t))
          (sql.users t) (sql.projects_auto_increment t)
          (sql.project_access_auto_increment t)
          (sql.users_auto_increment t)) db).

Definition ListByOwner (ownerID : Z) : Repo sql.DB (list Project.t) :=
  fun db =>
    let db := sql.sent (sql.SelectProjectsByOwner ownerID) db in
    (Ok (order_by_created_at_desc
           (filter (fun p => Project.OwnerID p =? ownerID)
                   (sql.projects (sql.tables db)))),
     db).


(** The two methods below, like the two added to [ProjectAccessRepository],
    are not called by the listing; their statements are not entered in the
    log of the connection.

    [LIMIT ? OFFSET ?] over the rows most recently created first; MySQL
    refuses a negative limit or offset. *)
Definition List (limit offset : Z) : Repo sql.DB (list Project.t) :=
  fun db =>
    if (limit <? 0) || (offset <? 0) then (Err ErrSQL, db)
    else
      (Ok (firstn (Z.to_nat limit)
                  (skipn (Z.to_nat offset)
                         (order_by_created_at_desc (sql.projects (sql.tables db))))),
       db).

Definition IsOwner (projectID userID : Z) : Repo sql.DB bool :=
  fun db =>
    let count :=
      len (filter (fun p => (Project.ID p =? projectID)
                            && (Project.OwnerID p =? userID))
                  (sql.projects (sql.tables db))) in
    (Ok (count >? 0), db).

End ProjectRepository.

Module ProjectAccessRepository.

Definition GetByID (id : Z) : Repo sql.DB ProjectAccess.t :=
  fun db =>
    let db := sql.sent (sql.SelectAccessByID id) db in
    match find (fun a => ProjectAccess.ID a =? id)
               (sql.project_access (sql.tables db)) with
    | Some access => (Ok access, db)
    | None => (Err ErrProjectAccessNotFound, db)
    end.

(** [WHERE project_id = ? AND user_id = ?] *)
Definition for_project_and_user (projectID userID : Z) (a : ProjectAccess.t)
  : bool :=
  (ProjectAccess.ProjectID a =? projectID) && (ProjectAccess.UserID a =? userID).

Definition Create (access : ProjectAccess.t) : Repo sql.DB ProjectAccess.t :=
  fun db =>
    let projectID := ProjectAccess.ProjectID access in
    let userID := ProjectAccess.UserID access in
    let db := sql.sent (sql.CountAccess projectID userID) db in
    let t := sql.tables db in
    let count :=
      len (filter (for_project_and_user projectID userID) (sql.project_access t)) in
    if count >? 0 then (Err ErrProjectAccessExists, db)
    else
      let db :=
        sql.sent (sql.InsertAccess projectID userID (ProjectAccess.Level access)) db in
      (* fk_project_access_project, fk_project_access_user *)
      if negb (existsb (fun p => Project.ID p =? projectID) (sql.projects t))
         || negb (existsb (fun u => User.ID u =? userID) (sql.users t))
      then (Err ErrSQL, db)
      else
        let id := sql.project_access_auto_increment t in
        (* the row as the table keeps it *)
        let row :=
          ProjectAccess.mk id projectID userID (ProjectAccess.Level access)
                           (sql.stamp db) (sql.stamp db) in
        (* [access.ID = id], [access.CreatedAt = now], [access.UpdatedAt = now] *)
        (Ok (ProjectAccess.mk id projectID userID (ProjectAccess.Level access)
                              (sql.now db) (sql.now db)),
         sql.with_tables
           (sql.mkTables (sql.projects t) (sql.project_access t ++ [row])
                         (sql.users t) (sql.projects_auto_increment t)
                         (id + 1) (sql.users_auto_increment t)) db).

(** [SET level = ?, updated_at = ? WHERE id = ?] on one row. *)
Definition set_level (id : Z) (level : AccessLevel) (now : Z)
  (a : ProjectAccess.t) : ProjectAccess.t :=
  if ProjectAccess.ID a =? id
  then ProjectAccess.mk (ProjectAccess.ID a) (ProjectAccess.ProjectID a)
                        (ProjectAccess.UserID a) level
                        (ProjectAccess.CreatedAt a) now
  else a.

Definition Update (access : ProjectAccess.t) : Repo sql.DB ProjectAccess.t :=
  _ <- GetByID (ProjectAccess.ID access) ;;
  fun db =>
    let db :=
      sql.sent (sql.UpdateAccess (ProjectAccess.ID access)
                                 (ProjectAccess.Level access)) db in
    let t := sql.tables db in
    (Ok (ProjectAccess.mk (ProjectAccess.ID access)
                          (ProjectAccess.ProjectID access)
                          (ProjectAccess.UserID access)
                          (ProjectAccess.Level access)
                          (ProjectAccess.CreatedAt access) (sql.now db)),
     sql.with_tables
       (sql.mkTables
          (sql.projects t)
          (map (set_level (ProjectAccess.ID access) (ProjectAccess.Level access)
                          (sql.stamp db))
               (sql.project_access t))
          (sql.users t) (sql.projects_auto_increment t)
          (sql.project_access_auto_increment t)
          (sql.users_auto_increment t)) db).

Definition Delete (id : Z) : Repo sql.DB unit :=
  _ <- GetByID id ;;
  fun db =>
    let db := sql.sent (sql.DeleteAccess id) db in
    let t := sql.tables db in
    (Ok tt,
     sql.with_tables
       (sql.mkTables
          (sql.projects t)
          (filter (fun a => negb (ProjectAccess.ID a =? id)) (sql.project_access t))
          (sql.users t) (sql.projects_auto_increment t)
          (sql.project_access_auto_increment t)
          (sql.users_auto_increment t)) db).

(** [ORDER BY created_at DESC] over access rows. *)
Fixpoint insert_by_created_at (a : ProjectAccess.t) (l : list ProjectAccess.t)
  : list ProjectAccess.t :=
  match l with
  | [] => [a]
  | b :: l' =>
      if ProjectAccess.CreatedAt b <=? ProjectAccess.CreatedAt a
      then a :: b :: l'
      else b :: insert_by_created_at a l'
  end.

Definition ListByProject (projectID : Z) : Repo sql.DB (list ProjectAccess.t) :=
  fun db =>
    let db := sql.sent (sql.SelectAccessByProject projectID) db in
    (Ok (fold_right insert_by_created_at []
           (filter (fun a => ProjectAccess.ProjectID a =? projectID)
                   (sql.project_access (sql.tables db)))),
     db).

Definition GetProjectIDsByUserAccess (userID : Z) : Repo sql.DB (list Z) :=
  fun db =>
    let db := sql.sent (sql.SelectProjectIDsByUser userID) db in
    (Ok (map ProjectAccess.ProjectID
             (filter (fun a => ProjectAccess.UserID a =? userID)
                     (sql.project_access (sql.tables db)))),
     db).

Definition HasEditAccess (projectID userID : Z) : Repo sql.DB bool :=
  fun db =>
    let db := sql.sent (sql.CountEditAccess projectID userID) db in
    let count :=
      len (filter (fun a => for_project_and_user projectID userID a
                            && AccessLevel_eqb (ProjectAccess.Level a) AccessLevelEdit)
                  (sql.project_access (sql.tables db))) in
    (Ok (count >? 0), db).

Definition HasViewAccess (projectID userID : Z) : Repo sql.DB bool :=
  fun db =>
    let db := sql.sent (sql.CountAccess projectID userID) db in
    let count :=
      len (filter (for_project_and_user projectID userID)
                  (sql.project_access (sql.tables db))) in
    (Ok (count >? 0), db).


Definition GetByProjectAndUser (projectID userID : Z) : Repo sql.DB ProjectAccess.t :=
  fun db =>
    match find (for_project_and_user projectID userID)
               (sql.project_access (sql.tables db)) with
    | Some access => (Ok access, db)
    | None => (Err ErrProjectAccessNotFound, db)
    end.

Definition ListByUser (userID : Z) : Repo sql.DB (list ProjectAccess.t) :=
  fun db =>
    (Ok (fold_right insert_by_created_at []
           (filter (fun a => ProjectAccess.UserID a =? userID)
                   (sql.project_access (sql.tables db)))),
     db).

End ProjectAccessRepository.

Module UserRepository.

Definition GetByID (id : Z) : Repo sql.DB User.t :=
  fun db =>
    let db := sql.sent (sql.SelectUserByID id) db in
    match find (fun u => User.ID u =? id) (sql.users (sql.tables db)) with
    | Some user => (Ok user, db)
    | None => (Err ErrUserNotFound, db)
    end.

Definition Create (user : User.t) : Repo sql.DB User.t :=
  fun db =>
    let db := sql.sent (sql.CountUsersByEmail (User.Email user)) db in
    let t := sql.tables db in
    let count :=
      len (filter (fun u => sql.collate db (User.Email u) (User.Email user))
                  (sql.users t)) in
    if count >? 0 then (Err ErrUserExists, db)
    else
      let db := sql.sent (sql.InsertUser (User.Email user)) db in
      let id := sql.users_auto_increment t in
      (* the row as the table keeps it *)
      let row :=
        User.mk id (User.Username user) (User.Email user)
                (User.PasswordHash user) (User.Role_ user)
                (sql.stamp db) (sql.stamp db) in
      (* [user.ID = id], [user.CreatedAt = now], [user.UpdatedAt = now] *)
      (Ok (User.mk id (User.Username user) (User.Email user)
                   (User.PasswordHash user) (User.Role_ user)
                   (sql.now db) (sql.now db)),
       sql.with_tables
         (sql.mkTables (sql.projects t) (sql.project_access t)
                       (sql.users t ++ [row]) (sql.projects_auto_increment t)
                       (sql.project_access_auto_increment t) (id + 1)) db).


End UserRepository.

#[export] Instance projectRepo : ProjectRepositoryInterface.t sql.DB := {|
  ProjectRepositoryInterface.Create := ProjectRepository.Create;
  ProjectRepositoryInterface.GetByID := ProjectRepository.GetByID;
  ProjectRepositoryInterface.Update := ProjectRepository.Update;
  ProjectRepositoryInterface.Delete := ProjectRepository.Delete;
  ProjectRepositoryInterface.ListByOwner := ProjectRepository.ListByOwner
|}.

#[export] Instance projectAccessRepo : ProjectAccessRepositoryInterface.t sql.DB := {|
  ProjectAccessRepositoryInterface.Create := ProjectAccessRepository.Create;
  ProjectAccessRepositoryInterface.GetByID := ProjectAccessRepository.GetByID;
  ProjectAccessRepositoryInterface.Update := ProjectAccessRepository.Update;
  ProjectAccessRepositoryInterface.Delete := ProjectAccessRepository.Delete;
  ProjectAccessRepositoryInterface.ListByProject := ProjectAccessRepository.ListByProject;
  ProjectAccessRepositoryInterface.GetProjectIDsByUserAccess :=
    ProjectAccessRepository.GetProjectIDsByUserAccess;
  ProjectAccessRepositoryInterface.HasEditAccess := ProjectAccessRepository.HasEditAccess;
  ProjectAccessRepositoryInterface.HasViewAccess := ProjectAccessRepository.HasViewAccess
|}.

#[export] Instance userRepo : UserRepositoryInterface.t sql.DB := {|
  UserRepositoryInterface.GetByID := UserRepository.GetByID
|}.

#[export] Instance projectRepoRest : ProjectRepositoryInterfaceRest.t sql.DB := {|
  ProjectRepositoryInterfaceRest.List := ProjectRepository.List;
  ProjectRepositoryInterfaceRest.IsOwner := ProjectRepository.IsOwner
|}.

#[export] Instance projectAccessRepoRest
  : ProjectAccessRepositoryInterfaceRest.t sql.DB := {|
  ProjectAccessRepositoryInterfaceRest.GetByProjectAndUser :=
    ProjectAccessRepository.GetByProjectAndUser;
  ProjectAccessRepositoryInterfaceRest.ListByUser :=
    ProjectAccessRepository.ListByUser
|}.

(** ** The visibility algorithm as the specification words it

    Section 4.2 of the specification, over the tables: Owned, GrantedIds,
    GrantedIds' = GrantedIds - (ids in Owned), the granted projects that
    resolve, the combined list and its page. These follow the words of the
    specification; [ProjectAccessService.GetAccessibleProjects] above
    follows the code, and the two are compared below. *)

Module Spec.

Definition Owned (t : sql.Tables) (userID : Z) : list Project.t :=
  ProjectRepository.order_by_created_at_desc
    (filter (fun p => Project.OwnerID p =? userID) (sql.projects t)).

Definition GrantedIds (t : sql.Tables) (userID : Z) : list Z :=
  map ProjectAccess.ProjectID
      (filter (fun a => ProjectAccess.UserID a =? userID) (sql.project_access t)).

Definition is_owned (t : sql.Tables) (userID id : Z) : bool :=
  existsb (fun p => Project.ID p =? id) (Owned t userID).

Definition GrantedIds' (t : sql.Tables) (userID : Z) : list Z :=
  filter (fun id => negb (is_owned t userID id)) (GrantedIds t userID).

(** An id resolves to the project stored under it, a dangling id to none. *)
Definition resolve (t : sql.Tables) (ids : list Z) : list Project.t :=
  flat_map (fun id =>
              match find (fun p => Project.ID p =? id) (sql.projects t) with
              | Some p => [p]
              | None => []
              end) ids.

Definition GrantedAccessible (t : sql.Tables) (userID : Z) : list Project.t :=
  resolve t (GrantedIds' t userID).

Definition combined (t : sql.Tables) (userID : Z) : list Project.t :=
  Owned t userID ++ GrantedAccessible t userID.

Definition normalize_page (page : Z) : Z := if page <=? 0 then 1 else page.

Definition normalize_pageSize (pageSize : Z) : Z :=
  if pageSize <=? 0 then 10 else pageSize.

(** The slice [offset, offset + pageSize) of a list, clamped to its length;
    empty when the offset is at or past the length. *)
Definition page_of {A : Type} (page pageSize : Z) (l : list A) : list A :=
  let page := normalize_page page in
  let pageSize := normalize_pageSize pageSize in
  let offset := (page - 1) * pageSize in
  if offset >=? len l then []
  else firstn (Z.to_nat pageSize) (skipn (Z.to_nat offset) l).

Definition accessibleProjects (t : sql.Tables) (userID page pageSize : Z)
  : list Project.t :=
  page_of page pageSize (combined t userID).

(** Recency order: [p] was created no earlier than [q]. *)
Definition more_recent (p q : Project.t) : Prop :=
  Project.CreatedAt q <= Project.CreatedAt p.

End Spec.

(** ** The running system

    The requests that change the tables, served one after the other from
    the freshly migrated database. *)

Module System.

Inductive Request : Type :=
| GrantAccess (c : gin.Context ProjectAccessCreate.t)
| UpdateAccess (c : gin.Context ProjectAccessUpdate.t)
| RevokeAccess (c : gin.Context unit)
| CreateProject (c : gin.Context ProjectCreate.t)
| UpdateProject (c : gin.Context ProjectUpdate.t)
| DeleteProject (c : gin.Context unit)
| Register (user : User.t)
| Tick (t : Z).

Definition serve (db : sql.DB) (req : Request) : sql.DB :=
  match req with
  | GrantAccess c => snd (ProjectAccessHandler.GrantAccess c db)
  | UpdateAccess c => snd (ProjectAccessHandler.UpdateAccess c db)
  | RevokeAccess c => snd (ProjectAccessHandler.RevokeAccess c db)
  | CreateProject c => snd (ProjectHandler.CreateProject c db)
  | UpdateProject c => snd (ProjectHandler.UpdateProject c db)
  | DeleteProject c => snd (ProjectHandler.DeleteProject c db)
  | Register user => snd (UserRepository.Create user db)
  | Tick t => sql.mkDB (sql.tables db) t (sql.statements db) (sql.server db)
  end.

Definition run (reqs : list Request) (db : sql.DB) : sql.DB :=
  fold_left serve reqs db.

Definition migrated (server : sql.Server) : sql.DB :=
  sql.mkDB (sql.mkTables [] [] [] 1 1 1) 0 [] server.

Definition reachable (db : sql.DB) : Prop :=
  exists server reqs, db = run reqs (migrated server).

End System.

(** ** Constraints of the schema and of the access model *)

Module Schema.

(** [id BIGINT AUTO_INCREMENT PRIMARY KEY] of [projects]. *)
Definition projects_primary_key (t : sql.Tables) : Prop :=
  NoDup (map Project.ID (sql.projects t))
  /\ Forall (fun p => Project.ID p < sql.projects_auto_increment t) (sql.projects t).

(** [fk_project_access_project]. *)
Definition access_references_project (t : sql.Tables) : Prop :=
  Forall (fun a => In (ProjectAccess.ProjectID a) (map Project.ID (sql.projects t)))
         (sql.project_access t).

(** [fk_project_access_user]. *)
Definition access_references_user (t : sql.Tables) : Prop :=
  Forall (fun a => In (ProjectAccess.UserID a) (map User.ID (sql.users t)))
         (sql.project_access t).

(** [UNIQUE KEY idx_project_user (project_id, user_id)]. *)
Definition project_user (a : ProjectAccess.t) : Z * Z :=
  (ProjectAccess.ProjectID a, ProjectAccess.UserID a).

Definition unique_project_user (t : sql.Tables) : Prop :=
  NoDup (map project_user (sql.project_access t)).

(** No access row names the owner of its project. *)
Definition no_grant_to_owner (t : sql.Tables) : Prop :=
  forall a p,
    In a (sql.project_access t) -> In p (sql.projects t) ->
    Project.ID p = ProjectAccess.ProjectID a ->
    ProjectAccess.UserID a <> Project.OwnerID p.

(** An access row is dangling when no project is stored under its
    [project_id]. *)
Definition dangling (t : sql.Tables) (a : ProjectAccess.t) : bool :=
  negb (existsb (fun p => Project.ID p =? ProjectAccess.ProjectID a)
                (sql.projects t)).

Definition without_dangling (t : sql.Tables) : sql.Tables :=
  sql.mkTables (sql.projects t)
               (filter (fun a => negb (dangling t a)) (sql.project_access t))
               (sql.users t) (sql.projects_auto_increment t)
               (sql.project_access_auto_increment t)
               (sql.users_auto_increment t).

Definition consistent (t : sql.Tables) : Prop :=
  projects_primary_key t /\ access_references_project t
  /\ access_references_user t
  /\ unique_project_user t /\ no_grant_to_owner t.

(** A call keeps a property of the tables when the property survives it,
    whatever the call answers. *)
Definition keeps {A : Type} (P : sql.Tables -> Prop) (m : sql.DB -> A * sql.DB)
  : Prop :=
  forall db, P (sql.tables db) -> P (sql.tables (snd (m db))).

End Schema.

(** ** A small installation, used to exercise the statements below *)

Module Scenario.

(** A server whose collation ignores the case of the letters A to Z and
    whose clock reads whole seconds, instants being counted in seconds. *)
Definition lower_ascii (c : Ascii.ascii) : Ascii.ascii :=
  let n := Ascii.nat_of_ascii c in
  if ((65 <=? n) && (n <=? 90))%nat then Ascii.ascii_of_nat (n + 32) else c.

Fixpoint lower (s : string) : string :=
  match s with
  | EmptyString => EmptyString
  | String c s' => String (lower_ascii c) (lower s')
  end.

Definition mysql : sql.Server := sql.mkServer lower (fun t => t).

(** The same collation on a server whose [TIMESTAMP] columns keep whole
    seconds of instants counted in tenths of a second. *)
Definition seconds : sql.Server := sql.mkServer lower (fun t => 10 * (t / 10)).

Definition new_user (name email : string) (role : Role) : User.t :=
  User.mk 0 name email "hash" role 0 0.

(** The users as the middleware hands them to the handlers. *)
Definition alice : User.t := User.mk 1 "alice" "alice@example.com" "hash" RoleUser 1 1.
Definition bob : User.t := User.mk 2 "bob" "bob@example.com" "hash" RoleUser 2 2.
Definition carol : User.t := User.mk 3 "carol" "carol@example.com" "hash" RoleTester 3 3.

Definition as_user {B : Type} (u : User.t) (projectID accessID : option Z)
  (body : option B) : gin.Context B :=
  gin.mkContext projectID accessID body (Some u).

(** Alice owns project 1, Bob owns project 2 and has granted Carol view
    access to it (access row 1). *)
Definition setup : list System.Request :=
  [ System.Tick 1; System.Register (new_user "alice" "alice@example.com" RoleUser);
    System.Tick 2; System.Register (new_user "bob" "bob@example.com" RoleUser);
    System.Tick 3; System.Register (new_user "carol" "carol@example.com" RoleTester);
    System.Tick 4;
    System.CreateProject
      (as_user alice None None (Some (ProjectCreate.mk "Alpha" "first")));
    System.Tick 5;
    System.CreateProject
      (as_user bob None None (Some (ProjectCreate.mk "Beta" "second")));
    System.Tick 6;
    System.GrantAccess
      (as_user bob (Some 2) None (Some (ProjectAccessCreate.mk 3 AccessLevelView)));
    System.Tick 7 ].

Definition shared : sql.DB := System.run setup (System.migrated mysql).

(** Alice goes on to own projects 3 and 4 as well; Bob creates project 5
    and grants Alice access to projects 2 and 5. *)
Definition more : list System.Request :=
  [ System.CreateProject
      (as_user alice None None (Some (ProjectCreate.mk "Gamma" "third")));
    System.Tick 8;
    System.CreateProject
      (as_user alice None None (Some (ProjectCreate.mk "Delta" "fourth")));
    System.Tick 9;
    System.CreateProject
      (as_user bob None None (Some (ProjectCreate.mk "Epsilon" "fifth")));
    System.Tick 10;
    System.GrantAccess
      (as_user bob (Some 2) None (Some (ProjectAccessCreate.mk 1 AccessLevelView)));
    System.Tick 11;
    System.GrantAccess
      (as_user bob (Some 5) None (Some (ProjectAccessCreate.mk 1 AccessLevelEdit)));
    System.Tick 12 ].

Definition listing : sql.DB := System.run more shared.

(** Twelve projects, all owned by user 1, created one after the other. *)
Definition twelve : sql.DB :=
  sql.mkDB
    (sql.mkTables
       (map (fun i => Project.mk i "P" "" 1 i i) [1; 2; 3; 4; 5; 6; 7; 8; 9; 10; 11; 12])
       [] [alice] 13 1 2)
    20 [] mysql.

(** A data anomaly: project 1 is owned by user 1, who also holds a stray
    access row for it, next to a grant whose project is gone. *)
Definition anomalous : sql.DB :=
  sql.mkDB
    (sql.mkTables
       [Project.mk 1 "Alpha" "" 1 4 4; Project.mk 2 "Beta" "" 2 5 5]
       [ProjectAccess.mk 1 1 1 AccessLevelView 6 6;
        ProjectAccess.mk 2 9 1 AccessLevelEdit 7 7;
        ProjectAccess.mk 3 2 1 AccessLevelView 8 8]
       [alice; bob] 3 4 3)
    20 [] mysql.

(** Alice and Bob on the server of [seconds]; Bob owns project 1. *)
Definition tenths : sql.DB :=
  System.run
    [ System.Tick 13; System.Register (new_user "alice" "alice@example.com" RoleUser);
      System.Tick 27; System.Register (new_user "bob" "bob@example.com" RoleUser);
      System.Tick 31;
      System.CreateProject
        (as_user bob None None (Some (ProjectCreate.mk "Beta" "second")));
      System.Tick 49 ]
    (System.migrated seconds).

End Scenario.

(** ** Keys and constraints of the schema beyond the access model *)

Module Keys.

(** [id BIGINT AUTO_INCREMENT PRIMARY KEY] of [project_access]. *)
Definition access_primary_key (t : sql.Tables) : Prop :=
  NoDup (map ProjectAccess.ID (sql.project_access t))
  /\ Forall (fun a => ProjectAccess.ID a < sql.project_access_auto_increment t)
            (sql.project_access t).

(** [id BIGINT AUTO_INCREMENT PRIMARY KEY] of [users]. *)
Definition users_primary_key (t : sql.Tables) : Prop :=
  NoDup (map User.ID (sql.users t))
  /\ Forall (fun u => User.ID u < sql.users_auto_increment t) (sql.users t).

(** [email VARCHAR(100) NOT NULL UNIQUE]. *)
Definition users_unique_email (t : sql.Tables) : Prop :=
  NoDup (map User.Email (sql.users t)).

(** [fk_project_owner]. *)
Definition project_references_owner (t : sql.Tables) : Prop :=
  Forall (fun p => In (Project.OwnerID p) (map User.ID (sql.users t)))
         (sql.projects t).

Definition kept (t : sql.Tables) : Prop :=
  access_primary_key t /\ users_primary_key t
  /\ users_unique_email t /\ project_references_owner t.

End Keys.

(** ** Reading a listing *)

Module Pages.

(** The projects a listing call handed back, none when it failed. *)
Definition projects_of (answer : exec (result (list Project.t)))
  : list Project.t :=
  match answer with
  | Returns (Ok projects) => projects
  | _ => []
  end.

(** Pages [1 .. n] of a user's listing, one call after the other. *)
Definition first_pages (userID pageSize : Z) (n : nat) (db : sql.DB)
  : list Project.t :=
  flat_map (fun k =>
              projects_of
                (fst (ProjectAccessService.GetAccessibleProjects
                        userID (Z.of_nat k) pageSize db)))
           (seq 1 n).

(** Recency order of access rows: [a] was created no earlier than [b]. *)
Definition more_recent (a b : ProjectAccess.t) : Prop :=
  ProjectAccess.CreatedAt b <= ProjectAccess.CreatedAt a.

End Pages.

(** ** The installation with an administrator *)

Module Staff.

Definition root : User.t :=
  User.mk 4 "root" "root@example.com" "hash" RoleAdmin 12 12.

(** [Scenario.listing] after the administrator has registered. *)
Definition staffed : sql.DB :=
  System.run
    [System.Register (Scenario.new_user "root" "root@example.com" RoleAdmin);
     System.Tick 13]
    Scenario.listing.

End Staff.

(** * Properties *)

(** ** Rows and counts *)

Section Rows.

Context {A : Type}.

Lemma count_positive (f : A -> bool) (l : list A) :
  (len (filter f l) >? 0) = existsb f l.
Proof.
  unfold len. induction l as [|x l IH]; simpl.
  - reflexivity.
  - destruct (f x); simpl.
    + apply Z.gtb_lt. lia.
    + exact IH.
Qed.

Lemma find_none_forall (f : A -> bool) (l : list A) :
  find f l = None <-> (forall x, In x l -> f x = false).
Proof.
  split.
  - intros H x Hx. exact (find_none f l H x Hx).
  - induction l as [|x l IH]; simpl; intros H.
    + reflexivity.
    + rewrite (H x (or_introl eq_refl)). apply IH.
      intros y Hy. apply H. now right.
Qed.

Lemma find_by_key (key : A -> Z) (l : list A) (x : A) :
  NoDup (map key l) -> In x l ->
  find (fun y => key y =? key x) l = Some x.
Proof.
  induction l as [|y l IH]; simpl; intros Hnd Hin.
  - contradiction.
  - inversion Hnd as [|k ks Hnotin Hnd']; subst.
    destruct Hin as [-> | Hin].
    + now rewrite Z.eqb_refl.
    + destruct (Z.eqb_spec (key y) (key x)) as [E | _].
      * exfalso. apply Hnotin. rewrite E. now apply in_map.
      * now apply IH.
Qed.

End Rows.

(** ** The SQL repositories, statement by statement *)

Lemma tables_sent (s : sql.Statement) (db : sql.DB) :
  sql.tables (sql.sent s db) = sql.tables db.
Proof. reflexivity. Qed.

Lemma ProjectRepository_GetByID_found (db : sql.DB) (p : Project.t) :
  NoDup (map Project.ID (sql.projects (sql.tables db))) ->
  In p (sql.projects (sql.tables db)) ->
  ProjectRepository.GetByID (Project.ID p) db
  = (Ok p, sql.sent (sql.SelectProjectByID (Project.ID p)) db).
Proof.
  intros Hnd Hin. unfold ProjectRepository.GetByID. simpl.
  now rewrite (find_by_key Project.ID _ p Hnd Hin).
Qed.

Lemma ProjectRepository_GetByID_missing (db : sql.DB) (id : Z) :
  (forall p, In p (sql.projects (sql.tables db)) -> Project.ID p <> id) ->
  ProjectRepository.GetByID id db
  = (Err ErrProjectNotFound, sql.sent (sql.SelectProjectByID id) db).
Proof.
  intros H. unfold ProjectRepository.GetByID. simpl.
  assert (E : find (fun p => Project.ID p =? id) (sql.projects (sql.tables db)) = None).
  { apply find_none_forall. intros p Hp. apply Z.eqb_neq. now apply H. }
  now rewrite E.
Qed.

(** ** Who may view, who may edit *)

Lemma has_view_rows (t : sql.Tables) (P U : Z) :
  existsb (ProjectAccessRepository.for_project_and_user P U) (sql.project_access t) = true
  <-> exists a, In a (sql.project_access t)
                /\ ProjectAccess.ProjectID a = P /\ ProjectAccess.UserID a = U.
Proof.
  rewrite existsb_exists. unfold ProjectAccessRepository.for_project_and_user.
  split; intros [a [Hin H]]; exists a; split; auto.
  - apply andb_true_iff in H. destruct H as [H1 H2].
    split; now apply Z.eqb_eq.
  - destruct H as [-> ->]. now rewrite !Z.eqb_refl.
Qed.

Lemma has_edit_rows (t : sql.Tables) (P U : Z) :
  existsb (fun a => ProjectAccessRepository.for_project_and_user P U a
                    && AccessLevel_eqb (ProjectAccess.Level a) AccessLevelEdit)
          (sql.project_access t) = true
  <-> exists a, In a (sql.project_access t)
                /\ ProjectAccess.ProjectID a = P /\ ProjectAccess.UserID a = U
                /\ ProjectAccess.Level a = AccessLevelEdit.
Proof.
  rewrite existsb_exists. unfold ProjectAccessRepository.for_project_and_user.
  split; intros [a [Hin H]]; exists a; split; auto.
  - apply andb_true_iff in H. destruct H as [H H3].
    apply andb_true_iff in H. destruct H as [H1 H2].
    repeat split; try now apply Z.eqb_eq.
    now destruct (ProjectAccess.Level a).
  - destruct H as [-> [-> ->]]. now rewrite !Z.eqb_refl.
Qed.

(** C4. For an existing project P and any user U, [HasViewAccess] answers,
    and answers true exactly when U owns P or holds an access row for P, of
    level view or edit; the owner needs no row. For a project that does not
    exist it fails with [ErrProjectNotFound] instead of answering false. *)
Theorem HasViewAccess_owner_or_any_grant (db : sql.DB) (P U : Z) :
  (forall p,
      NoDup (map Project.ID (sql.projects (sql.tables db))) ->
      In p (sql.projects (sql.tables db)) -> Project.ID p = P ->
      exists b,
        fst (ProjectAccessService.HasViewAccess P U db) = Ok b
        /\ (b = true <->
            Project.OwnerID p = U
            \/ exists a, In a (sql.project_access (sql.tables db))
                         /\ ProjectAccess.ProjectID a = P
                         /\ ProjectAccess.UserID a = U
                         /\ (ProjectAccess.Level a = AccessLevelView
                             \/ ProjectAccess.Level a = AccessLevelEdit)))
  /\ ((forall p, In p (sql.projects (sql.tables db)) -> Project.ID p <> P) ->
      fst (ProjectAccessService.HasViewAccess P U db) = Err ErrProjectNotFound).
Proof.
  split.
  - intros p Hnd Hin <-.
    unfold ProjectAccessService.HasViewAccess, bind. simpl.
    rewrite (ProjectRepository_GetByID_found db p Hnd Hin).
    destruct (Z.eqb_spec (Project.OwnerID p) U) as [E | NE].
    + exists true. split; [reflexivity | tauto].
    + unfold ProjectAccessRepository.HasViewAccess. simpl.
      rewrite count_positive. eexists. split; [reflexivity |].
      rewrite has_view_rows. split.
      * intros [a [Ha [H1 H2]]]. right. exists a. repeat split; auto.
        destruct (ProjectAccess.Level a); auto.
      * intros [E | [a [Ha [H1 [H2 _]]]]]; [contradiction |].
        exists a. auto.
  - intros Hmiss.
    unfold ProjectAccessService.HasViewAccess, bind. simpl.
    now rewrite (ProjectRepository_GetByID_missing db P Hmiss).
Qed.

(** C5. For an existing project P and any user U, [HasEditAccess] answers,
    and answers true exactly when U owns P or holds an access row for P of
    level edit; a view row is not enough and the owner needs no row. For a
    project that does not exist it fails with [ErrProjectNotFound]. *)
Theorem HasEditAccess_owner_or_edit_grant (db : sql.DB) (P U : Z) :
  (forall p,
      NoDup (map Project.ID (sql.projects (sql.tables db))) ->
      In p (sql.projects (sql.tables db)) -> Project.ID p = P ->
      exists b,
        fst (ProjectAccessService.HasEditAccess P U db) = Ok b
        /\ (b = true <->
            Project.OwnerID p = U
            \/ exists a, In a (sql.project_access (sql.tables db))
                         /\ ProjectAccess.ProjectID a = P
                         /\ ProjectAccess.UserID a = U
                         /\ ProjectAccess.Level a = AccessLevelEdit))
  /\ ((forall p, In p (sql.projects (sql.tables db)) -> Project.ID p <> P) ->
      fst (ProjectAccessService.HasEditAccess P U db) = Err ErrProjectNotFound).
Proof.
  split.
  - intros p Hnd Hin <-.
    unfold ProjectAccessService.HasEditAccess, bind. simpl.
    rewrite (ProjectRepository_GetByID_found db p Hnd Hin).
    destruct (Z.eqb_spec (Project.OwnerID p) U) as [E | NE].
    + exists true. split; [reflexivity | tauto].
    + unfold ProjectAccessRepository.HasEditAccess. simpl.
      rewrite count_positive. eexists. split; [reflexivity |].
      rewrite has_edit_rows. split.
      * intros H. now right.
      * intros [E | H]; [contradiction | exact H].
  - intros Hmiss.
    unfold ProjectAccessService.HasEditAccess, bind. simpl.
    now rewrite (ProjectRepository_GetByID_missing db P Hmiss).
Qed.

(** ** Updating a grant *)

Lemma ProjectAccessRepository_GetByID_ok (id : Z) (db db' : sql.DB)
  (access : ProjectAccess.t) :
  ProjectAccessRepository.GetByID id db = (Ok access, db') ->
  find (fun a => ProjectAccess.ID a =? id) (sql.project_access (sql.tables db))
  = Some access
  /\ ProjectAccess.ID access = id
  /\ db' = sql.sent (sql.SelectAccessByID id) db.
Proof.
  unfold ProjectAccessRepository.GetByID. simpl.
  destruct (find _ _) as [a|] eqn:E; intros H; inversion H; subst.
  repeat split. apply find_some in E. now apply Z.eqb_eq.
Qed.

Lemma set_level_rows (id : Z) (level : AccessLevel) (now : Z)
  (rows : list ProjectAccess.t) :
  Forall2
    (fun before after =>
       ProjectAccess.ID after = ProjectAccess.ID before
       /\ ProjectAccess.ProjectID after = ProjectAccess.ProjectID before
       /\ ProjectAccess.UserID after = ProjectAccess.UserID before
       /\ ProjectAccess.CreatedAt after = ProjectAccess.CreatedAt before
       /\ (ProjectAccess.ID before <> id -> after = before)
       /\ (ProjectAccess.ID before = id ->
           ProjectAccess.Level after = level
           /\ ProjectAccess.UpdatedAt after = now))
    rows (map (ProjectAccessRepository.set_level id level now) rows).
Proof.
  induction rows as [|a rows IH]; simpl; constructor; auto.
  unfold ProjectAccessRepository.set_level.
  destruct (Z.eqb_spec (ProjectAccess.ID a) id) as [E | NE]; simpl.
  - repeat split; auto. intros NE. contradiction.
  - repeat split; auto; contradiction.
Qed.

(** C10. A successful [UpdateAccess] rewrites the access table row by row:
    every row keeps its id, project, user and creation time; a row with
    another id is left as it was; the row with the given id gets the new
    level and the current time, as the column keeps it, as [updated_at].
    Projects, users and the counters are untouched, and the grant handed
    back is the updated row, carrying the instant of the update itself as
    its [UpdatedAt]. *)
Theorem UpdateAccess_changes_level_and_updated_at_only
  (db db' : sql.DB) (accessID : Z) (accessUpdate : ProjectAccessUpdate.t)
  (access : ProjectAccess.t) :
  ProjectAccessService.UpdateAccess accessID accessUpdate db = (Ok access, db') ->
  Forall2
    (fun before after =>
       ProjectAccess.ID after = ProjectAccess.ID before
       /\ ProjectAccess.ProjectID after = ProjectAccess.ProjectID before
       /\ ProjectAccess.UserID after = ProjectAccess.UserID before
       /\ ProjectAccess.CreatedAt after = ProjectAccess.CreatedAt before
       /\ (ProjectAccess.ID before <> accessID -> after = before)
       /\ (ProjectAccess.ID before = accessID ->
           ProjectAccess.Level after = ProjectAccessUpdate.Level accessUpdate
           /\ ProjectAccess.UpdatedAt after = sql.stamp db))
    (sql.project_access (sql.tables db)) (sql.project_access (sql.tables db'))
  /\ sql.projects (sql.tables db') = sql.projects (sql.tables db)
  /\ sql.users (sql.tables db') = sql.users (sql.tables db)
  /\ sql.projects_auto_increment (sql.tables db')
     = sql.projects_auto_increment (sql.tables db)
  /\ sql.project_access_auto_increment (sql.tables db')
     = sql.project_access_auto_increment (sql.tables db)
  /\ In (ProjectAccess.mk (ProjectAccess.ID access) (ProjectAccess.ProjectID access)
                          (ProjectAccess.UserID access) (ProjectAccess.Level access)
                          (ProjectAccess.CreatedAt access) (sql.stamp db))
        (sql.project_access (sql.tables db'))
  /\ ProjectAccess.UpdatedAt access = sql.now db
  /\ ProjectAccess.ID access = accessID.
Proof.
  unfold ProjectAccessService.UpdateAccess, bind. simpl.
  destruct (ProjectAccessRepository.GetByID accessID db) as [[found|e] db1] eqn:E1;
    [| discriminate].
  apply ProjectAccessRepository_GetByID_ok in E1. destruct E1 as [Hfind [Hid ->]].
  unfold ProjectAccessRepository.Update, bind, ProjectAccessRepository.GetByID.
  simpl. rewrite Hid, Hfind. intros H. inversion H; subst; clear H. simpl.
  change (sql.stamp (sql.sent _ (sql.sent _ (sql.sent _ db)))) with (sql.stamp db).
  split; [apply set_level_rows |].
  repeat split.
  apply find_some in Hfind. destruct Hfind as [Hin _].
  apply in_map_iff. exists found. split; [| exact Hin].
  unfold ProjectAccessRepository.set_level. now rewrite Z.eqb_refl.
Qed.

(** ** Go integers in range *)

Lemma wrap_in_range (z : Z) : GoInt.in_range z -> GoInt.wrap z = z.
Proof.
  unfold GoInt.in_range, GoInt.wrap, GoInt.min_int, GoInt.max_int.
  intros H. rewrite Z.mod_small; lia.
Qed.

Lemma offsets_in_range (page pageSize : Z) :
  1 <= page -> 1 <= pageSize -> page * pageSize <= GoInt.max_int ->
  GoInt.mul (GoInt.sub page 1) pageSize = (page - 1) * pageSize
  /\ GoInt.add ((page - 1) * pageSize) pageSize = page * pageSize
  /\ 0 <= (page - 1) * pageSize.
Proof.
  intros Hp Hs Hmax.
  assert (Hpage : page <= GoInt.max_int) by nia.
  assert (H0 : 0 <= (page - 1) * pageSize) by nia.
  assert (H1 : (page - 1) * pageSize <= GoInt.max_int) by nia.
  unfold GoInt.mul, GoInt.sub, GoInt.add.
  rewrite (wrap_in_range (page - 1)).
  2:{ unfold GoInt.in_range, GoInt.min_int, GoInt.max_int in *. lia. }
  rewrite (wrap_in_range ((page - 1) * pageSize)).
  2:{ unfold GoInt.in_range, GoInt.min_int, GoInt.max_int in *. lia. }
  repeat split; auto.
  replace ((page - 1) * pageSize + pageSize) with (page * pageSize) by ring.
  apply wrap_in_range.
  unfold GoInt.in_range, GoInt.min_int, GoInt.max_int in *. nia.
Qed.

Lemma wrap_is_int (z : Z) : GoInt.in_range (GoInt.wrap z).
Proof.
  unfold GoInt.in_range, GoInt.wrap, GoInt.min_int, GoInt.max_int.
  pose proof (Z.mod_pos_bound (z - - 2 ^ 63) (2 ^ 64)) as H. lia.
Qed.

(** Past [max_int] a sum of two non-negative [int]s comes out negative. *)
Lemma wrap_overflow (z : Z) :
  GoInt.max_int < z <= 2 * GoInt.max_int -> GoInt.wrap z < 0.
Proof.
  unfold GoInt.wrap, GoInt.min_int, GoInt.max_int. intros H.
  pose proof (Z.mod_pos_bound (z - - 2 ^ 63) (2 ^ 64)) as B.
  pose proof (Z.div_mod (z - - 2 ^ 63) (2 ^ 64)) as D.
  lia.
Qed.

(** Adding a positive [int] never gives the same [int] back. *)
Lemma wrap_add_moves (a s : Z) :
  GoInt.in_range a -> 1 <= s <= GoInt.max_int -> GoInt.wrap (a + s) <> a.
Proof.
  unfold GoInt.in_range, GoInt.wrap, GoInt.min_int, GoInt.max_int.
  intros Ha Hs E.
  pose proof (Z.div_mod (a + s - - 2 ^ 63) (2 ^ 64)) as D.
  lia.
Qed.

(** ** Pagination *)

Lemma normalize_page_code (page : Z) :
  (if page <? 1 then 1 else page) = Spec.normalize_page page.
Proof.
  unfold Spec.normalize_page.
  destruct (Z.ltb_spec page 1), (Z.leb_spec page 0); lia.
Qed.

Lemma normalize_pageSize_code (pageSize : Z) :
  (if pageSize <? 1 then 10 else pageSize) = Spec.normalize_pageSize pageSize.
Proof.
  unfold Spec.normalize_pageSize.
  destruct (Z.ltb_spec pageSize 1), (Z.leb_spec pageSize 0); lia.
Qed.

Lemma normalize_page_positive (page : Z) : 1 <= Spec.normalize_page page.
Proof. unfold Spec.normalize_page. destruct (Z.leb_spec page 0); lia. Qed.

Lemma normalize_pageSize_positive (pageSize : Z) :
  1 <= Spec.normalize_pageSize pageSize.
Proof. unfold Spec.normalize_pageSize. destruct (Z.leb_spec pageSize 0); lia. Qed.

Lemma normalize_page_idem (page : Z) :
  Spec.normalize_page (Spec.normalize_page page) = Spec.normalize_page page.
Proof.
  unfold Spec.normalize_page.
  destruct (Z.leb_spec page 0); [reflexivity |].
  destruct (Z.leb_spec page 0); [lia | reflexivity].
Qed.

Lemma normalize_pageSize_idem (pageSize : Z) :
  Spec.normalize_pageSize (Spec.normalize_pageSize pageSize)
  = Spec.normalize_pageSize pageSize.
Proof.
  unfold Spec.normalize_pageSize.
  destruct (Z.leb_spec pageSize 0); [reflexivity |].
  destruct (Z.leb_spec pageSize 0); [lia | reflexivity].
Qed.

Lemma paginate_in_range (page pageSize : Z) (l : list Project.t) :
  1 <= page -> 1 <= pageSize -> page * pageSize <= GoInt.max_int ->
  ProjectAccessService.paginate page pageSize l
  = Returns (Ok (Spec.page_of page pageSize l)).
Proof.
  intros Hp Hs Hmax.
  destruct (offsets_in_range page pageSize Hp Hs Hmax) as [Emul [Eadd H0]].
  unfold ProjectAccessService.paginate, Spec.page_of.
  unfold Spec.normalize_page, Spec.normalize_pageSize.
  destruct (Z.leb_spec page 0); [lia |].
  destruct (Z.leb_spec pageSize 0); [lia |].
  rewrite Emul, Eadd.
  destruct (Z.geb_spec ((page - 1) * pageSize) (len l)) as [Hge | Hlt];
    [reflexivity |].
  assert (Hlen : len (skipn (Z.to_nat ((page - 1) * pageSize)) l)
                 = len l - (page - 1) * pageSize).
  { unfold len in *. rewrite length_skipn. lia. }
  unfold slice.
  destruct (Z.gtb_spec (page * pageSize) (len l)) as [Hover | Hfit].
  - replace ((0 <=? (page - 1) * pageSize)
             && ((page - 1) * pageSize <=? len l) && (len l <=? len l))
      with true.
    2:{ symmetry. rewrite !andb_true_iff, !Z.leb_le. lia. }
    do 2 f_equal.
    rewrite !firstn_all2; [reflexivity | |]; unfold len in *; lia.
  - replace ((0 <=? (page - 1) * pageSize)
             && ((page - 1) * pageSize <=? page * pageSize)
             && (page * pageSize <=? len l))
      with true.
    2:{ symmetry. rewrite !andb_true_iff, !Z.leb_le. lia. }
    do 3 f_equal. lia.
Qed.

Lemma paginate_never_fails (page pageSize : Z) (l : list Project.t) (e : error) :
  ProjectAccessService.paginate page pageSize l <> Returns (Err e).
Proof.
  unfold ProjectAccessService.paginate.
  destruct (_ >=? _); [discriminate |].
  destruct (slice _ _ _); discriminate.
Qed.

(** When the pagination statements give the page, and when not. With the
    offset inside the list, the end [offset + pageSize] has to fit: past
    [max_int] it wraps to a negative number and the slice expression panics.
    With the offset at or past the end of the list, what the code compares
    with the length is the wrapped offset, and that has to be at or past the
    end too. *)
Lemma paginate_exactly (page pageSize : Z) (l : list Project.t) :
  1 <= page <= GoInt.max_int -> 1 <= pageSize <= GoInt.max_int ->
  len l <= GoInt.max_int ->
  let offset := (page - 1) * pageSize in
  ProjectAccessService.paginate page pageSize l
  = Returns (Ok (Spec.page_of page pageSize l))
  <-> (offset < len l /\ offset + pageSize <= GoInt.max_int)
      \/ (len l <= offset /\ len l <= GoInt.wrap offset).
Proof.
  intros Hp Hs Hl offset.
  assert (H0 : 0 <= offset) by (subst offset; nia).
  assert (Hlen : 0 <= len l) by (unfold len; lia).
  assert (Hstart : GoInt.mul (GoInt.sub page 1) pageSize = GoInt.wrap offset).
  { unfold GoInt.mul, GoInt.sub. rewrite (wrap_in_range (page - 1)); [reflexivity |].
    unfold GoInt.in_range, GoInt.min_int, GoInt.max_int in *. lia. }
  assert (Hpage : Spec.page_of page pageSize l
                  = if offset >=? len l then []
                    else firstn (Z.to_nat pageSize) (skipn (Z.to_nat offset) l)).
  { unfold Spec.page_of, Spec.normalize_page, Spec.normalize_pageSize.
    destruct (Z.leb_spec page 0); [lia |].
    destruct (Z.leb_spec pageSize 0); [lia |]. reflexivity. }
  split.
  - intros E. destruct (Z.lt_ge_cases offset (len l)) as [Hin | Hpast].
    + left. split; [exact Hin |].
      destruct (Z.le_gt_cases (offset + pageSize) GoInt.max_int) as [Hfit | Hover];
        [exact Hfit | exfalso].
      assert (Hneg : GoInt.wrap (offset + pageSize) < 0).
      { apply wrap_overflow. lia. }
      revert E. unfold ProjectAccessService.paginate. rewrite Hstart.
      rewrite (wrap_in_range offset).
      2:{ unfold GoInt.in_range, GoInt.min_int, GoInt.max_int in *. lia. }
      unfold GoInt.add.
      destruct (Z.geb_spec offset (len l)); [lia |].
      destruct (Z.gtb_spec (GoInt.wrap (offset + pageSize)) (len l)); [lia |].
      unfold slice.
      destruct (Z.leb_spec offset (GoInt.wrap (offset + pageSize))); [lia |].
      rewrite andb_false_r. discriminate.
    + right. split; [lia |].
      destruct (Z.le_gt_cases (len l) (GoInt.wrap offset)) as [Hok | Hbad];
        [exact Hok | exfalso].
      revert E. rewrite Hpage.
      replace (offset >=? len l) with true by (symmetry; apply Z.geb_le; lia).
      unfold ProjectAccessService.paginate. rewrite Hstart.
      pose proof (wrap_is_int offset) as Hint.
      set (start := GoInt.wrap offset) in *.
      destruct (Z.geb_spec start (len l)); [lia |].
      unfold GoInt.add.
      assert (He : GoInt.wrap (start + pageSize) <> start).
      { apply wrap_add_moves; [exact Hint | lia]. }
      set (e := GoInt.wrap (start + pageSize)) in *.
      set (e' := if e >? len l then len l else e).
      assert (He' : e' <> start).
      { subst e'. destruct (Z.gtb_spec e (len l)); lia. }
      unfold slice.
      destruct ((0 <=? start) && (start <=? e') && (e' <=? len l)) eqn:C;
        [| discriminate].
      intros E. injection E as E.
      apply (f_equal (@List.length _)) in E.
      rewrite length_firstn, length_skipn in E. simpl in E.
      rewrite !andb_true_iff, !Z.leb_le in C. unfold len in *. lia.
  - intros [[Hin Hfit] | [Hpast Hw]].
    + apply paginate_in_range; lia.
    + rewrite Hpage.
      replace (offset >=? len l) with true by (symmetry; apply Z.geb_le; lia).
      unfold ProjectAccessService.paginate. rewrite Hstart.
      now replace (GoInt.wrap offset >=? len l) with true
        by (symmetry; apply Z.geb_le; lia).
Qed.

(** Element by element: position [i] of the page is position [offset + i]
    of the list, for [i] below the page size, and nothing beyond. *)
Lemma page_of_nth {A : Type} (page pageSize : Z) (l : list A) (i : nat) :
  1 <= page -> 1 <= pageSize ->
  nth_error (Spec.page_of page pageSize l) i
  = if Z.of_nat i <? pageSize
    then nth_error l (Z.to_nat ((page - 1) * pageSize) + i)
    else None.
Proof.
  intros Hp Hs. unfold Spec.page_of, Spec.normalize_page, Spec.normalize_pageSize.
  destruct (Z.leb_spec page 0); [lia |].
  destruct (Z.leb_spec pageSize 0); [lia |].
  assert (Hoff : 0 <= (page - 1) * pageSize) by nia.
  destruct (Z.geb_spec ((page - 1) * pageSize) (len l)) as [Hge | Hlt].
  - destruct (Z.ltb_spec (Z.of_nat i) pageSize).
    + symmetry. rewrite nth_error_nil. apply nth_error_None. unfold len in *. lia.
    + now rewrite nth_error_nil.
  - destruct (Z.ltb_spec (Z.of_nat i) pageSize).
    + rewrite nth_error_firstn.
      replace (i <? Z.to_nat pageSize)%nat with true.
      2:{ symmetry. apply Nat.ltb_lt. lia. }
      apply nth_error_skipn.
    + rewrite nth_error_firstn.
      replace (i <? Z.to_nat pageSize)%nat with false; [reflexivity |].
      symmetry. apply Nat.ltb_ge. lia.
Qed.

Lemma page_of_length {A : Type} (page pageSize : Z) (l : list A) :
  1 <= page -> 1 <= pageSize ->
  len (Spec.page_of page pageSize l)
  = Z.max 0 (Z.min pageSize (len l - (page - 1) * pageSize)).
Proof.
  intros Hp Hs. unfold Spec.page_of, Spec.normalize_page, Spec.normalize_pageSize.
  destruct (Z.leb_spec page 0); [lia |].
  destruct (Z.leb_spec pageSize 0); [lia |].
  assert (Hoff : 0 <= (page - 1) * pageSize) by nia.
  destruct (Z.geb_spec ((page - 1) * pageSize) (len l)) as [Hge | Hlt].
  - unfold len in *. simpl. lia.
  - unfold len in *. rewrite length_firstn, length_skipn. lia.
Qed.

(** ** [ORDER BY created_at DESC] *)

Lemma insert_by_created_at_perm (p : Project.t) (l : list Project.t) :
  Permutation (p :: l) (ProjectRepository.insert_by_created_at p l).
Proof.
  induction l as [|q l IH]; simpl.
  - apply Permutation_refl.
  - destruct (Project.CreatedAt q <=? Project.CreatedAt p).
    + apply Permutation_refl.
    + eapply perm_trans; [apply perm_swap |]. now apply perm_skip.
Qed.

Lemma order_by_created_at_desc_perm (l : list Project.t) :
  Permutation l (ProjectRepository.order_by_created_at_desc l).
Proof.
  induction l as [|p l IH]; simpl.
  - apply perm_nil.
  - eapply perm_trans; [| apply insert_by_created_at_perm]. now apply perm_skip.
Qed.

Lemma insert_by_created_at_sorted (p : Project.t) (l : list Project.t) :
  StronglySorted Spec.more_recent l ->
  StronglySorted Spec.more_recent (ProjectRepository.insert_by_created_at p l).
Proof.
  induction l as [|q l IH]; simpl; intros Hs.
  - constructor; constructor.
  - inversion Hs as [|q' l' Hs' Hall]; subst.
    destruct (Z.leb_spec (Project.CreatedAt q) (Project.CreatedAt p)) as [Hle | Hgt].
    + constructor; [exact Hs |]. constructor; [exact Hle |].
      eapply Forall_impl; [| exact Hall]. unfold Spec.more_recent. intros; lia.
    + constructor; [now apply IH |].
      eapply Permutation_Forall; [apply insert_by_created_at_perm |].
      constructor; [unfold Spec.more_recent; lia | exact Hall].
Qed.

Lemma order_by_created_at_desc_sorted (l : list Project.t) :
  StronglySorted Spec.more_recent (ProjectRepository.order_by_created_at_desc l).
Proof.
  induction l as [|p l IH]; simpl.
  - constructor.
  - now apply insert_by_created_at_sorted.
Qed.

(** ** The set of owned ids and the resolving loop *)

Lemma existsb_perm {A : Type} (f : A -> bool) (l l' : list A) :
  Permutation l l' -> existsb f l = existsb f l'.
Proof.
  induction 1; simpl.
  - reflexivity.
  - now rewrite IHPermutation.
  - destruct (f x), (f y); reflexivity.
  - congruence.
Qed.

Lemma filter_length_perm {A : Type} (f : A -> bool) (l l' : list A) :
  Permutation l l' -> List.length (filter f l) = List.length (filter f l').
Proof.
  induction 1; simpl.
  - reflexivity.
  - destruct (f x); simpl; congruence.
  - destruct (f x), (f y); reflexivity.
  - congruence.
Qed.

Lemma ownedProjectIDs_from (l : list Project.t) (m : int64_set) (id : Z) :
  fold_left (fun m project => set_true m (Project.ID project)) l m id
  = existsb (fun p => Project.ID p =? id) l || m id.
Proof.
  revert m. induction l as [|p l IH]; simpl; intros m.
  - reflexivity.
  - rewrite IH. unfold set_true. rewrite (Z.eqb_sym id).
    destruct (Project.ID p =? id); simpl.
    + now rewrite orb_true_r.
    + reflexivity.
Qed.

Lemma ownedProjectIDs_member (l : list Project.t) (id : Z) :
  ProjectAccessService.ownedProjectIDs l id
  = existsb (fun p => Project.ID p =? id) l.
Proof.
  unfold ProjectAccessService.ownedProjectIDs.
  rewrite ownedProjectIDs_from. unfold make_set. apply orb_false_r.
Qed.

Lemma uniqueAccessibleProjectIDs_sql (t : sql.Tables) (userID : Z) :
  ProjectAccessService.uniqueAccessibleProjectIDs
    (ProjectAccessService.ownedProjectIDs (Spec.Owned t userID))
    (Spec.GrantedIds t userID)
  = Spec.GrantedIds' t userID.
Proof.
  unfold ProjectAccessService.uniqueAccessibleProjectIDs, Spec.GrantedIds'.
  apply filter_ext. intros id. now rewrite ownedProjectIDs_member.
Qed.

Lemma resolveAccessible_sql (ids : list Z) (acc : list Project.t) (db : sql.DB) :
  ProjectAccessService.resolveAccessible ids acc db
  = (acc ++ Spec.resolve (sql.tables db) ids,
     sql.mkDB (sql.tables db) (sql.now db)
              (sql.statements db ++ map sql.SelectProjectByID ids)
              (sql.server db)).
Proof.
  revert acc db. induction ids as [|id ids IH]; intros acc db.
  - simpl. rewrite !app_nil_r. now destruct db.
  - cbn [ProjectAccessService.resolveAccessible].
    cbn [ProjectRepositoryInterface.GetByID projectRepo].
    unfold ProjectRepository.GetByID.
    cbn [Spec.resolve flat_map map]. rewrite tables_sent.
    destruct (find _ _) as [p|]; rewrite IH; cbn; rewrite <- !app_assoc; reflexivity.
Qed.

(** The listing over the SQL repositories, before pagination is looked into:
    the early exit, or the pagination statements over the combined list. *)
Lemma GetAccessibleProjects_sql (db : sql.DB) (userID page pageSize : Z) :
  fst (ProjectAccessService.GetAccessibleProjects userID page pageSize db)
  = if (len (Spec.GrantedIds (sql.tables db) userID) =? 0)
       && (len (Spec.Owned (sql.tables db) userID) =? 0)
    then Returns (Ok [])
    else ProjectAccessService.paginate
           (Spec.normalize_page page) (Spec.normalize_pageSize pageSize)
           (Spec.combined (sql.tables db) userID).
Proof.
  unfold ProjectAccessService.GetAccessibleProjects.
  rewrite normalize_page_code, normalize_pageSize_code.
  cbn [ProjectRepositoryInterface.ListByOwner projectRepo
       ProjectAccessRepositoryInterface.GetProjectIDsByUserAccess projectAccessRepo].
  unfold ProjectRepository.ListByOwner,
    ProjectAccessRepository.GetProjectIDsByUserAccess.
  rewrite !tables_sent.
  fold (Spec.Owned (sql.tables db) userID).
  fold (Spec.GrantedIds (sql.tables db) userID).
  destruct ((len (Spec.GrantedIds (sql.tables db) userID) =? 0)
            && (len (Spec.Owned (sql.tables db) userID) =? 0)); [reflexivity |].
  rewrite uniqueAccessibleProjectIDs_sql.
  unfold Spec.combined, Spec.GrantedAccessible.
  destruct (Spec.GrantedIds' (sql.tables db) userID) as [|id ids] eqn:E.
  - cbn. now rewrite app_nil_r.
  - replace (len (id :: ids) =? 0) with false.
    2:{ symmetry. apply Z.eqb_neq. unfold len. simpl. lia. }
    rewrite resolveAccessible_sql. cbn [fst app]. now rewrite !tables_sent.
Qed.

Lemma GetAccessibleProjects_sql_in_range (db : sql.DB) (userID page pageSize : Z) :
  Spec.normalize_page page * Spec.normalize_pageSize pageSize <= GoInt.max_int ->
  fst (ProjectAccessService.GetAccessibleProjects userID page pageSize db)
  = Returns (Ok (Spec.accessibleProjects (sql.tables db) userID page pageSize)).
Proof.
  intros Hmax. rewrite GetAccessibleProjects_sql.
  pose proof (normalize_page_positive page) as Hp.
  pose proof (normalize_pageSize_positive pageSize) as Hs.
  unfold Spec.accessibleProjects.
  assert (Hnorm : Spec.page_of page pageSize (Spec.combined (sql.tables db) userID)
                  = Spec.page_of (Spec.normalize_page page)
                                 (Spec.normalize_pageSize pageSize)
                                 (Spec.combined (sql.tables db) userID)).
  { unfold Spec.page_of. now rewrite normalize_page_idem, normalize_pageSize_idem. }
  destruct ((len (Spec.GrantedIds (sql.tables db) userID) =? 0)
            && (len (Spec.Owned (sql.tables db) userID) =? 0)) eqn:E.
  - apply andb_true_iff in E. destruct E as [Eg Eo].
    apply Z.eqb_eq in Eg, Eo. unfold len in Eg, Eo.
    assert (Hg : Spec.GrantedIds (sql.tables db) userID = []).
    { destruct (Spec.GrantedIds _ _); [reflexivity | simpl in Eg; lia]. }
    assert (Ho : Spec.Owned (sql.tables db) userID = []).
    { destruct (Spec.Owned _ _); [reflexivity | simpl in Eo; lia]. }
    unfold Spec.combined, Spec.GrantedAccessible, Spec.GrantedIds'.
    rewrite Hg, Ho. cbn [filter Spec.resolve flat_map app].
    unfold Spec.page_of.
    replace (_ >=? len []) with true; [reflexivity |].
    symmetry. apply Z.geb_le. unfold len. simpl. nia.
  - rewrite Hnorm. now apply paginate_in_range.
Qed.

(** ** Keys *)

Lemma NoDup_map_filter {A B : Type} (key : A -> B) (f : A -> bool) (l : list A) :
  NoDup (map key l) -> NoDup (map key (filter f l)).
Proof.
  induction l as [|x l IH]; simpl; intros Hnd.
  - constructor.
  - inversion Hnd as [|k ks Hnotin Hnd']; subst.
    destruct (f x); simpl; [| now apply IH].
    constructor; [| now apply IH].
    intros Hin. apply Hnotin. apply in_map_iff in Hin.
    destruct Hin as [y [E Hy]]. apply filter_In in Hy.
    apply in_map_iff. exists y. tauto.
Qed.

Lemma filter_nothing {A : Type} (f : A -> bool) (l : list A) :
  (forall x, In x l -> f x = false) -> filter f l = [].
Proof.
  induction l as [|x l IH]; simpl; intros H.
  - reflexivity.
  - rewrite (H x (or_introl eq_refl)). apply IH. intros y Hy. apply H. now right.
Qed.

Lemma one_row_per_key {A : Type} (key : A -> Z) (l : list A) (x : A) :
  NoDup (map key l) -> In x l ->
  List.length (filter (fun y => key y =? key x) l) = 1%nat.
Proof.
  induction l as [|y l IH]; simpl; intros Hnd Hin.
  - contradiction.
  - inversion Hnd as [|k ks Hnotin Hnd']; subst.
    destruct Hin as [-> | Hin].
    + rewrite Z.eqb_refl. simpl. f_equal.
      rewrite filter_nothing; [reflexivity |].
      intros z Hz. apply Z.eqb_neq. intros E. apply Hnotin.
      rewrite <- E. now apply in_map.
    + destruct (Z.eqb_spec (key y) (key x)) as [E | _].
      * exfalso. apply Hnotin. rewrite E. now apply in_map.
      * now apply IH.
Qed.

Lemma existsb_filter {A : Type} (f g : A -> bool) (l : list A) :
  existsb f (filter g l) = existsb (fun x => f x && g x) l.
Proof.
  induction l as [|x l IH]; simpl.
  - reflexivity.
  - destruct (g x); simpl; rewrite IH.
    + now rewrite andb_true_r.
    + now rewrite andb_false_r.
Qed.

(** ** What a user sees *)

Lemma is_owned_in_table (t : sql.Tables) (userID id : Z) :
  Spec.is_owned t userID id
  = existsb (fun p => (Project.ID p =? id) && (Project.OwnerID p =? userID))
            (sql.projects t).
Proof.
  unfold Spec.is_owned, Spec.Owned.
  rewrite <- (existsb_perm _ _ _ (order_by_created_at_desc_perm _)).
  apply existsb_filter.
Qed.

Lemma resolve_ids (t : sql.Tables) (ids : list Z) (q : Project.t) :
  In q (Spec.resolve t ids) -> In (Project.ID q) ids /\ In q (sql.projects t).
Proof.
  unfold Spec.resolve. rewrite in_flat_map. intros [id [Hid Hq]].
  destruct (find _ _) as [p|] eqn:E; simpl in Hq; [| contradiction].
  destruct Hq as [<- | []]. apply find_some in E. destruct E as [Hin E].
  apply Z.eqb_eq in E. now subst.
Qed.

Lemma page_one_is_everything {A : Type} (pageSize : Z) (l : list A) :
  len l <= pageSize -> Spec.page_of 1 pageSize l = l.
Proof.
  intros Hlen. unfold Spec.page_of. cbn [Spec.normalize_page Z.leb Z.compare].
  pose proof (normalize_pageSize_positive pageSize) as Hs.
  assert (Hps : pageSize <= Spec.normalize_pageSize pageSize).
  { unfold Spec.normalize_pageSize. destruct (Z.leb_spec pageSize 0); lia. }
  replace ((1 - 1) * Spec.normalize_pageSize pageSize) with 0 by ring.
  destruct (Z.geb_spec 0 (len l)) as [Hempty | Hsome].
  - destruct l; [reflexivity | unfold len in Hempty; simpl in Hempty; lia].
  - simpl. apply firstn_all2. unfold len in *. lia.
Qed.

Lemma GetAccessibleProjects_first_page (db : sql.DB) (userID pageSize : Z) :
  len (Spec.combined (sql.tables db) userID) <= pageSize ->
  pageSize <= GoInt.max_int ->
  fst (ProjectAccessService.GetAccessibleProjects userID 1 pageSize db)
  = Returns (Ok (Spec.combined (sql.tables db) userID)).
Proof.
  intros Hlen Hmax.
  rewrite GetAccessibleProjects_sql_in_range.
  - unfold Spec.accessibleProjects. now rewrite page_one_is_everything.
  - cbn [Spec.normalize_page Z.leb Z.compare]. unfold Spec.normalize_pageSize.
    destruct (Z.leb_spec pageSize 0);
      unfold GoInt.max_int in *; lia.
Qed.

(** C2. Page one of a large enough page size is the whole combined list:
    the projects the user owns, then the projects of the granted ids that
    are not owned and that resolve. The owned part holds exactly the user's
    projects, most recently created first; the granted ids keep their fetch
    order and lose every id the user owns. Three owned projects and two
    grants on projects of others give five projects, owned ones first; and
    an owned project turns up exactly once, stray grant row or not. *)
Theorem GetAccessibleProjects_owned_first_then_granted (db : sql.DB) (U : Z) :
  let t := sql.tables db in
  let listing pageSize :=
    fst (ProjectAccessService.GetAccessibleProjects U 1 pageSize db) in
  (forall pageSize,
      len (Spec.combined t U) <= pageSize -> pageSize <= GoInt.max_int ->
      listing pageSize
      = Returns (Ok (Spec.Owned t U ++ Spec.resolve t (Spec.GrantedIds' t U))))
  /\ (Permutation (filter (fun p => Project.OwnerID p =? U) (sql.projects t))
                  (Spec.Owned t U)
      /\ StronglySorted Spec.more_recent (Spec.Owned t U))
  /\ Spec.GrantedIds' t U
     = filter (fun id =>
                 negb (existsb (fun p => (Project.ID p =? id)
                                         && (Project.OwnerID p =? U))
                               (sql.projects t)))
              (map ProjectAccess.ProjectID
                   (filter (fun a => ProjectAccess.UserID a =? U)
                           (sql.project_access t)))
  /\ (forall o1 o2 o3 g1 g2 p1 p2,
         Spec.Owned t U = [o1; o2; o3] ->
         Spec.GrantedIds t U = [g1; g2] ->
         Spec.is_owned t U g1 = false -> Spec.is_owned t U g2 = false ->
         find (fun p => Project.ID p =? g1) (sql.projects t) = Some p1 ->
         find (fun p => Project.ID p =? g2) (sql.projects t) = Some p2 ->
         listing 10 = Returns (Ok [o1; o2; o3; p1; p2]))
  /\ (forall p pageSize,
         NoDup (map Project.ID (sql.projects t)) ->
         In p (sql.projects t) -> Project.OwnerID p = U ->
         len (Spec.combined t U) <= pageSize -> pageSize <= GoInt.max_int ->
         exists l,
           listing pageSize = Returns (Ok l)
           /\ List.length (filter (fun q => Project.ID q =? Project.ID p) l) = 1%nat).
Proof.
  intros t listing. unfold listing.
  split; [| split; [| split; [| split]]].
  - intros pageSize Hlen Hmax. now apply GetAccessibleProjects_first_page.
  - split.
    + apply order_by_created_at_desc_perm.
    + apply order_by_created_at_desc_sorted.
  - unfold Spec.GrantedIds'. apply filter_ext. intros id.
    now rewrite is_owned_in_table.
  - intros o1 o2 o3 g1 g2 p1 p2 Ho Hg N1 N2 F1 F2.
    assert (Hall : Spec.combined t U = [o1; o2; o3; p1; p2]).
    { unfold Spec.combined, Spec.GrantedAccessible, Spec.GrantedIds'.
      rewrite Ho, Hg. cbn [filter]. rewrite N1, N2.
      cbn [negb Spec.resolve flat_map]. now rewrite F1, F2. }
    rewrite GetAccessibleProjects_first_page; fold t.
    + now rewrite Hall.
    + rewrite Hall. unfold len. simpl. lia.
    + unfold GoInt.max_int. lia.
  - intros p pageSize Hnd Hin Hown Hlen Hmax.
    exists (Spec.combined t U). split.
    + now apply GetAccessibleProjects_first_page.
    + unfold Spec.combined. rewrite filter_app, length_app.
      assert (Hmine : In p (filter (fun q => Project.OwnerID q =? U) (sql.projects t))).
      { apply filter_In. split; [exact Hin | now apply Z.eqb_eq]. }
      replace (List.length (filter (fun q => Project.ID q =? Project.ID p)
                                   (Spec.Owned t U))) with 1%nat.
      2:{ symmetry. unfold Spec.Owned.
          rewrite <- (filter_length_perm _ _ _ (order_by_created_at_desc_perm _)).
          apply one_row_per_key; [now apply NoDup_map_filter | exact Hmine]. }
      rewrite filter_nothing; [reflexivity |].
      intros q Hq. apply Z.eqb_neq. intros E.
      apply resolve_ids in Hq. destruct Hq as [Hq _].
      unfold Spec.GrantedIds' in Hq. apply filter_In in Hq. destruct Hq as [_ Hq].
      rewrite E in Hq. rewrite is_owned_in_table in Hq.
      apply negb_true_iff in Hq.
      assert (Hyes : existsb (fun q => (Project.ID q =? Project.ID p)
                                       && (Project.OwnerID q =? U))
                             (sql.projects t) = true).
      { apply existsb_exists. exists p. split; [exact Hin |].
        rewrite Z.eqb_refl. simpl. now apply Z.eqb_eq. }
      congruence.
Qed.

Lemma combined_of_nothing (t : sql.Tables) (userID : Z) :
  Spec.GrantedIds t userID = [] -> Spec.Owned t userID = [] ->
  Spec.combined t userID = [].
Proof.
  intros Hg Ho.
  unfold Spec.combined, Spec.GrantedAccessible, Spec.GrantedIds'.
  now rewrite Hg, Ho.
Qed.

(** C3 (as amended). Non-positive arguments are normalized, a page to 1
    and a page size to 10. With [offset = (page - 1) * pageSize] after
    normalization, the call returns the slice [offset, offset + pageSize) of
    the combined list exactly when the user has nothing to list, or the
    offset is inside the list and [offset + pageSize] fits in an [int], or
    the offset is at or past the end of the list and so is the offset the
    code computes, which is the offset wrapped to an [int]. So it does
    whenever the product of the normalized page and page size fits in an
    [int], and whenever the offset alone fits and the list has at most
    [2^62] projects. The slice has at position [i] what the list has at
    position [offset + i], for [i] below the page size, it stops where the
    list stops, and it is empty when the offset is at or past the length.
    With twelve visible projects and a page size of five, page three has two
    projects and page four none. *)
Theorem GetAccessibleProjects_page_of_combined
  (db : sql.DB) (U page pageSize : Z) :
  let t := sql.tables db in
  let page' := Spec.normalize_page page in
  let pageSize' := Spec.normalize_pageSize pageSize in
  let offset := (page' - 1) * pageSize' in
  let all := Spec.combined t U in
  let call := fst (ProjectAccessService.GetAccessibleProjects U page pageSize db) in
  let nothing := Spec.GrantedIds t U = [] /\ Spec.Owned t U = [] in
  let fits :=
    nothing
    \/ (offset < len all /\ offset + pageSize' <= GoInt.max_int)
    \/ (len all <= offset /\ len all <= GoInt.wrap offset) in
  (page <= 0 ->
   ProjectAccessService.GetAccessibleProjects U page pageSize db
   = ProjectAccessService.GetAccessibleProjects U 1 pageSize db)
  /\ (pageSize <= 0 ->
      ProjectAccessService.GetAccessibleProjects U page pageSize db
      = ProjectAccessService.GetAccessibleProjects U page 10 db)
  /\ (GoInt.in_range page -> GoInt.in_range pageSize ->
      len all <= GoInt.max_int ->
      (call = Returns (Ok (Spec.page_of page pageSize all)) <-> fits))
  /\ (page' * pageSize' <= GoInt.max_int
      \/ (GoInt.in_range page /\ GoInt.in_range pageSize
          /\ offset <= GoInt.max_int /\ len all <= 2 ^ 62) ->
      fits /\ call = Returns (Ok (Spec.page_of page pageSize all)))
  /\ ((forall i,
          nth_error (Spec.page_of page pageSize all) i
          = if Z.of_nat i <? pageSize'
            then nth_error all (Z.to_nat offset + i)
            else None)
      /\ len (Spec.page_of page pageSize all)
         = Z.max 0 (Z.min pageSize' (len all - offset))
      /\ (len all <= offset -> Spec.page_of page pageSize all = []))
  /\ (len all = 12 ->
      (exists l,
          fst (ProjectAccessService.GetAccessibleProjects U 3 5 db) = Returns (Ok l)
          /\ len l = 2)
      /\ fst (ProjectAccessService.GetAccessibleProjects U 4 5 db) = Returns (Ok [])).
Proof.
  intros t page' pageSize' offset all call nothing fits.
  pose proof (normalize_page_positive page) as Hp.
  pose proof (normalize_pageSize_positive pageSize) as Hs.
  fold page' in Hp. fold pageSize' in Hs.
  assert (H0 : 0 <= offset) by (subst offset; nia).
  assert (Hlen : 0 <= len all) by (unfold len; lia).
  assert (Hnorm : forall l : list Project.t,
             Spec.page_of page pageSize l = Spec.page_of page' pageSize' l).
  { intros l. unfold Spec.page_of, page', pageSize'.
    now rewrite normalize_page_idem, normalize_pageSize_idem. }
  assert (Hexact : GoInt.in_range page -> GoInt.in_range pageSize ->
                   len all <= GoInt.max_int ->
                   (call = Returns (Ok (Spec.page_of page pageSize all)) <-> fits)).
  { intros Hpage Hsize Hall.
    assert (Hp' : page' <= GoInt.max_int).
    { subst page'. unfold Spec.normalize_page, GoInt.in_range, GoInt.max_int in *.
      destruct (Z.leb_spec page 0); lia. }
    assert (Hs' : pageSize' <= GoInt.max_int).
    { subst pageSize'.
      unfold Spec.normalize_pageSize, GoInt.in_range, GoInt.max_int in *.
      destruct (Z.leb_spec pageSize 0); lia. }
    subst call. rewrite GetAccessibleProjects_sql. fold t.
    destruct ((len (Spec.GrantedIds t U) =? 0) && (len (Spec.Owned t U) =? 0))
      eqn:E.
    - apply andb_true_iff in E. destruct E as [Eg Eo].
      apply Z.eqb_eq in Eg, Eo. unfold len in Eg, Eo.
      assert (Hg : Spec.GrantedIds t U = []).
      { destruct (Spec.GrantedIds t U); [reflexivity | simpl in Eg; lia]. }
      assert (Ho : Spec.Owned t U = []).
      { destruct (Spec.Owned t U); [reflexivity | simpl in Eo; lia]. }
      split.
      + intros _. left. now split.
      + intros _. subst all. rewrite (combined_of_nothing t U Hg Ho).
        unfold Spec.page_of. destruct (_ >=? _); [reflexivity |].
        now rewrite skipn_nil, firstn_nil.
    - fold all. rewrite Hnorm.
      pose proof (paginate_exactly page' pageSize' all
                    (conj Hp Hp') (conj Hs Hs') Hall) as Hx.
      split.
      + intros H. right. apply Hx. exact H.
      + intros [[Hg Ho] | H]; [| apply Hx; exact H].
        rewrite Hg, Ho in E. discriminate. }
  split; [| split; [| split; [| split; [| split]]]].
  - intros Hle. unfold ProjectAccessService.GetAccessibleProjects.
    replace (page <? 1) with true by (symmetry; apply Z.ltb_lt; lia).
    reflexivity.
  - intros Hle. unfold ProjectAccessService.GetAccessibleProjects.
    replace (pageSize <? 1) with true by (symmetry; apply Z.ltb_lt; lia).
    reflexivity.
  - exact Hexact.
  - intros [Hmax | [Hpage [Hsize [Hoff Hall]]]].
    + split; [| now apply GetAccessibleProjects_sql_in_range].
      right. destruct (Z.lt_ge_cases offset (len all)) as [Hin | Hpast].
      * left. split; [exact Hin |].
        replace (offset + pageSize') with (page' * pageSize')
          by (subst offset; ring).
        exact Hmax.
      * right. split; [exact Hpast |]. rewrite wrap_in_range; [exact Hpast |].
        unfold GoInt.in_range, GoInt.min_int, GoInt.max_int in *. nia.
    + assert (Hfits : fits).
      { right. destruct (Z.lt_ge_cases offset (len all)) as [Hin | Hpast].
        - left. split; [exact Hin |].
          assert (Hs' : pageSize' <= GoInt.max_int).
          { subst pageSize'.
            unfold Spec.normalize_pageSize, GoInt.in_range, GoInt.max_int in *.
            destruct (Z.leb_spec pageSize 0); lia. }
          destruct (Z.eq_dec page' 1) as [E1 | N1].
          + subst offset. rewrite E1. lia.
          + assert (pageSize' <= offset) by (subst offset; nia).
            unfold GoInt.max_int. lia.
        - right. split; [exact Hpast |]. rewrite wrap_in_range; [exact Hpast |].
          unfold GoInt.in_range, GoInt.min_int, GoInt.max_int in *. lia. }
      split; [exact Hfits |].
      apply Hexact; [exact Hpage | exact Hsize | | exact Hfits].
      unfold GoInt.max_int. lia.
  - rewrite Hnorm. split; [| split].
    + intros i. now apply page_of_nth.
    + now apply page_of_length.
    + intros Hpast. unfold Spec.page_of. subst offset page' pageSize'.
      rewrite normalize_page_idem, normalize_pageSize_idem.
      now replace (_ >=? len all) with true
        by (symmetry; apply Z.geb_le; lia).
  - intros H12. split.
    + exists (Spec.page_of 3 5 all). split.
      * apply GetAccessibleProjects_sql_in_range. vm_compute. discriminate.
      * rewrite page_of_length by lia. rewrite H12. reflexivity.
    + rewrite GetAccessibleProjects_sql_in_range by (vm_compute; discriminate).
      unfold Spec.accessibleProjects, Spec.page_of. fold t. fold all.
      rewrite H12. reflexivity.
Qed.

(** ** Dangling grants *)

Lemma dangling_does_not_resolve (t : sql.Tables) (a : ProjectAccess.t) :
  Schema.dangling t a = true ->
  find (fun p => Project.ID p =? ProjectAccess.ProjectID a) (sql.projects t) = None.
Proof.
  unfold Schema.dangling. intros H. apply negb_true_iff in H.
  apply find_none_forall. intros p Hp.
  destruct (Project.ID p =? ProjectAccess.ProjectID a) eqn:E; [| reflexivity].
  assert (Hex : existsb (fun p => Project.ID p =? ProjectAccess.ProjectID a)
                        (sql.projects t) = true).
  { apply existsb_exists. now exists p. }
  congruence.
Qed.

Lemma resolve_without_dangling (t : sql.Tables) (keep : Z -> bool) (userID : Z)
  (rows : list ProjectAccess.t) :
  Spec.resolve t
    (filter keep
       (map ProjectAccess.ProjectID
            (filter (fun a => ProjectAccess.UserID a =? userID) rows)))
  = Spec.resolve t
      (filter keep
         (map ProjectAccess.ProjectID
              (filter (fun a => ProjectAccess.UserID a =? userID)
                      (filter (fun a => negb (Schema.dangling t a)) rows)))).
Proof.
  induction rows as [|a rows IH]; [reflexivity |].
  cbn [filter]. destruct (Schema.dangling t a) eqn:D; cbn [negb filter].
  - destruct (ProjectAccess.UserID a =? userID); [| exact IH].
    cbn [map filter]. destruct (keep (ProjectAccess.ProjectID a)); [| exact IH].
    cbn [Spec.resolve flat_map].
    rewrite (dangling_does_not_resolve t a D). exact IH.
  - destruct (ProjectAccess.UserID a =? userID); [| exact IH].
    cbn [map filter]. destruct (keep (ProjectAccess.ProjectID a)); [| exact IH].
    cbn [Spec.resolve flat_map]. f_equal. exact IH.
Qed.

Lemma combined_without_dangling (t : sql.Tables) (userID : Z) :
  Spec.combined (Schema.without_dangling t) userID = Spec.combined t userID.
Proof.
  unfold Spec.combined, Spec.GrantedAccessible, Spec.GrantedIds', Spec.GrantedIds.
  f_equal. symmetry.
  apply (resolve_without_dangling t (fun id => negb (Spec.is_owned t userID id))).
Qed.

(** C3, as the specification states it, fails once the offset arithmetic
    leaves the range of an [int]. With twelve visible projects, page
    [2^62 + 1] of size 4 has offset [2^64], far past the end, so the answer
    should be empty; the product wraps to 0 and the first four projects come
    back. For page [2^63 - 1] of size 10 the wrapped offset is negative and
    the slice expression panics. *)
Lemma GetAccessibleProjects_page_wraps_around :
  GoInt.in_range (2 ^ 62 + 1) /\ GoInt.in_range 4
  /\ Spec.accessibleProjects (sql.tables Scenario.twelve) 1 (2 ^ 62 + 1) 4 = []
  /\ fst (ProjectAccessService.GetAccessibleProjects 1 (2 ^ 62 + 1) 4 Scenario.twelve)
     = Returns (Ok (firstn 4 (Spec.combined (sql.tables Scenario.twelve) 1)))
  /\ fst (ProjectAccessService.GetAccessibleProjects 1 (2 ^ 62 + 1) 4 Scenario.twelve)
     <> Returns (Ok (Spec.accessibleProjects (sql.tables Scenario.twelve) 1
                                             (2 ^ 62 + 1) 4))
  /\ fst (ProjectAccessService.GetAccessibleProjects 1 (2 ^ 63 - 1) 10 Scenario.twelve)
     = Panics.
Proof.
  split; [vm_compute; split; discriminate |].
  split; [vm_compute; split; discriminate |].
  split; [vm_compute; reflexivity |].
  split; [vm_compute; reflexivity |].
  split; [vm_compute; discriminate | vm_compute; reflexivity].
Qed.

(** ** The listing over any repositories *)

Section AnyRepositories.

Context {R : Type}
        {accessRepo : ProjectAccessRepositoryInterface.t R}
        {projRepo : ProjectRepositoryInterface.t R}.

Lemma GetAccessibleProjects_never_fails_after_fetch
  (U page pageSize : Z) (r r1 r2 : R) (owned : list Project.t) (ids : list Z)
  (e : error) :
  ProjectRepositoryInterface.ListByOwner U r = (Ok owned, r1) ->
  ProjectAccessRepositoryInterface.GetProjectIDsByUserAccess U r1 = (Ok ids, r2) ->
  fst (ProjectAccessService.GetAccessibleProjects U page pageSize r)
  <> Returns (Err e).
Proof.
  intros Ho Hi. unfold ProjectAccessService.GetAccessibleProjects.
  rewrite Ho, Hi.
  destruct (_ && _); [discriminate |].
  destruct (len _ =? 0); [apply paginate_never_fails |].
  destruct (ProjectAccessService.resolveAccessible _ _ _).
  apply paginate_never_fails.
Qed.

Lemma GetAccessibleProjects_returns_after_fetch
  (U page pageSize : Z) (r r1 r2 : R) (owned : list Project.t) (ids : list Z) :
  ProjectRepositoryInterface.ListByOwner U r = (Ok owned, r1) ->
  ProjectAccessRepositoryInterface.GetProjectIDsByUserAccess U r1 = (Ok ids, r2) ->
  Spec.normalize_page page * Spec.normalize_pageSize pageSize <= GoInt.max_int ->
  exists l,
    fst (ProjectAccessService.GetAccessibleProjects U page pageSize r)
    = Returns (Ok l).
Proof.
  intros Ho Hi Hmax. unfold ProjectAccessService.GetAccessibleProjects.
  rewrite Ho, Hi, normalize_page_code, normalize_pageSize_code.
  pose proof (normalize_page_positive page) as Hp.
  pose proof (normalize_pageSize_positive pageSize) as Hs.
  destruct (_ && _); [now eexists |].
  destruct (len _ =? 0).
  - rewrite paginate_in_range by assumption. now eexists.
  - destruct (ProjectAccessService.resolveAccessible _ _ _).
    rewrite paginate_in_range by assumption. now eexists.
Qed.

Lemma GetAccessibleProjects_nothing_to_list
  (U page pageSize : Z) (r r1 r2 : R) :
  ProjectRepositoryInterface.ListByOwner U r = (Ok [], r1) ->
  ProjectAccessRepositoryInterface.GetProjectIDsByUserAccess U r1 = (Ok [], r2) ->
  ProjectAccessService.GetAccessibleProjects U page pageSize r
  = (Returns (Ok []), r2).
Proof.
  intros Ho Hi. unfold ProjectAccessService.GetAccessibleProjects.
  now rewrite Ho, Hi.
Qed.

End AnyRepositories.

(** C9. Whatever the repositories are, once the two fetches have succeeded
    the listing never returns an error, however many project lookups fail
    in the resolving loop, and for arguments in range it returns a list.
    Over the SQL repositories the answer is the one the tables give once
    their dangling access rows are deleted. A user with no owned project
    and no grant gets the empty list, and the store is left as the two
    fetches left it: no lookup of a project by id is made. *)
Theorem GetAccessibleProjects_skips_failed_lookups :
  (forall (R : Type) (accessRepo : ProjectAccessRepositoryInterface.t R)
          (projRepo : ProjectRepositoryInterface.t R)
          (U page pageSize : Z) (r r1 r2 : R)
          (owned : list Project.t) (ids : list Z),
      ProjectRepositoryInterface.ListByOwner U r = (Ok owned, r1) ->
      ProjectAccessRepositoryInterface.GetProjectIDsByUserAccess U r1 = (Ok ids, r2) ->
      (forall e,
          fst (ProjectAccessService.GetAccessibleProjects U page pageSize r)
          <> Returns (Err e))
      /\ (Spec.normalize_page page * Spec.normalize_pageSize pageSize
          <= GoInt.max_int ->
          exists l,
            fst (ProjectAccessService.GetAccessibleProjects U page pageSize r)
            = Returns (Ok l))
      /\ (owned = [] -> ids = [] ->
          ProjectAccessService.GetAccessibleProjects U page pageSize r
          = (Returns (Ok []), r2)))
  /\ (forall (db : sql.DB) (U page pageSize : Z),
         (forall e,
             fst (ProjectAccessService.GetAccessibleProjects U page pageSize db)
             <> Returns (Err e))
         /\ (Spec.normalize_page page * Spec.normalize_pageSize pageSize
             <= GoInt.max_int ->
             fst (ProjectAccessService.GetAccessibleProjects U page pageSize db)
             = Returns (Ok (Spec.accessibleProjects
                              (Schema.without_dangling (sql.tables db))
                              U page pageSize)))
         /\ ((forall p, In p (sql.projects (sql.tables db)) ->
                        Project.OwnerID p <> U) ->
             (forall a, In a (sql.project_access (sql.tables db)) ->
                        ProjectAccess.UserID a <> U) ->
             fst (ProjectAccessService.GetAccessibleProjects U page pageSize db)
             = Returns (Ok [])
             /\ sql.tables (snd (ProjectAccessService.GetAccessibleProjects
                                   U page pageSize db))
                = sql.tables db
             /\ sql.statements (snd (ProjectAccessService.GetAccessibleProjects
                                       U page pageSize db))
                = sql.statements db
                  ++ [sql.SelectProjectsByOwner U; sql.SelectProjectIDsByUser U])).
Proof.
  split.
  - intros R accessRepo projRepo U page pageSize r r1 r2 owned ids Ho Hi.
    split; [| split].
    + intros e. eapply GetAccessibleProjects_never_fails_after_fetch; eassumption.
    + intros Hmax.
      eapply GetAccessibleProjects_returns_after_fetch; eassumption.
    + intros -> ->. now apply GetAccessibleProjects_nothing_to_list with (r1 := r1).
  - intros db U page pageSize. split; [| split].
    + intros e.
      eapply GetAccessibleProjects_never_fails_after_fetch; reflexivity.
    + intros Hmax. rewrite GetAccessibleProjects_sql_in_range by assumption.
      unfold Spec.accessibleProjects. now rewrite combined_without_dangling.
    + intros Hnone Hnogrant.
      assert (Ho : filter (fun p => Project.OwnerID p =? U)
                          (sql.projects (sql.tables db)) = []).
      { apply filter_nothing. intros p Hp. apply Z.eqb_neq. now apply Hnone. }
      assert (Hg : filter (fun a => ProjectAccess.UserID a =? U)
                          (sql.project_access (sql.tables db)) = []).
      { apply filter_nothing. intros a Ha. apply Z.eqb_neq. now apply Hnogrant. }
      rewrite (GetAccessibleProjects_nothing_to_list U page pageSize db
                 (sql.sent (sql.SelectProjectsByOwner U) db)
                 (sql.sent (sql.SelectProjectIDsByUser U)
                           (sql.sent (sql.SelectProjectsByOwner U) db))).
      * cbn. now rewrite <- app_assoc.
      * cbn [ProjectRepositoryInterface.ListByOwner projectRepo].
        unfold ProjectRepository.ListByOwner. rewrite tables_sent, Ho. reflexivity.
      * cbn [ProjectAccessRepositoryInterface.GetProjectIDsByUserAccess
               projectAccessRepo].
        unfold ProjectAccessRepository.GetProjectIDsByUserAccess.
        rewrite !tables_sent, Hg. reflexivity.
Qed.

(** ** The handlers of [ProjectAccessHandler] *)

Lemma IsOwner_sql (projectID userID : Z) (db : sql.DB) :
  ProjectService.IsOwner projectID userID db
  = (match find (fun p => Project.ID p =? projectID)
                (sql.projects (sql.tables db)) with
     | Some p => Ok (Project.OwnerID p =? userID)
     | None => Err ErrProjectNotFound
     end,
     sql.sent (sql.SelectProjectByID projectID) db).
Proof.
  unfold ProjectService.IsOwner, bind, ret.
  cbn [ProjectRepositoryInterface.GetByID projectRepo].
  unfold ProjectRepository.GetByID. rewrite tables_sent.
  now destruct (find _ _).
Qed.

Lemma find_project_exists (t : sql.Tables) (projectID : Z) :
  (exists p, In p (sql.projects t) /\ Project.ID p = projectID) ->
  exists p, find (fun q => Project.ID q =? projectID) (sql.projects t) = Some p
            /\ In p (sql.projects t) /\ Project.ID p = projectID.
Proof.
  intros [p [Hin Hid]].
  destruct (find (fun q => Project.ID q =? projectID) (sql.projects t)) as [q|] eqn:E.
  - exists q. split; [reflexivity |]. apply find_some in E.
    destruct E as [Hq E]. apply Z.eqb_eq in E. now split.
  - exfalso. pose proof (find_none _ _ E p Hin) as H. simpl in H.
    apply Z.eqb_neq in H. contradiction.
Qed.

Lemma find_project_missing (t : sql.Tables) (projectID : Z) :
  (forall p, In p (sql.projects t) -> Project.ID p <> projectID) ->
  find (fun q => Project.ID q =? projectID) (sql.projects t) = None.
Proof.
  intros H. apply find_none_forall. intros p Hp. apply Z.eqb_neq. now apply H.
Qed.

(** What the three handlers answer to someone who does not own the named
    project, and when the named project does not exist. *)
Lemma handlers_refuse_non_owner (db : sql.DB) (projectID : Z) (user : User.t) :
  (exists p, In p (sql.projects (sql.tables db)) /\ Project.ID p = projectID) ->
  (forall p, In p (sql.projects (sql.tables db)) -> Project.ID p = projectID ->
             Project.OwnerID p <> User.ID user) ->
  ProjectService.IsOwner projectID (User.ID user) db
  = (Ok false, sql.sent (sql.SelectProjectByID projectID) db).
Proof.
  intros Hex Hnot. rewrite IsOwner_sql.
  destruct (find_project_exists _ _ Hex) as [p [-> [Hin Hid]]].
  f_equal. f_equal. apply Z.eqb_neq. now apply Hnot.
Qed.

Lemma handlers_miss_project (db : sql.DB) (projectID userID : Z) :
  (forall p, In p (sql.projects (sql.tables db)) -> Project.ID p <> projectID) ->
  ProjectService.IsOwner projectID userID db
  = (Err ErrProjectNotFound, sql.sent (sql.SelectProjectByID projectID) db).
Proof.
  intros Hmiss. rewrite IsOwner_sql. now rewrite find_project_missing.
Qed.

(** C8 (as amended). A well-formed grant, update or revoke call that names
    an existing project, made by a user who does not own it, is answered
    403 Forbidden whatever the role of the user, whatever grant id it
    names and whoever the target user is, and the tables stay as they
    were. When the named project does not exist the answer is 404 Not
    Found instead, and the tables stay as they were too. *)
Theorem non_owner_calls_are_forbidden
  (db : sql.DB) (projectID : Z) (user : User.t)
  (grant : gin.Context ProjectAccessCreate.t)
  (update : gin.Context ProjectAccessUpdate.t)
  (revoke : gin.Context unit) :
  gin.ParamID grant = Some projectID -> gin.GetUser grant = Some user ->
  gin.ShouldBindJSON grant <> None ->
  gin.ParamID update = Some projectID -> gin.GetUser update = Some user ->
  gin.ParamAccessID update <> None -> gin.ShouldBindJSON update <> None ->
  gin.ParamID revoke = Some projectID -> gin.GetUser revoke = Some user ->
  gin.ParamAccessID revoke <> None ->
  ((exists p, In p (sql.projects (sql.tables db)) /\ Project.ID p = projectID) ->
   (forall p, In p (sql.projects (sql.tables db)) -> Project.ID p = projectID ->
              Project.OwnerID p <> User.ID user) ->
   (gin.Status (fst (ProjectAccessHandler.GrantAccess grant db)) = http.StatusForbidden
    /\ sql.tables (snd (ProjectAccessHandler.GrantAccess grant db)) = sql.tables db)
   /\ (gin.Status (fst (ProjectAccessHandler.UpdateAccess update db))
       = http.StatusForbidden
       /\ sql.tables (snd (ProjectAccessHandler.UpdateAccess update db))
          = sql.tables db)
   /\ (gin.Status (fst (ProjectAccessHandler.RevokeAccess revoke db))
       = http.StatusForbidden
       /\ sql.tables (snd (ProjectAccessHandler.RevokeAccess revoke db))
          = sql.tables db))
  /\ ((forall p, In p (sql.projects (sql.tables db)) -> Project.ID p <> projectID) ->
      (gin.Status (fst (ProjectAccessHandler.GrantAccess grant db)) = http.StatusNotFound
       /\ sql.tables (snd (ProjectAccessHandler.GrantAccess grant db)) = sql.tables db)
      /\ (gin.Status (fst (ProjectAccessHandler.UpdateAccess update db))
          = http.StatusNotFound
          /\ sql.tables (snd (ProjectAccessHandler.UpdateAccess update db))
             = sql.tables db)
      /\ (gin.Status (fst (ProjectAccessHandler.RevokeAccess revoke db))
          = http.StatusNotFound
          /\ sql.tables (snd (ProjectAccessHandler.RevokeAccess revoke db))
             = sql.tables db)).
Proof.
  intros Gp Gu Gb Up Uu Ua Ub Rp Ru Ra.
  unfold ProjectAccessHandler.GrantAccess, ProjectAccessHandler.UpdateAccess,
    ProjectAccessHandler.RevokeAccess.
  rewrite Gp, Gu, Up, Uu, Rp, Ru.
  destruct (gin.ShouldBindJSON grant) as [accessCreate|]; [| contradiction].
  destruct (gin.ShouldBindJSON update) as [accessUpdate|]; [| contradiction].
  destruct (gin.ParamAccessID update) as [updateID|]; [| contradiction].
  destruct (gin.ParamAccessID revoke) as [revokeID|]; [| contradiction].
  split.
  - intros Hex Hnot. rewrite (handlers_refuse_non_owner db projectID user Hex Hnot).
    cbn. repeat split.
  - intros Hmiss. rewrite (handlers_miss_project db projectID (User.ID user) Hmiss).
    cbn. repeat split.
Qed.

(** C8, as the specification states it, fails for a project that does not
    exist: Carol, a tester who owns no project, asks to grant, update and
    revoke access on project 99 and is answered 404, not 403. *)
Lemma non_owner_call_on_missing_project_is_not_found :
  User.Role_ Scenario.carol <> RoleAdmin
  /\ (forall p, In p (sql.projects (sql.tables Scenario.shared)) ->
                Project.OwnerID p <> User.ID Scenario.carol)
  /\ gin.Status
       (fst (ProjectAccessHandler.GrantAccess
               (Scenario.as_user Scenario.carol (Some 99) None
                  (Some (ProjectAccessCreate.mk 1 AccessLevelView)))
               Scenario.shared))
     <> http.StatusForbidden
  /\ gin.Status
       (fst (ProjectAccessHandler.UpdateAccess
               (Scenario.as_user Scenario.carol (Some 99) (Some 1)
                  (Some (ProjectAccessUpdate.mk AccessLevelEdit)))
               Scenario.shared))
     <> http.StatusForbidden
  /\ gin.Status
       (fst (ProjectAccessHandler.RevokeAccess
               (Scenario.as_user Scenario.carol (Some 99) (Some 1) (Some tt))
               Scenario.shared))
     = http.StatusNotFound.
Proof.
  split; [discriminate |].
  split.
  - vm_compute. intros p [<- | [<- | []]]; discriminate.
  - vm_compute. repeat split; discriminate.
Qed.

Lemma shared_reachable : System.reachable Scenario.shared.
Proof. exists Scenario.mysql, Scenario.setup. reflexivity. Qed.

Lemma listing_reachable : System.reachable Scenario.listing.
Proof.
  exists Scenario.mysql, (Scenario.setup ++ Scenario.more).
  vm_compute. reflexivity.
Qed.

(** C1 fails on the code. In the installation of [Scenario.shared] Alice
    owns project 1 only; access row 1 belongs to project 2, which Bob
    owns. Alice names her own project in the path and row 1 as the grant:
    the update is answered 200 and raises Carol's level on Bob's project to
    edit, and the revoke is answered 200 and deletes the row. *)
Lemma owner_of_another_project_changes_grant :
  let update :=
    Scenario.as_user Scenario.alice (Some 1) (Some 1)
                     (Some (ProjectAccessUpdate.mk AccessLevelEdit)) in
  let revoke := Scenario.as_user Scenario.alice (Some 1) (Some 1) (Some tt) in
  System.reachable Scenario.shared
  /\ sql.project_access (sql.tables Scenario.shared)
     = [ProjectAccess.mk 1 2 3 AccessLevelView 6 6]
  /\ fst (ProjectService.IsOwner 2 (User.ID Scenario.alice) Scenario.shared)
     = Ok false
  /\ gin.Status (fst (ProjectAccessHandler.UpdateAccess update Scenario.shared))
     = http.StatusOK
  /\ sql.project_access
       (sql.tables (snd (ProjectAccessHandler.UpdateAccess update Scenario.shared)))
     = [ProjectAccess.mk 1 2 3 AccessLevelEdit 6 7]
  /\ gin.Status (fst (ProjectAccessHandler.RevokeAccess revoke Scenario.shared))
     = http.StatusOK
  /\ sql.project_access
       (sql.tables (snd (ProjectAccessHandler.RevokeAccess revoke Scenario.shared)))
     = [].
Proof.
  intros update revoke. split; [exact shared_reachable |].
  vm_compute. repeat split.
Qed.

(** ** Granting *)

Lemma Create_duplicate (db : sql.DB) (access a : ProjectAccess.t) :
  In a (sql.project_access (sql.tables db)) ->
  ProjectAccess.ProjectID a = ProjectAccess.ProjectID access ->
  ProjectAccess.UserID a = ProjectAccess.UserID access ->
  ProjectAccessRepository.Create access db
  = (Err ErrProjectAccessExists,
     sql.sent (sql.CountAccess (ProjectAccess.ProjectID access)
                               (ProjectAccess.UserID access)) db).
Proof.
  intros Hin Hp Hu. unfold ProjectAccessRepository.Create.
  cbv zeta. rewrite tables_sent, count_positive.
  replace (existsb _ _) with true; [reflexivity |].
  symmetry. apply has_view_rows. now exists a.
Qed.

Lemma GrantAccess_duplicate (db : sql.DB) (projectID : Z)
  (accessCreate : ProjectAccessCreate.t) (p : Project.t) (u : User.t)
  (a : ProjectAccess.t) :
  find (fun q => Project.ID q =? projectID) (sql.projects (sql.tables db)) = Some p ->
  find (fun v => User.ID v =? ProjectAccessCreate.UserID accessCreate)
       (sql.users (sql.tables db)) = Some u ->
  In a (sql.project_access (sql.tables db)) ->
  ProjectAccess.ProjectID a = projectID ->
  ProjectAccess.UserID a = ProjectAccessCreate.UserID accessCreate ->
  fst (ProjectAccessService.GrantAccess projectID accessCreate db)
  = Err ErrProjectAccessExists
  /\ sql.tables (snd (ProjectAccessService.GrantAccess projectID accessCreate db))
     = sql.tables db.
Proof.
  intros Hp Hu Hin Ea Eu.
  unfold ProjectAccessService.GrantAccess, bind.
  cbn [ProjectRepositoryInterface.GetByID projectRepo
       UserRepositoryInterface.GetByID userRepo
       ProjectAccessRepositoryInterface.Create projectAccessRepo].
  unfold ProjectRepository.GetByID, UserRepository.GetByID.
  rewrite tables_sent, Hp. cbv beta iota zeta.
  rewrite !tables_sent, Hu. cbv beta iota zeta.
  rewrite (Create_duplicate _ _ a); [split; reflexivity | | |]; auto.
Qed.

Lemma find_user_exists (t : sql.Tables) (userID : Z) :
  (exists u, In u (sql.users t) /\ User.ID u = userID) ->
  exists u, find (fun v => User.ID v =? userID) (sql.users t) = Some u.
Proof.
  intros [u [Hin Hid]].
  destruct (find (fun v => User.ID v =? userID) (sql.users t)) as [v|] eqn:E.
  - now exists v.
  - exfalso. pose proof (find_none _ _ E u Hin) as H. simpl in H.
    apply Z.eqb_neq in H. contradiction.
Qed.

Lemma GrantAccess_handler_duplicate (db : sql.DB)
  (c : gin.Context ProjectAccessCreate.t) (projectID : Z)
  (accessCreate : ProjectAccessCreate.t) (user : User.t) (p : Project.t)
  (a : ProjectAccess.t) :
  gin.ParamID c = Some projectID ->
  gin.ShouldBindJSON c = Some accessCreate ->
  gin.GetUser c = Some user ->
  NoDup (map Project.ID (sql.projects (sql.tables db))) ->
  In p (sql.projects (sql.tables db)) -> Project.ID p = projectID ->
  Project.OwnerID p = User.ID user ->
  ProjectAccessCreate.UserID accessCreate <> User.ID user ->
  (exists u, In u (sql.users (sql.tables db))
             /\ User.ID u = ProjectAccessCreate.UserID accessCreate) ->
  In a (sql.project_access (sql.tables db)) ->
  ProjectAccess.ProjectID a = projectID ->
  ProjectAccess.UserID a = ProjectAccessCreate.UserID accessCreate ->
  gin.Status (fst (ProjectAccessHandler.GrantAccess c db)) = http.StatusConflict
  /\ sql.tables (snd (ProjectAccessHandler.GrantAccess c db)) = sql.tables db.
Proof.
  intros Hp Hb Hu Hnd Hin Hid Hown Hself Huser Ha Eap Eau.
  assert (Hfind : find (fun q => Project.ID q =? projectID)
                       (sql.projects (sql.tables db)) = Some p).
  { rewrite <- Hid. now apply find_by_key. }
  destruct (find_user_exists _ _ Huser) as [u Hfu].
  unfold ProjectAccessHandler.GrantAccess. rewrite Hp, Hb, Hu, IsOwner_sql, Hfind.
  replace (Project.OwnerID p =? User.ID user) with true
    by (symmetry; now apply Z.eqb_eq).
  replace (ProjectAccessCreate.UserID accessCreate =? User.ID user) with false
    by (symmetry; now apply Z.eqb_neq).
  cbn [negb].
  destruct (GrantAccess_duplicate
              (sql.sent (sql.SelectProjectByID projectID) db)
              projectID accessCreate p u a) as [E1 E2]; auto.
  destruct (ProjectAccessService.GrantAccess projectID accessCreate _)
    as [res db2]. simpl in E1, E2. subst res. cbn. split; [reflexivity | exact E2].
Qed.

Lemma GrantAccess_handler_self (db : sql.DB)
  (c : gin.Context ProjectAccessCreate.t)
  (accessCreate : ProjectAccessCreate.t) (user : User.t) :
  gin.ShouldBindJSON c = Some accessCreate ->
  gin.GetUser c = Some user ->
  ProjectAccessCreate.UserID accessCreate = User.ID user ->
  sql.tables (snd (ProjectAccessHandler.GrantAccess c db)) = sql.tables db
  /\ (forall projectID p,
         gin.ParamID c = Some projectID ->
         NoDup (map Project.ID (sql.projects (sql.tables db))) ->
         In p (sql.projects (sql.tables db)) -> Project.ID p = projectID ->
         Project.OwnerID p = User.ID user ->
         fst (ProjectAccessHandler.GrantAccess c db)
         = gin.JSON http.StatusBadRequest
                    (gin.H_error "You can't grant access to yourself as the owner")).
Proof.
  intros Hb Hu Hself. unfold ProjectAccessHandler.GrantAccess.
  rewrite Hb, Hu, Hself, Z.eqb_refl. split.
  - destruct (gin.ParamID c) as [projectID|]; [| reflexivity].
    rewrite IsOwner_sql. destruct (find _ _) as [p|]; [| reflexivity].
    now destruct (Project.OwnerID p =? User.ID user).
  - intros projectID p Hp Hnd Hin Hid Hown. rewrite Hp, IsOwner_sql.
    rewrite <- Hid, (find_by_key Project.ID _ p Hnd Hin).
    replace (Project.OwnerID p =? User.ID user) with true
      by (symmetry; now apply Z.eqb_eq).
    reflexivity.
Qed.

(** ** The constraints are kept *)

Lemma NoDup_snoc {A : Type} (l : list A) (x : A) :
  NoDup l -> ~ In x l -> NoDup (l ++ [x]).
Proof.
  intros Hnd Hx. apply NoDup_app; [exact Hnd | repeat constructor; auto |].
  intros y Hy [<- | []]. contradiction.
Qed.

Ltac open_consistent :=
  unfold Schema.consistent, Schema.projects_primary_key,
    Schema.access_references_project, Schema.access_references_user,
    Schema.unique_project_user, Schema.no_grant_to_owner in *;
  cbn [sql.projects sql.project_access sql.users sql.projects_auto_increment].

Lemma consistent_insert_user (t : sql.Tables) (row : User.t) (n : Z) :
  Schema.consistent t ->
  Schema.consistent
    (sql.mkTables (sql.projects t) (sql.project_access t) (sql.users t ++ [row])
                  (sql.projects_auto_increment t)
                  (sql.project_access_auto_increment t) n).
Proof.
  intros [Hpk [Hfk [Hfu [Huq Hno]]]]. open_consistent.
  repeat split; try tauto.
  eapply Forall_impl; [| exact Hfu]. intros a Ha. cbv beta in *.
  rewrite map_app. apply in_or_app. now left.
Qed.

Lemma consistent_insert_access (t : sql.Tables) (row : ProjectAccess.t) (n : Z) :
  Schema.consistent t ->
  existsb (ProjectAccessRepository.for_project_and_user
             (ProjectAccess.ProjectID row) (ProjectAccess.UserID row))
          (sql.project_access t) = false ->
  existsb (fun p => Project.ID p =? ProjectAccess.ProjectID row) (sql.projects t)
  = true ->
  existsb (fun u => User.ID u =? ProjectAccess.UserID row) (sql.users t) = true ->
  (forall p, In p (sql.projects t) -> Project.ID p = ProjectAccess.ProjectID row ->
             ProjectAccess.UserID row <> Project.OwnerID p) ->
  Schema.consistent
    (sql.mkTables (sql.projects t) (sql.project_access t ++ [row]) (sql.users t)
                  (sql.projects_auto_increment t) n (sql.users_auto_increment t)).
Proof.
  intros [Hpk [Hfk [Hfu [Huq Hno]]]] Hnew Hproj Huser Hown. open_consistent.
  split; [exact Hpk |]. split; [| split; [| split]].
  - apply Forall_app. split; [exact Hfk |]. constructor; [| constructor].
    apply existsb_exists in Hproj. destruct Hproj as [p [Hp E]].
    apply Z.eqb_eq in E. rewrite <- E. now apply in_map.
  - apply Forall_app. split; [exact Hfu |]. constructor; [| constructor].
    apply existsb_exists in Huser. destruct Huser as [u [Hu E]].
    apply Z.eqb_eq in E. rewrite <- E. now apply in_map.
  - rewrite map_app. cbn [map]. apply NoDup_snoc; [exact Huq |].
    intros Hin. apply in_map_iff in Hin. destruct Hin as [a [E Ha]].
    unfold Schema.project_user in E. inversion E as [[E1 E2]].
    assert (Hyes : existsb (ProjectAccessRepository.for_project_and_user
                              (ProjectAccess.ProjectID row)
                              (ProjectAccess.UserID row))
                           (sql.project_access t) = true).
    { apply has_view_rows. now exists a. }
    congruence.
  - intros a p Ha Hp E. apply in_app_or in Ha. destruct Ha as [Ha | [<- | []]].
    + now apply (Hno a p).
    + now apply Hown.
Qed.

Lemma consistent_set_level (t : sql.Tables) (id : Z) (level : AccessLevel)
  (now : Z) :
  Schema.consistent t ->
  Schema.consistent
    (sql.mkTables (sql.projects t)
                  (map (ProjectAccessRepository.set_level id level now)
                       (sql.project_access t))
                  (sql.users t) (sql.projects_auto_increment t)
                  (sql.project_access_auto_increment t)
                  (sql.users_auto_increment t)).
Proof.
  intros [Hpk [Hfk [Hfu [Huq Hno]]]].
  assert (Hsame : forall a,
             ProjectAccess.ProjectID
               (ProjectAccessRepository.set_level id level now a)
             = ProjectAccess.ProjectID a
             /\ ProjectAccess.UserID
                  (ProjectAccessRepository.set_level id level now a)
                = ProjectAccess.UserID a).
  { intros a. unfold ProjectAccessRepository.set_level.
    now destruct (ProjectAccess.ID a =? id). }
  open_consistent.
  split; [exact Hpk |]. split; [| split; [| split]].
  - apply Forall_map. eapply Forall_impl; [| exact Hfk].
    intros a Ha. cbv beta in *. now rewrite (proj1 (Hsame a)).
  - apply Forall_map. eapply Forall_impl; [| exact Hfu].
    intros a Ha. cbv beta in *. now rewrite (proj2 (Hsame a)).
  - rewrite map_map.
    replace (map (fun a => Schema.project_user
                             (ProjectAccessRepository.set_level id level now a))
                 (sql.project_access t))
      with (map Schema.project_user (sql.project_access t)); [exact Huq |].
    apply map_ext. intros a. unfold Schema.project_user.
    destruct (Hsame a) as [-> ->]. reflexivity.
  - intros a' p Ha' Hp E. apply in_map_iff in Ha'. destruct Ha' as [a [<- Ha]].
    destruct (Hsame a) as [E1 E2]. rewrite E2. rewrite E1 in E.
    now apply (Hno a p).
Qed.

Lemma consistent_delete_access (t : sql.Tables) (f : ProjectAccess.t -> bool) :
  Schema.consistent t ->
  Schema.consistent
    (sql.mkTables (sql.projects t) (filter f (sql.project_access t))
                  (sql.users t) (sql.projects_auto_increment t)
                  (sql.project_access_auto_increment t)
                  (sql.users_auto_increment t)).
Proof.
  intros [Hpk [Hfk [Hfu [Huq Hno]]]]. open_consistent.
  split; [exact Hpk |]. split; [| split; [| split]].
  - rewrite Forall_forall in *. intros a Ha. apply filter_In in Ha.
    now apply Hfk.
  - rewrite Forall_forall in *. intros a Ha. apply filter_In in Ha.
    now apply Hfu.
  - now apply NoDup_map_filter.
  - intros a p Ha Hp E. apply filter_In in Ha. now apply (Hno a p).
Qed.

Lemma consistent_insert_project (t : sql.Tables) (name description : string)
  (ownerID created updated : Z) :
  Schema.consistent t ->
  Schema.consistent
    (sql.mkTables
       (sql.projects t
        ++ [Project.mk (sql.projects_auto_increment t) name description ownerID
                       created updated])
       (sql.project_access t) (sql.users t)
       (sql.projects_auto_increment t + 1)
       (sql.project_access_auto_increment t) (sql.users_auto_increment t)).
Proof.
  intros [[Hnd Hlt] [Hfk [Hfu [Huq Hno]]]].
  assert (Hfresh : ~ In (sql.projects_auto_increment t)
                        (map Project.ID (sql.projects t))).
  { intros Hin. apply in_map_iff in Hin. destruct Hin as [p [E Hp]].
    rewrite Forall_forall in Hlt. specialize (Hlt p Hp). lia. }
  open_consistent.
  split; [split |]; [| | split; [| split; [| split]]].
  - rewrite map_app. cbn [map Project.ID]. now apply NoDup_snoc.
  - apply Forall_app. split.
    + eapply Forall_impl; [| exact Hlt]. intros p Hp. cbv beta in *. lia.
    + constructor; [cbn; lia | constructor].
  - eapply Forall_impl; [| exact Hfk]. intros a Ha. cbv beta in *.
    rewrite map_app. apply in_or_app. now left.
  - exact Hfu.
  - exact Huq.
  - intros a p Ha Hp E. apply in_app_or in Hp. destruct Hp as [Hp | [<- | []]].
    + now apply (Hno a p).
    + exfalso. apply Hfresh. cbn in E. rewrite E.
      rewrite Forall_forall in Hfk. now apply Hfk.
Qed.

Lemma consistent_update_project (t : sql.Tables) (set : Project.t -> Project.t) :
  (forall p, Project.ID (set p) = Project.ID p
             /\ Project.OwnerID (set p) = Project.OwnerID p) ->
  Schema.consistent t ->
  Schema.consistent
    (sql.mkTables (map set (sql.projects t)) (sql.project_access t) (sql.users t)
                  (sql.projects_auto_increment t)
                  (sql.project_access_auto_increment t)
                  (sql.users_auto_increment t)).
Proof.
  intros Hset [[Hnd Hlt] [Hfk [Hfu [Huq Hno]]]].
  assert (Hids : map Project.ID (map set (sql.projects t))
                 = map Project.ID (sql.projects t)).
  { rewrite map_map. apply map_ext. intros p. apply Hset. }
  open_consistent. rewrite Hids.
  split; [split |]; [| | split; [| split; [| split]]]; auto.
  - apply Forall_map. eapply Forall_impl; [| exact Hlt].
    intros p Hp. cbv beta in *. now rewrite (proj1 (Hset p)).
  - intros a q Ha Hq E. apply in_map_iff in Hq. destruct Hq as [p [<- Hp]].
    destruct (Hset p) as [E1 E2]. rewrite E2. rewrite E1 in E.
    now apply (Hno a p).
Qed.

Lemma consistent_delete_project (t : sql.Tables) (id : Z) :
  Schema.consistent t ->
  Schema.consistent
    (sql.mkTables
       (filter (fun p => negb (Project.ID p =? id)) (sql.projects t))
       (filter (fun a => negb (ProjectAccess.ProjectID a =? id))
               (sql.project_access t))
       (sql.users t) (sql.projects_auto_increment t)
       (sql.project_access_auto_increment t) (sql.users_auto_increment t)).
Proof.
  intros [[Hnd Hlt] [Hfk [Hfu [Huq Hno]]]]. open_consistent.
  split; [split |]; [| | split; [| split; [| split]]].
  - now apply NoDup_map_filter.
  - rewrite Forall_forall in *. intros p Hp. apply filter_In in Hp. now apply Hlt.
  - rewrite Forall_forall in *. intros a Ha. apply filter_In in Ha.
    destruct Ha as [Ha Hkeep]. specialize (Hfk a Ha).
    apply in_map_iff in Hfk. destruct Hfk as [p [E Hp]].
    apply in_map_iff. exists p. split; [exact E |].
    apply filter_In. split; [exact Hp |]. now rewrite E.
  - rewrite Forall_forall in *. intros a Ha. apply filter_In in Ha.
    now apply Hfu.
  - now apply NoDup_map_filter.
  - intros a p Ha Hp E. apply filter_In in Ha, Hp. now apply (Hno a p).
Qed.

Lemma keeps_bind {A B : Type} (P : sql.Tables -> Prop)
  (m : Repo sql.DB A) (k : A -> Repo sql.DB B) :
  Schema.keeps P m -> (forall a, Schema.keeps P (k a)) ->
  Schema.keeps P (bind m k).
Proof.
  intros Hm Hk db H. unfold bind. specialize (Hm db H).
  destruct (m db) as [[a|e] db1]; cbn [snd] in *; [now apply Hk | exact Hm].
Qed.

Lemma keeps_reading {A : Type} (P : sql.Tables -> Prop) (m : sql.DB -> A * sql.DB) :
  (forall db, sql.tables (snd (m db)) = sql.tables db) -> Schema.keeps P m.
Proof. intros Hm db H. now rewrite Hm. Qed.

Lemma ProjectRepository_GetByID_reads (id : Z) (db : sql.DB) :
  sql.tables (snd (ProjectRepository.GetByID id db)) = sql.tables db.
Proof. unfold ProjectRepository.GetByID. now destruct (find _ _). Qed.

Lemma ProjectAccessRepository_GetByID_reads (id : Z) (db : sql.DB) :
  sql.tables (snd (ProjectAccessRepository.GetByID id db)) = sql.tables db.
Proof. unfold ProjectAccessRepository.GetByID. now destruct (find _ _). Qed.

Lemma HasEditAccess_reads (projectID userID : Z) (db : sql.DB) :
  sql.tables (snd (ProjectAccessService.HasEditAccess projectID userID db))
  = sql.tables db.
Proof.
  unfold ProjectAccessService.HasEditAccess, bind, ret.
  cbn [ProjectRepositoryInterface.GetByID projectRepo
       ProjectAccessRepositoryInterface.HasEditAccess projectAccessRepo].
  unfold ProjectRepository.GetByID, ProjectAccessRepository.HasEditAccess.
  destruct (find _ _) as [p|]; [| reflexivity].
  now destruct (Project.OwnerID p =? userID).
Qed.

Lemma ProjectAccessRepository_Update_keeps (access : ProjectAccess.t) :
  Schema.keeps Schema.consistent (ProjectAccessRepository.Update access).
Proof.
  unfold ProjectAccessRepository.Update. apply keeps_bind.
  - apply keeps_reading, ProjectAccessRepository_GetByID_reads.
  - intros _ db H. cbn [snd sql.tables sql.with_tables sql.sent].
    now apply consistent_set_level.
Qed.

Lemma ProjectAccessRepository_Delete_keeps (id : Z) :
  Schema.keeps Schema.consistent (ProjectAccessRepository.Delete id).
Proof.
  unfold ProjectAccessRepository.Delete. apply keeps_bind.
  - apply keeps_reading, ProjectAccessRepository_GetByID_reads.
  - intros _ db H. cbn [snd sql.tables sql.with_tables sql.sent].
    now apply consistent_delete_access.
Qed.

Lemma ProjectRepository_Create_keeps (project : Project.t) :
  Schema.keeps Schema.consistent (ProjectRepository.Create project).
Proof.
  intros db H. unfold ProjectRepository.Create. cbv zeta.
  destruct (_ >? 0); [exact H |].
  destruct (negb _); [exact H |].
  cbn [snd sql.tables sql.with_tables sql.sent].
  now apply consistent_insert_project.
Qed.

Lemma ProjectRepository_Update_keeps (project : Project.t) :
  Schema.keeps Schema.consistent (ProjectRepository.Update project).
Proof.
  unfold ProjectRepository.Update. apply keeps_bind.
  - apply keeps_reading, ProjectRepository_GetByID_reads.
  - intros _ db H. cbn [snd sql.tables sql.with_tables sql.sent].
    apply consistent_update_project; [| exact H].
    intros p. now destruct (Project.ID p =? Project.ID project).
Qed.

Lemma ProjectRepository_Delete_keeps (id : Z) :
  Schema.keeps Schema.consistent (ProjectRepository.Delete id).
Proof.
  unfold ProjectRepository.Delete. apply keeps_bind.
  - apply keeps_reading, ProjectRepository_GetByID_reads.
  - intros _ db H. cbn [snd sql.tables sql.with_tables sql.sent].
    now apply consistent_delete_project.
Qed.

Lemma UserRepository_Create_keeps (user : User.t) :
  Schema.keeps Schema.consistent (UserRepository.Create user).
Proof.
  intros db H. unfold UserRepository.Create. cbv zeta.
  destruct (_ >? 0); [exact H |].
  cbn [snd sql.tables sql.with_tables sql.sent].
  now apply consistent_insert_user.
Qed.

(** The unique key on its own is kept by every insertion into the access
    table, whoever asks for it. *)
Lemma ProjectAccessRepository_Create_keeps_unique (access : ProjectAccess.t) :
  Schema.keeps Schema.unique_project_user (ProjectAccessRepository.Create access).
Proof.
  intros db H. unfold ProjectAccessRepository.Create. cbv zeta.
  rewrite !tables_sent, count_positive.
  destruct (existsb _ _) eqn:Hnew; [exact H |].
  destruct (_ || _); [exact H |].
  cbn [snd sql.tables sql.with_tables sql.sent].
  unfold Schema.unique_project_user in *. cbn [sql.project_access].
  rewrite map_app. cbn [map]. apply NoDup_snoc; [exact H |].
  intros Hin. apply in_map_iff in Hin. destruct Hin as [a [E Ha]].
  unfold Schema.project_user in E. cbn in E. inversion E as [[E1 E2]].
  assert (Hyes : existsb (ProjectAccessRepository.for_project_and_user
                            (ProjectAccess.ProjectID access)
                            (ProjectAccess.UserID access))
                         (sql.project_access (sql.tables db)) = true).
  { apply has_view_rows. now exists a. }
  congruence.
Qed.

Lemma ProjectAccessRepository_Create_keeps (access : ProjectAccess.t) (db : sql.DB) :
  Schema.consistent (sql.tables db) ->
  (forall p, In p (sql.projects (sql.tables db)) ->
             Project.ID p = ProjectAccess.ProjectID access ->
             ProjectAccess.UserID access <> Project.OwnerID p) ->
  Schema.consistent (sql.tables (snd (ProjectAccessRepository.Create access db))).
Proof.
  intros H Hown. unfold ProjectAccessRepository.Create. cbv zeta.
  rewrite !tables_sent, count_positive.
  destruct (existsb _ _) eqn:Hnew; [exact H |].
  destruct (negb (existsb (fun p => Project.ID p =? _) _)) eqn:Hproj; [exact H |].
  destruct (negb (existsb (fun u => User.ID u =? _) _)) eqn:Huser; [exact H |].
  cbn [orb snd sql.tables sql.with_tables sql.sent].
  apply negb_false_iff in Hproj, Huser.
  now apply consistent_insert_access.
Qed.

Lemma GrantAccess_keeps (projectID : Z) (accessCreate : ProjectAccessCreate.t)
  (db : sql.DB) :
  Schema.consistent (sql.tables db) ->
  (forall p, In p (sql.projects (sql.tables db)) -> Project.ID p = projectID ->
             ProjectAccessCreate.UserID accessCreate <> Project.OwnerID p) ->
  Schema.consistent
    (sql.tables (snd (ProjectAccessService.GrantAccess projectID accessCreate db))).
Proof.
  intros H Hown. unfold ProjectAccessService.GrantAccess, bind.
  cbn [ProjectRepositoryInterface.GetByID projectRepo
       UserRepositoryInterface.GetByID userRepo
       ProjectAccessRepositoryInterface.Create projectAccessRepo].
  unfold ProjectRepository.GetByID, UserRepository.GetByID.
  destruct (find _ _); [| exact H]. cbv beta iota zeta. rewrite tables_sent.
  destruct (find _ _); [| exact H]. cbv beta iota zeta.
  apply ProjectAccessRepository_Create_keeps; rewrite !tables_sent; assumption.
Qed.

Lemma UpdateAccess_keeps (accessID : Z) (accessUpdate : ProjectAccessUpdate.t) :
  Schema.keeps Schema.consistent
    (ProjectAccessService.UpdateAccess accessID accessUpdate).
Proof.
  unfold ProjectAccessService.UpdateAccess. apply keeps_bind.
  - apply keeps_reading, ProjectAccessRepository_GetByID_reads.
  - intros access. apply ProjectAccessRepository_Update_keeps.
Qed.

Lemma ProjectService_Update_keeps (id : Z) (projectUpdate : ProjectUpdate.t) :
  Schema.keeps Schema.consistent (ProjectService.Update id projectUpdate).
Proof.
  unfold ProjectService.Update. apply keeps_bind.
  - apply keeps_reading, ProjectRepository_GetByID_reads.
  - intros project. apply ProjectRepository_Update_keeps.
Qed.

(** A handler ends by answering over the store its last call left: the
    answer depends on the outcome of that call, the store does not. *)
Ltac answered Hk :=
  match goal with
  | |- context [match ?call with pair _ _ => _ end] =>
      destruct call as [[? | ?] ?]; cbn [snd] in *;
      [ exact Hk
      | match goal with
        | |- context [error_eqb ?e ?sentinel] => now destruct (error_eqb e sentinel)
        end ]
  end.

Lemma GrantAccess_handler_keeps (c : gin.Context ProjectAccessCreate.t) :
  Schema.keeps Schema.consistent (ProjectAccessHandler.GrantAccess c).
Proof.
  intros db H. unfold ProjectAccessHandler.GrantAccess.
  destruct (gin.ParamID c) as [projectID|]; [| exact H].
  destruct (gin.ShouldBindJSON c) as [accessCreate|]; [| exact H].
  destruct (gin.GetUser c) as [userModel|]; [| exact H].
  rewrite IsOwner_sql.
  destruct (find _ _) as [p|] eqn:Hfind; [| exact H]. cbv beta iota.
  destruct (Z.eqb_spec (Project.OwnerID p) (User.ID userModel)) as [Hown | _];
    [| exact H].
  cbn [negb].
  destruct (Z.eqb_spec (ProjectAccessCreate.UserID accessCreate) (User.ID userModel))
    as [_ | Hself]; [exact H |].
  pose proof (GrantAccess_keeps projectID accessCreate
                (sql.sent (sql.SelectProjectByID projectID) db)) as Hk.
  rewrite tables_sent in Hk. specialize (Hk H).
  assert (Hothers : forall q, In q (sql.projects (sql.tables db)) ->
                              Project.ID q = projectID ->
                              ProjectAccessCreate.UserID accessCreate
                              <> Project.OwnerID q).
  { intros q Hq Hid.
    destruct H as [[Hnd _] _].
    pose proof (find_by_key Project.ID _ q Hnd Hq) as Hfq.
    rewrite Hid, Hfind in Hfq. inversion Hfq; subst q. congruence. }
  specialize (Hk Hothers).
  answered Hk.
Qed.

Lemma UpdateAccess_handler_keeps (c : gin.Context ProjectAccessUpdate.t) :
  Schema.keeps Schema.consistent (ProjectAccessHandler.UpdateAccess c).
Proof.
  intros db H. unfold ProjectAccessHandler.UpdateAccess.
  destruct (gin.ParamID c) as [projectID|]; [| exact H].
  destruct (gin.ParamAccessID c) as [accessID|]; [| exact H].
  destruct (gin.ShouldBindJSON c) as [accessUpdate|]; [| exact H].
  destruct (gin.GetUser c) as [userModel|]; [| exact H].
  rewrite IsOwner_sql.
  destruct (find _ _) as [p|]; [| exact H]. cbv beta iota.
  destruct (negb _); [exact H |].
  pose proof (UpdateAccess_keeps accessID accessUpdate
                (sql.sent (sql.SelectProjectByID projectID) db) H) as Hk.
  answered Hk.
Qed.

Lemma RevokeAccess_handler_keeps (c : gin.Context unit) :
  Schema.keeps Schema.consistent (ProjectAccessHandler.RevokeAccess c).
Proof.
  intros db H. unfold ProjectAccessHandler.RevokeAccess.
  destruct (gin.ParamID c) as [projectID|]; [| exact H].
  destruct (gin.ParamAccessID c) as [accessID|]; [| exact H].
  destruct (gin.GetUser c) as [userModel|]; [| exact H].
  rewrite IsOwner_sql.
  destruct (find _ _) as [p|]; [| exact H]. cbv beta iota.
  destruct (negb _); [exact H |].
  unfold ProjectAccessService.RevokeAccess.
  cbn [ProjectAccessRepositoryInterface.Delete projectAccessRepo].
  pose proof (ProjectAccessRepository_Delete_keeps accessID
                (sql.sent (sql.SelectProjectByID projectID) db) H) as Hk.
  answered Hk.
Qed.

Lemma CreateProject_handler_keeps (c : gin.Context ProjectCreate.t) :
  Schema.keeps Schema.consistent (ProjectHandler.CreateProject c).
Proof.
  intros db H. unfold ProjectHandler.CreateProject.
  destruct (gin.ShouldBindJSON c) as [projectCreate|]; [| exact H].
  destruct (gin.GetUser c) as [userModel|]; [| exact H].
  unfold ProjectService.Create.
  cbn [ProjectRepositoryInterface.Create projectRepo].
  match goal with
  | |- context [ProjectRepository.Create ?project db] =>
      pose proof (ProjectRepository_Create_keeps project db H) as Hk
  end.
  answered Hk.
Qed.

Lemma UpdateProject_handler_keeps (c : gin.Context ProjectUpdate.t) :
  Schema.keeps Schema.consistent (ProjectHandler.UpdateProject c).
Proof.
  intros db H. unfold ProjectHandler.UpdateProject.
  destruct (gin.ParamID c) as [id|]; [| exact H].
  destruct (gin.ShouldBindJSON c) as [projectUpdate|]; [| exact H].
  destruct (gin.GetUser c) as [userModel|]; [| exact H].
  pose proof (HasEditAccess_reads id (User.ID userModel) db) as Hread.
  destruct (ProjectAccessService.HasEditAccess id (User.ID userModel) db)
    as [[hasEditAccess | e] db1]; cbn [snd] in Hread.
  2:{ destruct (error_eqb e ErrProjectNotFound); cbn [snd]; now rewrite Hread. }
  destruct (_ && _); [cbn [snd]; now rewrite Hread |].
  rewrite <- Hread in H.
  pose proof (ProjectService_Update_keeps id projectUpdate db1 H) as Hk.
  answered Hk.
Qed.

Lemma DeleteProject_handler_keeps (c : gin.Context unit) :
  Schema.keeps Schema.consistent (ProjectHandler.DeleteProject c).
Proof.
  intros db H. unfold ProjectHandler.DeleteProject.
  destruct (gin.ParamID c) as [id|]; [| exact H].
  destruct (gin.GetUser c) as [userModel|]; [| exact H].
  rewrite IsOwner_sql.
  destruct (find _ _) as [p|]; [| exact H]. cbv beta iota.
  destruct (_ && _); [exact H |].
  unfold ProjectService.Delete.
  cbn [ProjectRepositoryInterface.Delete projectRepo].
  pose proof (ProjectRepository_Delete_keeps id
                (sql.sent (sql.SelectProjectByID id) db) H) as Hk.
  answered Hk.
Qed.

Lemma serve_keeps (req : System.Request) (db : sql.DB) :
  Schema.consistent (sql.tables db) ->
  Schema.consistent (sql.tables (System.serve db req)).
Proof.
  intros H. destruct req; cbn [System.serve].
  - now apply GrantAccess_handler_keeps.
  - now apply UpdateAccess_handler_keeps.
  - now apply RevokeAccess_handler_keeps.
  - now apply CreateProject_handler_keeps.
  - now apply UpdateProject_handler_keeps.
  - now apply DeleteProject_handler_keeps.
  - now apply UserRepository_Create_keeps.
  - exact H.
Qed.

Lemma run_keeps (reqs : list System.Request) (db : sql.DB) :
  Schema.consistent (sql.tables db) ->
  Schema.consistent (sql.tables (System.run reqs db)).
Proof.
  revert db. induction reqs as [|req reqs IH]; intros db H.
  - exact H.
  - cbn [System.run fold_left]. apply IH. now apply serve_keeps.
Qed.

Lemma migrated_consistent (server : sql.Server) :
  Schema.consistent (sql.tables (System.migrated server)).
Proof.
  unfold Schema.consistent, Schema.projects_primary_key,
    Schema.access_references_project, Schema.access_references_user,
    Schema.unique_project_user, Schema.no_grant_to_owner. cbn.
  repeat split; try constructor. intros a p [].
Qed.

Lemma reachable_consistent (db : sql.DB) :
  System.reachable db -> Schema.consistent (sql.tables db).
Proof.
  intros [server [reqs ->]]. apply run_keeps, migrated_consistent.
Qed.

Lemma GrantAccess_handler_duplicate_reachable (db : sql.DB)
  (c : gin.Context ProjectAccessCreate.t)
  (accessCreate : ProjectAccessCreate.t) (user : User.t) (p : Project.t)
  (a : ProjectAccess.t) :
  Schema.consistent (sql.tables db) ->
  In a (sql.project_access (sql.tables db)) ->
  gin.ParamID c = Some (ProjectAccess.ProjectID a) ->
  gin.ShouldBindJSON c = Some accessCreate ->
  ProjectAccessCreate.UserID accessCreate = ProjectAccess.UserID a ->
  gin.GetUser c = Some user ->
  In p (sql.projects (sql.tables db)) ->
  Project.ID p = ProjectAccess.ProjectID a ->
  Project.OwnerID p = User.ID user ->
  gin.Status (fst (ProjectAccessHandler.GrantAccess c db)) = http.StatusConflict
  /\ sql.tables (snd (ProjectAccessHandler.GrantAccess c db)) = sql.tables db.
Proof.
  intros [[Hnd _] [_ [Hfu [_ Hno]]]] Ha Hp Hb Htarget Hu Hin Hid Hown.
  apply (GrantAccess_handler_duplicate db c (ProjectAccess.ProjectID a)
           accessCreate user p a); auto.
  - rewrite Htarget, <- Hown. now apply (Hno a p).
  - unfold Schema.access_references_user in Hfu. rewrite Forall_forall in Hfu.
    specialize (Hfu a Ha). apply in_map_iff in Hfu.
    destruct Hfu as [u [E Hu']]. exists u. split; [exact Hu' | congruence].
Qed.

(** C6. A second grant for a pair that already has one is refused and
    changes nothing. The repository answers [ErrProjectAccessExists] and
    leaves every table as it was, in any state at all; in every state the
    running system reaches, the owner's call for a pair that has a grant is
    answered 409 Conflict and leaves every table, the level of the existing
    grant included, as it was. No insertion, accepted or refused, breaks
    the unique key, and in every reachable state there is at most one
    access row per pair of project and user. *)
Theorem duplicate_grant_is_a_conflict :
  (forall (db : sql.DB) (access a : ProjectAccess.t),
      In a (sql.project_access (sql.tables db)) ->
      ProjectAccess.ProjectID a = ProjectAccess.ProjectID access ->
      ProjectAccess.UserID a = ProjectAccess.UserID access ->
      fst (ProjectAccessRepository.Create access db) = Err ErrProjectAccessExists
      /\ sql.tables (snd (ProjectAccessRepository.Create access db)) = sql.tables db)
  /\ (forall (db : sql.DB) (c : gin.Context ProjectAccessCreate.t)
             (accessCreate : ProjectAccessCreate.t) (user : User.t)
             (p : Project.t) (a : ProjectAccess.t),
         System.reachable db ->
         In a (sql.project_access (sql.tables db)) ->
         gin.ParamID c = Some (ProjectAccess.ProjectID a) ->
         gin.ShouldBindJSON c = Some accessCreate ->
         ProjectAccessCreate.UserID accessCreate = ProjectAccess.UserID a ->
         gin.GetUser c = Some user ->
         In p (sql.projects (sql.tables db)) ->
         Project.ID p = ProjectAccess.ProjectID a ->
         Project.OwnerID p = User.ID user ->
         gin.Status (fst (ProjectAccessHandler.GrantAccess c db))
         = http.StatusConflict
         /\ sql.tables (snd (ProjectAccessHandler.GrantAccess c db)) = sql.tables db)
  /\ (forall (db : sql.DB) (access : ProjectAccess.t),
         Schema.unique_project_user (sql.tables db) ->
         Schema.unique_project_user
           (sql.tables (snd (ProjectAccessRepository.Create access db))))
  /\ (forall db : sql.DB,
         System.reachable db -> Schema.unique_project_user (sql.tables db)).
Proof.
  split; [| split; [| split]].
  - intros db access a Hin Hp Hu.
    now rewrite (Create_duplicate db access a Hin Hp Hu).
  - intros db c accessCreate user p a Hreach.
    apply GrantAccess_handler_duplicate_reachable.
    now apply reachable_consistent.
  - intros db access. apply ProjectAccessRepository_Create_keeps_unique.
  - intros db Hreach. now apply reachable_consistent.
Qed.

(** C7. A grant call whose target is the caller changes no table,
    whatever else the call says; made by the owner of the named project it
    is answered 400 Bad Request with the message that owners cannot grant
    themselves access. In every state the running system reaches, no
    access row names the owner of its project. *)
Theorem self_grant_is_rejected :
  (forall (db : sql.DB) (c : gin.Context ProjectAccessCreate.t)
          (accessCreate : ProjectAccessCreate.t) (user : User.t),
      gin.ShouldBindJSON c = Some accessCreate ->
      gin.GetUser c = Some user ->
      ProjectAccessCreate.UserID accessCreate = User.ID user ->
      sql.tables (snd (ProjectAccessHandler.GrantAccess c db)) = sql.tables db
      /\ (forall projectID p,
             gin.ParamID c = Some projectID ->
             NoDup (map Project.ID (sql.projects (sql.tables db))) ->
             In p (sql.projects (sql.tables db)) -> Project.ID p = projectID ->
             Project.OwnerID p = User.ID user ->
             fst (ProjectAccessHandler.GrantAccess c db)
             = gin.JSON http.StatusBadRequest
                 (gin.H_error "You can't grant access to yourself as the owner")))
  /\ (forall db : sql.DB,
         System.reachable db -> Schema.no_grant_to_owner (sql.tables db)).
Proof.
  split.
  - intros db c accessCreate user Hb Hu Hself.
    now apply (GrantAccess_handler_self db c accessCreate user).
  - intros db Hreach. now apply reachable_consistent.
Qed.

(** * The statements at work on the installations of [Scenario] *)

Ltac concrete_nodup :=
  vm_compute; repeat constructor; cbn; intuition discriminate.

Ltac concrete_in := vm_compute; intuition reflexivity.

(** Carol may view project 2 of [Scenario.shared], on which she holds a
    grant; project 99 does not exist. *)
Lemma HasViewAccess_owner_or_any_grant_witness :
  (exists b,
      fst (ProjectAccessService.HasViewAccess 2 3 Scenario.shared) = Ok b
      /\ (b = true <->
          Project.OwnerID (Project.mk 2 "Beta" "second" 2 5 5) = 3
          \/ exists a, In a (sql.project_access (sql.tables Scenario.shared))
                       /\ ProjectAccess.ProjectID a = 2
                       /\ ProjectAccess.UserID a = 3
                       /\ (ProjectAccess.Level a = AccessLevelView
                           \/ ProjectAccess.Level a = AccessLevelEdit)))
  /\ fst (ProjectAccessService.HasViewAccess 99 3 Scenario.shared)
     = Err ErrProjectNotFound.
Proof.
  split.
  - apply (proj1 (HasViewAccess_owner_or_any_grant Scenario.shared 2 3)
                 (Project.mk 2 "Beta" "second" 2 5 5)).
    + concrete_nodup.
    + concrete_in.
    + reflexivity.
  - apply (proj2 (HasViewAccess_owner_or_any_grant Scenario.shared 99 3)).
    vm_compute. intros p [<- | [<- | []]]; discriminate.
Defined.

(** Carol's view grant on project 2 answers the edit question as well. *)
Lemma HasEditAccess_owner_or_edit_grant_witness :
  (exists b,
      fst (ProjectAccessService.HasEditAccess 2 3 Scenario.shared) = Ok b
      /\ (b = true <->
          Project.OwnerID (Project.mk 2 "Beta" "second" 2 5 5) = 3
          \/ exists a, In a (sql.project_access (sql.tables Scenario.shared))
                       /\ ProjectAccess.ProjectID a = 2
                       /\ ProjectAccess.UserID a = 3
                       /\ ProjectAccess.Level a = AccessLevelEdit))
  /\ fst (ProjectAccessService.HasEditAccess 99 3 Scenario.shared)
     = Err ErrProjectNotFound.
Proof.
  split.
  - apply (proj1 (HasEditAccess_owner_or_edit_grant Scenario.shared 2 3)
                 (Project.mk 2 "Beta" "second" 2 5 5)).
    + concrete_nodup.
    + concrete_in.
    + reflexivity.
  - apply (proj2 (HasEditAccess_owner_or_edit_grant Scenario.shared 99 3)).
    vm_compute. intros p [<- | [<- | []]]; discriminate.
Defined.

(** Raising Carol's grant to edit in [Scenario.shared]. *)
Lemma UpdateAccess_changes_level_and_updated_at_only_witness :
  let call :=
    ProjectAccessService.UpdateAccess 1 (ProjectAccessUpdate.mk AccessLevelEdit)
                                      Scenario.shared in
  call = (Ok (ProjectAccess.mk 1 2 3 AccessLevelEdit 6 7), snd call)
  /\ sql.projects (sql.tables (snd call)) = sql.projects (sql.tables Scenario.shared)
  /\ In (ProjectAccess.mk 1 2 3 AccessLevelEdit 6 7)
        (sql.project_access (sql.tables (snd call))).
Proof.
  intros call.
  assert (E : call = (Ok (ProjectAccess.mk 1 2 3 AccessLevelEdit 6 7), snd call))
    by (vm_compute; reflexivity).
  split; [exact E |].
  destruct (UpdateAccess_changes_level_and_updated_at_only
              Scenario.shared (snd call) 1
              (ProjectAccessUpdate.mk AccessLevelEdit) _ E)
    as [_ [Hprojects [_ [_ [_ [Hin _]]]]]].
  split; [exact Hprojects | exact Hin].
Defined.

(** Alice in [Scenario.listing]: three projects of her own, two granted. *)
Lemma GetAccessibleProjects_owned_first_then_granted_witness :
  fst (ProjectAccessService.GetAccessibleProjects 1 1 10 Scenario.listing)
  = Returns (Ok [Project.mk 4 "Delta" "fourth" 1 8 8;
                 Project.mk 3 "Gamma" "third" 1 7 7;
                 Project.mk 1 "Alpha" "first" 1 4 4;
                 Project.mk 2 "Beta" "second" 2 5 5;
                 Project.mk 5 "Epsilon" "fifth" 2 9 9])
  /\ fst (ProjectAccessService.GetAccessibleProjects 1 1 10 Scenario.anomalous)
     = Returns (Ok (Spec.Owned (sql.tables Scenario.anomalous) 1
                    ++ Spec.resolve (sql.tables Scenario.anomalous)
                         (Spec.GrantedIds' (sql.tables Scenario.anomalous) 1)))
  /\ exists l,
       fst (ProjectAccessService.GetAccessibleProjects 1 1 10 Scenario.anomalous)
       = Returns (Ok l)
       /\ List.length (filter (fun q => Project.ID q =? 1) l) = 1%nat.
Proof.
  pose proof (GetAccessibleProjects_owned_first_then_granted Scenario.listing 1)
    as [_ [_ [_ [Hfive _]]]].
  pose proof (GetAccessibleProjects_owned_first_then_granted Scenario.anomalous 1)
    as [Hall [_ [_ [_ Honce]]]].
  split; [| split].
  - apply (Hfive _ _ _ 2 5); vm_compute; reflexivity.
  - apply Hall; vm_compute; discriminate.
  - apply (Honce (Project.mk 1 "Alpha" "" 1 4 4) 10).
    + concrete_nodup.
    + concrete_in.
    + reflexivity.
    + vm_compute. discriminate.
    + vm_compute. discriminate.
Defined.

(** The twelve projects of [Scenario.twelve], five to a page; page 2 of
    size [2^62], whose offset fits though the product does not; and page
    [2^62 + 1] of size 4, whose offset wraps to 0. *)
Lemma GetAccessibleProjects_page_of_combined_witness :
  (fst (ProjectAccessService.GetAccessibleProjects 1 2 5 Scenario.twelve)
   = Returns (Ok (Spec.page_of 2 5 (Spec.combined (sql.tables Scenario.twelve) 1)))
   /\ len (Spec.page_of 2 5 (Spec.combined (sql.tables Scenario.twelve) 1)) = 5)
  /\ fst (ProjectAccessService.GetAccessibleProjects 1 2 (2 ^ 62) Scenario.twelve)
     = Returns (Ok [])
  /\ fst (ProjectAccessService.GetAccessibleProjects 1 (2 ^ 62 + 1) 4
            Scenario.twelve)
     <> Returns (Ok (Spec.page_of (2 ^ 62 + 1) 4
                       (Spec.combined (sql.tables Scenario.twelve) 1)))
  /\ (exists l,
         fst (ProjectAccessService.GetAccessibleProjects 1 3 5 Scenario.twelve)
         = Returns (Ok l)
         /\ len l = 2)
  /\ fst (ProjectAccessService.GetAccessibleProjects 1 4 5 Scenario.twelve)
     = Returns (Ok [])
  /\ ProjectAccessService.GetAccessibleProjects 1 0 (-3) Scenario.twelve
     = ProjectAccessService.GetAccessibleProjects 1 1 10 Scenario.twelve.
Proof.
  pose proof (GetAccessibleProjects_page_of_combined Scenario.twelve 1 2 5)
    as [_ [_ [_ [Hpage [[_ [Hlen _]] Htwelve]]]]].
  pose proof (GetAccessibleProjects_page_of_combined Scenario.twelve 1 2 (2 ^ 62))
    as [_ [_ [_ [Hwide [[_ [_ Hpast]] _]]]]].
  pose proof (GetAccessibleProjects_page_of_combined Scenario.twelve 1
                (2 ^ 62 + 1) 4)
    as [_ [_ [Hexact _]]].
  pose proof (GetAccessibleProjects_page_of_combined Scenario.twelve 1 0 (-3))
    as [Hp [_ _]].
  pose proof (GetAccessibleProjects_page_of_combined Scenario.twelve 1 1 (-3))
    as [_ [Hs _]].
  split; [| split; [| split; [| split; [| split]]]].
  - split.
    + apply Hpage. left. vm_compute. discriminate.
    + rewrite Hlen. vm_compute. reflexivity.
  - rewrite <- Hpast by (vm_compute; discriminate).
    apply Hwide. right. repeat split; vm_compute; discriminate.
  - intros E. apply Hexact in E.
    + destruct E as [[_ Ho] | [[Hin _] | [_ Hw]]].
      * revert Ho. vm_compute. discriminate.
      * revert Hin. vm_compute. discriminate.
      * revert Hw. vm_compute. intros Hw. apply Hw. reflexivity.
    + vm_compute. split; discriminate.
    + vm_compute. split; discriminate.
    + vm_compute. discriminate.
  - apply Htwelve. vm_compute. reflexivity.
  - apply Htwelve. vm_compute. reflexivity.
  - rewrite Hp by lia. apply Hs. lia.
Defined.

(** User 1 of [Scenario.anomalous] holds a grant on project 9, which is
    gone; user 3 has nothing to list. *)
Lemma GetAccessibleProjects_skips_failed_lookups_witness :
  ((forall e,
       fst (ProjectAccessService.GetAccessibleProjects 1 1 10 Scenario.anomalous)
       <> Returns (Err e))
   /\ exists l,
       fst (ProjectAccessService.GetAccessibleProjects 1 1 10 Scenario.anomalous)
       = Returns (Ok l))
  /\ fst (ProjectAccessService.GetAccessibleProjects 1 1 10 Scenario.anomalous)
     = Returns (Ok (Spec.accessibleProjects
                      (Schema.without_dangling (sql.tables Scenario.anomalous))
                      1 1 10))
  /\ (fst (ProjectAccessService.GetAccessibleProjects 3 1 10 Scenario.anomalous)
      = Returns (Ok [])
      /\ sql.statements
           (snd (ProjectAccessService.GetAccessibleProjects 3 1 10
                   Scenario.anomalous))
         = [sql.SelectProjectsByOwner 3; sql.SelectProjectIDsByUser 3]).
Proof.
  destruct GetAccessibleProjects_skips_failed_lookups as [Hany Hsql].
  split; [| split].
  - destruct (Hany sql.DB projectAccessRepo projectRepo 1 1 10
                   Scenario.anomalous _ _ _ _ eq_refl eq_refl)
      as [Hnever [Hreturns _]].
    split; [exact Hnever |]. apply Hreturns. vm_compute. discriminate.
  - apply (Hsql Scenario.anomalous 1 1 10). vm_compute. discriminate.
  - destruct (Hsql Scenario.anomalous 3 1 10) as [_ [_ Hnothing]].
    destruct Hnothing as [E [_ Hlog]].
    + vm_compute. intros p [<- | [<- | []]]; discriminate.
    + vm_compute. intros a [<- | [<- | [<- | []]]]; discriminate.
    + split; [exact E | exact Hlog].
Defined.

(** Bob grants Carol access to project 2 a second time. *)
Lemma duplicate_grant_is_a_conflict_witness :
  let again :=
    Scenario.as_user Scenario.bob (Some 2) None
                     (Some (ProjectAccessCreate.mk 3 AccessLevelEdit)) in
  (fst (ProjectAccessRepository.Create (ProjectAccess.mk 0 2 3 AccessLevelEdit 0 0)
                                       Scenario.shared)
   = Err ErrProjectAccessExists
   /\ sql.tables (snd (ProjectAccessRepository.Create
                         (ProjectAccess.mk 0 2 3 AccessLevelEdit 0 0)
                         Scenario.shared))
      = sql.tables Scenario.shared)
  /\ (gin.Status (fst (ProjectAccessHandler.GrantAccess again Scenario.shared))
      = http.StatusConflict
      /\ sql.tables (snd (ProjectAccessHandler.GrantAccess again Scenario.shared))
         = sql.tables Scenario.shared)
  /\ Schema.unique_project_user
       (sql.tables (snd (ProjectAccessRepository.Create
                           (ProjectAccess.mk 0 1 3 AccessLevelEdit 0 0)
                           Scenario.shared)))
  /\ Schema.unique_project_user (sql.tables Scenario.listing).
Proof.
  intros again.
  destruct duplicate_grant_is_a_conflict as [Hrepo [Hhandler [Hkeeps Hreach]]].
  split; [| split; [| split]].
  - apply (Hrepo Scenario.shared _ (ProjectAccess.mk 1 2 3 AccessLevelView 6 6));
      [concrete_in | reflexivity | reflexivity].
  - apply (Hhandler Scenario.shared again
                    (ProjectAccessCreate.mk 3 AccessLevelEdit) Scenario.bob
                    (Project.mk 2 "Beta" "second" 2 5 5)
                    (ProjectAccess.mk 1 2 3 AccessLevelView 6 6));
      try reflexivity.
    + exact shared_reachable.
    + concrete_in.
    + concrete_in.
  - apply Hkeeps. unfold Schema.unique_project_user. concrete_nodup.
  - apply Hreach. exact listing_reachable.
Defined.

(** Alice asks for a grant to herself on her own project 1. *)
Lemma self_grant_is_rejected_witness :
  let self :=
    Scenario.as_user Scenario.alice (Some 1) None
                     (Some (ProjectAccessCreate.mk 1 AccessLevelEdit)) in
  (sql.tables (snd (ProjectAccessHandler.GrantAccess self Scenario.shared))
   = sql.tables Scenario.shared
   /\ fst (ProjectAccessHandler.GrantAccess self Scenario.shared)
      = gin.JSON http.StatusBadRequest
          (gin.H_error "You can't grant access to yourself as the owner"))
  /\ Schema.no_grant_to_owner (sql.tables Scenario.listing).
Proof.
  intros self.
  destruct self_grant_is_rejected as [Hself Hreach].
  split.
  - destruct (Hself Scenario.shared self
                    (ProjectAccessCreate.mk 1 AccessLevelEdit) Scenario.alice
                    eq_refl eq_refl eq_refl) as [Hsame Hanswer].
    split; [exact Hsame |].
    apply (Hanswer 1 (Project.mk 1 "Alpha" "first" 1 4 4));
      [reflexivity | concrete_nodup | concrete_in | reflexivity | reflexivity].
  - apply Hreach. exact listing_reachable.
Defined.

(** Alice, who owns project 1 only, calls the three handlers on project 2
    and on project 99. *)
Lemma non_owner_calls_are_forbidden_witness :
  let grant id :=
    Scenario.as_user Scenario.alice (Some id) None
                     (Some (ProjectAccessCreate.mk 3 AccessLevelEdit)) in
  let update id :=
    Scenario.as_user Scenario.alice (Some id) (Some 1)
                     (Some (ProjectAccessUpdate.mk AccessLevelEdit)) in
  let revoke id := Scenario.as_user Scenario.alice (Some id) (Some 1) (Some tt) in
  ((gin.Status (fst (ProjectAccessHandler.GrantAccess (grant 2) Scenario.shared))
    = http.StatusForbidden
    /\ sql.tables (snd (ProjectAccessHandler.GrantAccess (grant 2) Scenario.shared))
       = sql.tables Scenario.shared)
   /\ (gin.Status (fst (ProjectAccessHandler.UpdateAccess (update 2) Scenario.shared))
       = http.StatusForbidden
       /\ sql.tables (snd (ProjectAccessHandler.UpdateAccess (update 2)
                             Scenario.shared))
          = sql.tables Scenario.shared)
   /\ (gin.Status (fst (ProjectAccessHandler.RevokeAccess (revoke 2) Scenario.shared))
       = http.StatusForbidden
       /\ sql.tables (snd (ProjectAccessHandler.RevokeAccess (revoke 2)
                             Scenario.shared))
          = sql.tables Scenario.shared))
  /\ gin.Status (fst (ProjectAccessHandler.GrantAccess (grant 99) Scenario.shared))
     = http.StatusNotFound.
Proof.
  intros grant update revoke.
  split.
  - refine (proj1 (non_owner_calls_are_forbidden
                     Scenario.shared 2 Scenario.alice (grant 2) (update 2) (revoke 2)
                     eq_refl eq_refl ltac:(discriminate)
                     eq_refl eq_refl ltac:(discriminate) ltac:(discriminate)
                     eq_refl eq_refl ltac:(discriminate)) _ _).
    + exists (Project.mk 2 "Beta" "second" 2 5 5). split; [concrete_in | reflexivity].
    + vm_compute. intros p [<- | [<- | []]]; [discriminate | intros _; discriminate].
  - assert (Hmissing : forall p, In p (sql.projects (sql.tables Scenario.shared)) ->
                                 Project.ID p <> 99).
    { vm_compute. intros p [<- | [<- | []]]; discriminate. }
    destruct (proj2 (non_owner_calls_are_forbidden
                       Scenario.shared 99 Scenario.alice
                       (grant 99) (update 99) (revoke 99)
                       eq_refl eq_refl ltac:(discriminate)
                       eq_refl eq_refl ltac:(discriminate) ltac:(discriminate)
                       eq_refl eq_refl ltac:(discriminate)) Hmissing)
      as [[Hstatus _] _].
    exact Hstatus.
Defined.

(** * The rest of the access directory *)

(** ** Granting, step by step *)

Lemma find_user_missing (t : sql.Tables) (userID : Z) :
  (forall u, In u (sql.users t) -> User.ID u <> userID) ->
  find (fun v => User.ID v =? userID) (sql.users t) = None.
Proof.
  intros H. apply find_none_forall. intros u Hu. apply Z.eqb_neq. now apply H.
Qed.

Lemma no_row_for_pair (t : sql.Tables) (P U : Z) :
  (forall a, In a (sql.project_access t) ->
             ProjectAccess.ProjectID a = P -> ProjectAccess.UserID a <> U) ->
  existsb (ProjectAccessRepository.for_project_and_user P U) (sql.project_access t)
  = false.
Proof.
  intros H. apply not_true_is_false. intros E. apply has_view_rows in E.
  destruct E as [a [Ha [E1 E2]]]. now apply (H a).
Qed.

Lemma existsb_of_find {A : Type} (f : A -> bool) (l : list A) (x : A) :
  find f l = Some x -> existsb f l = true.
Proof.
  intros E. apply find_some in E. apply existsb_exists. now exists x.
Qed.

(** X1. What [GrantAccess] of the service answers, case by case: a missing
    project gives [ErrProjectNotFound]; an existing project and a missing
    user give [ErrUserNotFound]; both existing and a row for the pair give
    [ErrProjectAccessExists]; in these three cases no table changes. In the
    one case left the call succeeds: it appends one row carrying the next
    id of the table, the project, the user, the level asked for and the
    current time as the column keeps it, moves the counter on by one, and
    touches nothing else; the grant handed back is that row with the
    instant itself for its two time stamps. *)
Theorem GrantAccess_case_by_case
  (db : sql.DB) (P : Z) (accessCreate : ProjectAccessCreate.t) :
  let t := sql.tables db in
  let U := ProjectAccessCreate.UserID accessCreate in
  let call := ProjectAccessService.GrantAccess P accessCreate db in
  let project_exists := exists p, In p (sql.projects t) /\ Project.ID p = P in
  let user_exists := exists u, In u (sql.users t) /\ User.ID u = U in
  ((forall p, In p (sql.projects t) -> Project.ID p <> P) ->
   fst call = Err ErrProjectNotFound /\ sql.tables (snd call) = t)
  /\ (project_exists -> (forall u, In u (sql.users t) -> User.ID u <> U) ->
      fst call = Err ErrUserNotFound /\ sql.tables (snd call) = t)
  /\ (project_exists -> user_exists ->
      (exists a, In a (sql.project_access t)
                 /\ ProjectAccess.ProjectID a = P /\ ProjectAccess.UserID a = U) ->
      fst call = Err ErrProjectAccessExists /\ sql.tables (snd call) = t)
  /\ (project_exists -> user_exists ->
      (forall a, In a (sql.project_access t) ->
                 ProjectAccess.ProjectID a = P -> ProjectAccess.UserID a <> U) ->
      let row :=
        ProjectAccess.mk (sql.project_access_auto_increment t) P U
                         (ProjectAccessCreate.Level accessCreate)
                         (sql.stamp db) (sql.stamp db) in
      fst call
      = Ok (ProjectAccess.mk (sql.project_access_auto_increment t) P U
                             (ProjectAccessCreate.Level accessCreate)
                             (sql.now db) (sql.now db))
      /\ sql.tables (snd call)
         = sql.mkTables (sql.projects t) (sql.project_access t ++ [row])
                        (sql.users t) (sql.projects_auto_increment t)
                        (sql.project_access_auto_increment t + 1)
                        (sql.users_auto_increment t)).
Proof.
  intros t U call project_exists user_exists.
  subst project_exists user_exists call U t.
  unfold ProjectAccessService.GrantAccess, bind.
  cbn [ProjectRepositoryInterface.GetByID projectRepo
       UserRepositoryInterface.GetByID userRepo
       ProjectAccessRepositoryInterface.Create projectAccessRepo].
  unfold ProjectRepository.GetByID, UserRepository.GetByID.
  rewrite tables_sent.
  split; [| split; [| split]].
  - intros Hmiss. now rewrite (find_project_missing _ P Hmiss).
  - intros Hp Hu. destruct (find_project_exists _ P Hp) as [p [-> _]].
    cbv beta iota zeta. rewrite !tables_sent.
    now rewrite (find_user_missing _ _ Hu).
  - intros Hp Hu [a [Ha [E1 E2]]].
    destruct (find_project_exists _ P Hp) as [p [-> _]].
    cbv beta iota zeta. rewrite !tables_sent.
    destruct (find_user_exists _ _ Hu) as [u ->].
    cbv beta iota zeta.
    rewrite (Create_duplicate _ _ a); [split; reflexivity | | |]; auto.
  - intros Hp Hu Hnew.
    destruct (find_project_exists _ P Hp) as [p [Efp _]]. rewrite Efp.
    cbv beta iota zeta. rewrite !tables_sent.
    destruct (find_user_exists _ _ Hu) as [u Efu]. rewrite Efu.
    cbv beta iota zeta.
    unfold ProjectAccessRepository.Create. cbv zeta.
    cbn [ProjectAccess.ProjectID ProjectAccess.UserID ProjectAccess.Level].
    rewrite !tables_sent, count_positive.
    rewrite (no_row_for_pair _ P _ Hnew).
    rewrite (existsb_of_find _ _ _ Efp), (existsb_of_find _ _ _ Efu).
    cbn. split; reflexivity.
Qed.

Lemma find_app_none {A : Type} (f : A -> bool) (l l' : list A) :
  find f l = None -> find f (l ++ l') = find f l'.
Proof.
  induction l as [|x l IH]; simpl; intros H; [reflexivity |].
  destruct (f x); [discriminate | now apply IH].
Qed.

Lemma find_of_existsb_false {A : Type} (f : A -> bool) (l : list A) :
  existsb f l = false -> find f l = None.
Proof.
  intros H. apply find_none_forall. intros x Hx.
  destruct (f x) eqn:E; [| reflexivity].
  assert (existsb f l = true) by (apply existsb_exists; now exists x).
  congruence.
Qed.

(** A successful grant, read backwards. *)
Lemma GrantAccess_succeeded (db db' : sql.DB) (P : Z)
  (accessCreate : ProjectAccessCreate.t) (row : ProjectAccess.t) :
  ProjectAccessService.GrantAccess P accessCreate db = (Ok row, db') ->
  let t := sql.tables db in
  let U := ProjectAccessCreate.UserID accessCreate in
  let stored :=
    ProjectAccess.mk (sql.project_access_auto_increment t) P U
                     (ProjectAccessCreate.Level accessCreate)
                     (sql.stamp db) (sql.stamp db) in
  (exists p, find (fun q => Project.ID q =? P) (sql.projects t) = Some p)
  /\ existsb (ProjectAccessRepository.for_project_and_user P U)
             (sql.project_access t) = false
  /\ row = ProjectAccess.mk (sql.project_access_auto_increment t) P U
                            (ProjectAccessCreate.Level accessCreate)
                            (sql.now db) (sql.now db)
  /\ sql.tables db'
     = sql.mkTables (sql.projects t) (sql.project_access t ++ [stored])
                    (sql.users t) (sql.projects_auto_increment t)
                    (sql.project_access_auto_increment t + 1)
                    (sql.users_auto_increment t)
  /\ sql.now db' = sql.now db.
Proof.
  intros H t U. subst t U. revert H.
  unfold ProjectAccessService.GrantAccess, bind.
  cbn [ProjectRepositoryInterface.GetByID projectRepo
       UserRepositoryInterface.GetByID userRepo
       ProjectAccessRepositoryInterface.Create projectAccessRepo].
  unfold ProjectRepository.GetByID, UserRepository.GetByID.
  rewrite tables_sent.
  destruct (find _ (sql.projects _)) as [p|] eqn:Efp; [| discriminate].
  cbv beta iota zeta. rewrite !tables_sent.
  destruct (find _ (sql.users _)) as [u|] eqn:Efu; [| discriminate].
  cbv beta iota zeta.
  unfold ProjectAccessRepository.Create. cbv zeta.
  cbn [ProjectAccess.ProjectID ProjectAccess.UserID ProjectAccess.Level].
  rewrite !tables_sent, count_positive.
  destruct (existsb _ (sql.project_access _)) eqn:Enew; [discriminate |].
  destruct (negb _ || negb _); [discriminate |].
  intros H. inversion H; subst; clear H. cbn.
  repeat split; try reflexivity. now exists p.
Qed.

(** X2. After a successful grant the grant is there to be found: the
    user may view the project, and may edit it exactly when the level is
    edit (for a user who is not the owner). The grant handed back names
    the project, the user and the level asked for; looking the pair up,
    or, the ids of the table being below its counter, the id handed back,
    yields the row as the table keeps it: the grant handed back with its
    two time stamps as the column holds them. *)
Theorem granted_access_is_found (db db' : sql.DB) (P : Z)
  (accessCreate : ProjectAccessCreate.t) (row : ProjectAccess.t) :
  ProjectAccessService.GrantAccess P accessCreate db = (Ok row, db') ->
  let U := ProjectAccessCreate.UserID accessCreate in
  let kept :=
    ProjectAccess.mk
      (ProjectAccess.ID row) (ProjectAccess.ProjectID row)
      (ProjectAccess.UserID row) (ProjectAccess.Level row)
      (sql.TIMESTAMP (sql.server db) (ProjectAccess.CreatedAt row))
      (sql.TIMESTAMP (sql.server db) (ProjectAccess.UpdatedAt row)) in
  fst (ProjectAccessService.HasViewAccess P U db') = Ok true
  /\ (ProjectAccess.ProjectID row = P /\ ProjectAccess.UserID row = U
      /\ ProjectAccess.Level row = ProjectAccessCreate.Level accessCreate)
  /\ fst (ProjectAccessRepository.GetByProjectAndUser P U db') = Ok kept
  /\ (ProjectAccessCreate.Level accessCreate = AccessLevelEdit ->
      fst (ProjectAccessService.HasEditAccess P U db') = Ok true)
  /\ (ProjectAccessCreate.Level accessCreate = AccessLevelView ->
      (forall p, In p (sql.projects (sql.tables db)) -> Project.ID p = P ->
                 Project.OwnerID p <> U) ->
      fst (ProjectAccessService.HasEditAccess P U db') = Ok false)
  /\ (Forall (fun a => ProjectAccess.ID a
                       < sql.project_access_auto_increment (sql.tables db))
             (sql.project_access (sql.tables db)) ->
      fst (ProjectAccessRepository.GetByID (ProjectAccess.ID row) db') = Ok kept).
Proof.
  intros H U kept. subst U kept.
  destruct (GrantAccess_succeeded _ _ _ _ _ H) as [[p Efp] [Enew [Erow [Et _]]]].
  rewrite Erow. cbn [ProjectAccess.ID ProjectAccess.ProjectID ProjectAccess.UserID
                     ProjectAccess.Level ProjectAccess.CreatedAt
                     ProjectAccess.UpdatedAt].
  fold (sql.stamp db).
  set (stored := ProjectAccess.mk
                   (sql.project_access_auto_increment (sql.tables db)) P
                   (ProjectAccessCreate.UserID accessCreate)
                   (ProjectAccessCreate.Level accessCreate)
                   (sql.stamp db) (sql.stamp db)) in *.
  assert (Hpair : ProjectAccessRepository.for_project_and_user
                    P (ProjectAccessCreate.UserID accessCreate) stored = true).
  { unfold ProjectAccessRepository.for_project_and_user, stored. cbn.
    now rewrite !Z.eqb_refl. }
  split; [| split; [| split; [| split; [| split]]]].
  - unfold ProjectAccessService.HasViewAccess, bind, ret.
    cbn [ProjectRepositoryInterface.GetByID projectRepo
         ProjectAccessRepositoryInterface.HasViewAccess projectAccessRepo].
    unfold ProjectRepository.GetByID, ProjectAccessRepository.HasViewAccess.
    cbv beta zeta. rewrite !tables_sent, Et. cbn [sql.projects sql.project_access]. rewrite Efp.
    destruct (Project.OwnerID p =? _); [reflexivity |].
    cbn [fst]. rewrite !tables_sent, Et. cbn [sql.project_access].
    rewrite count_positive, existsb_app. cbn [existsb].
    rewrite Hpair. now rewrite orb_true_r.
  - repeat split.
  - unfold ProjectAccessRepository.GetByProjectAndUser.
    rewrite Et. cbn [sql.project_access].
    rewrite find_app_none by now apply find_of_existsb_false.
    cbn [find]. now rewrite Hpair.
  - intros Hedit.
    unfold ProjectAccessService.HasEditAccess, bind, ret.
    cbn [ProjectRepositoryInterface.GetByID projectRepo
         ProjectAccessRepositoryInterface.HasEditAccess projectAccessRepo].
    unfold ProjectRepository.GetByID, ProjectAccessRepository.HasEditAccess.
    cbv beta zeta. rewrite !tables_sent, Et. cbn [sql.projects sql.project_access]. rewrite Efp.
    destruct (Project.OwnerID p =? _); [reflexivity |].
    cbn [fst]. rewrite !tables_sent, Et. cbn [sql.project_access].
    rewrite count_positive, existsb_app. cbn [existsb].
    rewrite Hpair. unfold stored at 1. cbn [ProjectAccess.Level]. rewrite Hedit.
    cbn. now rewrite orb_true_r.
  - intros Hview Hnot.
    unfold ProjectAccessService.HasEditAccess, bind, ret.
    cbn [ProjectRepositoryInterface.GetByID projectRepo
         ProjectAccessRepositoryInterface.HasEditAccess projectAccessRepo].
    unfold ProjectRepository.GetByID, ProjectAccessRepository.HasEditAccess.
    cbv beta zeta. rewrite !tables_sent, Et. cbn [sql.projects sql.project_access]. rewrite Efp.
    apply find_some in Efp. destruct Efp as [Hin Eid]. apply Z.eqb_eq in Eid.
    replace (Project.OwnerID p =? _) with false
      by (symmetry; apply Z.eqb_neq; now apply Hnot).
    cbn [fst]. rewrite !tables_sent, Et. cbn [sql.project_access].
    rewrite count_positive, existsb_app. cbn [existsb].
    unfold stored at 2. cbn [ProjectAccess.Level]. rewrite Hview.
    cbn [AccessLevel_eqb]. rewrite andb_false_r, !orb_false_r.
    f_equal. apply not_true_is_false. intros E. apply existsb_exists in E.
    destruct E as [a [Ha E]]. apply andb_true_iff in E. destruct E as [E _].
    assert (existsb (ProjectAccessRepository.for_project_and_user
                       P (ProjectAccessCreate.UserID accessCreate))
                    (sql.project_access (sql.tables db)) = true)
      by (apply existsb_exists; now exists a).
    congruence.
  - intros Hbelow.
    unfold ProjectAccessRepository.GetByID.
    rewrite tables_sent, Et. cbn [sql.project_access fst].
    rewrite find_app_none.
    + cbn [find]. unfold stored at 1. cbn [ProjectAccess.ID].
      rewrite Z.eqb_refl. reflexivity.
    + apply find_none_forall. intros a Ha. apply Z.eqb_neq.
      rewrite Forall_forall in Hbelow. specialize (Hbelow a Ha). lia.
Qed.

(** ** A grant that is not there *)

Lemma ProjectAccessRepository_GetByID_missing (id : Z) (db : sql.DB) :
  (forall a, In a (sql.project_access (sql.tables db)) -> ProjectAccess.ID a <> id) ->
  ProjectAccessRepository.GetByID id db
  = (Err ErrProjectAccessNotFound, sql.sent (sql.SelectAccessByID id) db).
Proof.
  intros H. unfold ProjectAccessRepository.GetByID. rewrite tables_sent.
  replace (find _ _) with (@None ProjectAccess.t); [reflexivity |].
  symmetry. apply find_none_forall. intros a Ha. apply Z.eqb_neq. now apply H.
Qed.

(** X3. Updating or revoking a grant under an id no row has fails with
    [ErrProjectAccessNotFound] and changes no table; the owner of the
    project named in the path is answered 404 with the message that the
    access record was not found. *)
Theorem missing_grant_is_not_found (db : sql.DB) (accessID : Z) :
  (forall a, In a (sql.project_access (sql.tables db)) ->
             ProjectAccess.ID a <> accessID) ->
  (forall accessUpdate,
      fst (ProjectAccessService.UpdateAccess accessID accessUpdate db)
      = Err ErrProjectAccessNotFound
      /\ sql.tables (snd (ProjectAccessService.UpdateAccess accessID accessUpdate db))
         = sql.tables db)
  /\ (fst (ProjectAccessService.RevokeAccess accessID db)
      = Err ErrProjectAccessNotFound
      /\ sql.tables (snd (ProjectAccessService.RevokeAccess accessID db))
         = sql.tables db)
  /\ (forall (update : gin.Context ProjectAccessUpdate.t) (revoke : gin.Context unit)
             (projectID : Z) (user : User.t) (p : Project.t),
         find (fun q => Project.ID q =? projectID) (sql.projects (sql.tables db))
         = Some p ->
         Project.OwnerID p = User.ID user ->
         gin.ParamID update = Some projectID ->
         gin.ParamAccessID update = Some accessID ->
         gin.ShouldBindJSON update <> None ->
         gin.GetUser update = Some user ->
         gin.ParamID revoke = Some projectID ->
         gin.ParamAccessID revoke = Some accessID ->
         gin.GetUser revoke = Some user ->
         (fst (ProjectAccessHandler.UpdateAccess update db)
          = gin.JSON http.StatusNotFound (gin.H_error "Access record not found")
          /\ sql.tables (snd (ProjectAccessHandler.UpdateAccess update db))
             = sql.tables db)
         /\ (fst (ProjectAccessHandler.RevokeAccess revoke db)
             = gin.JSON http.StatusNotFound (gin.H_error "Access record not found")
             /\ sql.tables (snd (ProjectAccessHandler.RevokeAccess revoke db))
                = sql.tables db)).
Proof.
  intros Hmiss.
  assert (Hupd : forall accessUpdate d, sql.tables d = sql.tables db ->
             ProjectAccessService.UpdateAccess accessID accessUpdate d
             = (Err ErrProjectAccessNotFound,
                sql.sent (sql.SelectAccessByID accessID) d)).
  { intros accessUpdate d Hd. unfold ProjectAccessService.UpdateAccess, bind.
    cbn [ProjectAccessRepositoryInterface.GetByID projectAccessRepo].
    rewrite ProjectAccessRepository_GetByID_missing; [reflexivity |].
    now rewrite Hd. }
  assert (Hrev : forall d, sql.tables d = sql.tables db ->
             ProjectAccessService.RevokeAccess accessID d
             = (Err ErrProjectAccessNotFound,
                sql.sent (sql.SelectAccessByID accessID) d)).
  { intros d Hd. unfold ProjectAccessService.RevokeAccess.
    cbn [ProjectAccessRepositoryInterface.Delete projectAccessRepo].
    unfold ProjectAccessRepository.Delete, bind.
    rewrite ProjectAccessRepository_GetByID_missing; [reflexivity |].
    now rewrite Hd. }
  split; [| split].
  - intros accessUpdate. now rewrite (Hupd accessUpdate db eq_refl).
  - now rewrite (Hrev db eq_refl).
  - intros update revoke projectID user p Hfind Hown Up Ua Ub Uu Rp Ra Ru.
    unfold ProjectAccessHandler.UpdateAccess, ProjectAccessHandler.RevokeAccess.
    rewrite Up, Ua, Uu, Rp, Ra, Ru.
    destruct (gin.ShouldBindJSON update) as [accessUpdate|]; [| contradiction].
    rewrite IsOwner_sql, Hfind.
    replace (Project.OwnerID p =? User.ID user) with true
      by (symmetry; now apply Z.eqb_eq).
    cbn [negb].
    rewrite (Hupd accessUpdate _ (tables_sent _ db)).
    rewrite (Hrev _ (tables_sent _ db)).
    cbn. repeat split.
Qed.

(** ** Revoking and updating, and what the user may do afterwards *)

Lemma same_key_same_row {A B : Type} (key : A -> B) (l : list A) (x y : A) :
  NoDup (map key l) -> In x l -> In y l -> key x = key y -> x = y.
Proof.
  induction l as [|z l IH]; simpl; intros Hnd Hx Hy E; [contradiction |].
  inversion Hnd as [|k ks Hnotin Hnd']; subst.
  destruct Hx as [-> | Hx], Hy as [-> | Hy]; auto.
  - exfalso. apply Hnotin. rewrite E. now apply in_map.
  - exfalso. apply Hnotin. rewrite <- E. now apply in_map.
Qed.

Lemma find_some_of_in {A : Type} (f : A -> bool) (l : list A) (x : A) :
  In x l -> f x = true -> exists y, find f l = Some y.
Proof.
  intros Hin Hf. destruct (find f l) as [y|] eqn:E; [now exists y |].
  pose proof (find_none _ _ E x Hin). congruence.
Qed.

Lemma HasViewAccess_sql (P U : Z) (db : sql.DB) :
  fst (ProjectAccessService.HasViewAccess P U db)
  = match find (fun q => Project.ID q =? P) (sql.projects (sql.tables db)) with
    | None => Err ErrProjectNotFound
    | Some p =>
        Ok ((Project.OwnerID p =? U)
            || existsb (ProjectAccessRepository.for_project_and_user P U)
                       (sql.project_access (sql.tables db)))
    end.
Proof.
  unfold ProjectAccessService.HasViewAccess, bind, ret.
  cbn [ProjectRepositoryInterface.GetByID projectRepo
       ProjectAccessRepositoryInterface.HasViewAccess projectAccessRepo].
  unfold ProjectRepository.GetByID, ProjectAccessRepository.HasViewAccess.
  cbv beta zeta. rewrite !tables_sent.
  destruct (find _ _) as [p|]; [| reflexivity].
  destruct (Project.OwnerID p =? U); [reflexivity |].
  cbn [fst orb]. now rewrite !tables_sent, count_positive.
Qed.

Lemma HasEditAccess_sql (P U : Z) (db : sql.DB) :
  fst (ProjectAccessService.HasEditAccess P U db)
  = match find (fun q => Project.ID q =? P) (sql.projects (sql.tables db)) with
    | None => Err ErrProjectNotFound
    | Some p =>
        Ok ((Project.OwnerID p =? U)
            || existsb (fun a =>
                          ProjectAccessRepository.for_project_and_user P U a
                          && AccessLevel_eqb (ProjectAccess.Level a) AccessLevelEdit)
                       (sql.project_access (sql.tables db)))
    end.
Proof.
  unfold ProjectAccessService.HasEditAccess, bind, ret.
  cbn [ProjectRepositoryInterface.GetByID projectRepo
       ProjectAccessRepositoryInterface.HasEditAccess projectAccessRepo].
  unfold ProjectRepository.GetByID, ProjectAccessRepository.HasEditAccess.
  cbv beta zeta. rewrite !tables_sent.
  destruct (find _ _) as [p|]; [| reflexivity].
  destruct (Project.OwnerID p =? U); [reflexivity |].
  cbn [fst orb]. now rewrite !tables_sent, count_positive.
Qed.

Lemma RevokeAccess_sql (accessID : Z) (db : sql.DB) (a0 : ProjectAccess.t) :
  In a0 (sql.project_access (sql.tables db)) -> ProjectAccess.ID a0 = accessID ->
  fst (ProjectAccessService.RevokeAccess accessID db) = Ok tt
  /\ sql.tables (snd (ProjectAccessService.RevokeAccess accessID db))
     = sql.mkTables
         (sql.projects (sql.tables db))
         (filter (fun a => negb (ProjectAccess.ID a =? accessID))
                 (sql.project_access (sql.tables db)))
         (sql.users (sql.tables db))
         (sql.projects_auto_increment (sql.tables db))
         (sql.project_access_auto_increment (sql.tables db))
         (sql.users_auto_increment (sql.tables db)).
Proof.
  intros Hin Hid. unfold ProjectAccessService.RevokeAccess.
  cbn [ProjectAccessRepositoryInterface.Delete projectAccessRepo].
  unfold ProjectAccessRepository.Delete, bind, ProjectAccessRepository.GetByID.
  cbv beta zeta. rewrite !tables_sent.
  destruct (find_some_of_in (fun a => ProjectAccess.ID a =? accessID) _ a0 Hin)
    as [y ->]; [now apply Z.eqb_eq |].
  cbn. split; reflexivity.
Qed.

(** X4. Revoking an existing grant succeeds and deletes the rows of that
    id and no other: every other row stays, projects and users are not
    touched, the id no longer resolves, and, the pair of project and user
    being unique, a user who is not the owner of the project can no longer
    view it. *)
Theorem RevokeAccess_removes_the_grant
  (db : sql.DB) (accessID : Z) (a0 : ProjectAccess.t) :
  In a0 (sql.project_access (sql.tables db)) -> ProjectAccess.ID a0 = accessID ->
  let after := snd (ProjectAccessService.RevokeAccess accessID db) in
  fst (ProjectAccessService.RevokeAccess accessID db) = Ok tt
  /\ (forall a, In a (sql.project_access (sql.tables after))
                <-> In a (sql.project_access (sql.tables db))
                    /\ ProjectAccess.ID a <> accessID)
  /\ sql.projects (sql.tables after) = sql.projects (sql.tables db)
  /\ sql.users (sql.tables after) = sql.users (sql.tables db)
  /\ fst (ProjectAccessRepository.GetByID accessID after)
     = Err ErrProjectAccessNotFound
  /\ (Schema.unique_project_user (sql.tables db) ->
      forall p,
        find (fun q => Project.ID q =? ProjectAccess.ProjectID a0)
             (sql.projects (sql.tables db)) = Some p ->
        Project.OwnerID p <> ProjectAccess.UserID a0 ->
        fst (ProjectAccessService.HasViewAccess
               (ProjectAccess.ProjectID a0) (ProjectAccess.UserID a0) after)
        = Ok false).
Proof.
  intros Hin Hid after.
  destruct (RevokeAccess_sql accessID db a0 Hin Hid) as [Eok Et].
  fold after in Et.
  assert (Hrows : forall a, In a (sql.project_access (sql.tables after))
                            <-> In a (sql.project_access (sql.tables db))
                                /\ ProjectAccess.ID a <> accessID).
  { intros a. rewrite Et. cbn [sql.project_access]. rewrite filter_In.
    rewrite negb_true_iff, Z.eqb_neq. tauto. }
  split; [exact Eok |]. split; [exact Hrows |].
  split; [now rewrite Et |]. split; [now rewrite Et |]. split.
  - rewrite ProjectAccessRepository_GetByID_missing; [reflexivity |].
    intros a Ha. now apply Hrows in Ha.
  - intros Huq p Hfind Hown. rewrite HasViewAccess_sql.
    rewrite Et at 1. cbn [sql.projects]. rewrite Hfind.
    replace (Project.OwnerID p =? ProjectAccess.UserID a0) with false
      by (symmetry; now apply Z.eqb_neq).
    cbn [orb]. f_equal. apply not_true_is_false. intros E.
    apply has_view_rows in E. destruct E as [a [Ha [E1 E2]]].
    apply Hrows in Ha. destruct Ha as [Ha Hne]. apply Hne.
    rewrite <- Hid. f_equal.
    apply (same_key_same_row Schema.project_user _ a a0 Huq Ha Hin).
    unfold Schema.project_user. now rewrite E1, E2.
Qed.

Lemma UpdateAccess_succeeded (db db' : sql.DB) (accessID : Z)
  (accessUpdate : ProjectAccessUpdate.t) (access : ProjectAccess.t) :
  ProjectAccessService.UpdateAccess accessID accessUpdate db = (Ok access, db') ->
  exists found,
    In found (sql.project_access (sql.tables db))
    /\ ProjectAccess.ID found = accessID
    /\ access
       = ProjectAccess.mk accessID (ProjectAccess.ProjectID found)
                          (ProjectAccess.UserID found)
                          (ProjectAccessUpdate.Level accessUpdate)
                          (ProjectAccess.CreatedAt found) (sql.now db)
    /\ sql.tables db'
       = sql.mkTables
           (sql.projects (sql.tables db))
           (map (ProjectAccessRepository.set_level
                   accessID (ProjectAccessUpdate.Level accessUpdate) (sql.stamp db))
                (sql.project_access (sql.tables db)))
           (sql.users (sql.tables db))
           (sql.projects_auto_increment (sql.tables db))
           (sql.project_access_auto_increment (sql.tables db))
           (sql.users_auto_increment (sql.tables db)).
Proof.
  unfold ProjectAccessService.UpdateAccess, bind.
  cbn [ProjectAccessRepositoryInterface.GetByID
       ProjectAccessRepositoryInterface.Update projectAccessRepo].
  destruct (ProjectAccessRepository.GetByID accessID db) as [[found|e] db1] eqn:E1;
    [| discriminate].
  apply ProjectAccessRepository_GetByID_ok in E1. destruct E1 as [Hfind [Hid ->]].
  unfold ProjectAccessRepository.Update, bind, ProjectAccessRepository.GetByID.
  cbv beta zeta. cbn [ProjectAccess.ID ProjectAccess.Level].
  rewrite !tables_sent, Hid, Hfind. intros H. inversion H; subst; clear H.
  exists found. apply find_some in Hfind. destruct Hfind as [Hin _].
  repeat split; auto.
Qed.

(** X5. After a successful update the user of the grant may view its
    project; raised to edit, the user may edit it; lowered to view, a user
    who is not the owner may no longer edit it (the pair of project and
    user being unique). *)
Theorem UpdateAccess_changes_what_the_user_may_do
  (db db' : sql.DB) (accessID : Z) (accessUpdate : ProjectAccessUpdate.t)
  (access : ProjectAccess.t) (p : Project.t) :
  ProjectAccessService.UpdateAccess accessID accessUpdate db = (Ok access, db') ->
  let P := ProjectAccess.ProjectID access in
  let U := ProjectAccess.UserID access in
  find (fun q => Project.ID q =? P) (sql.projects (sql.tables db)) = Some p ->
  fst (ProjectAccessService.HasViewAccess P U db') = Ok true
  /\ (ProjectAccessUpdate.Level accessUpdate = AccessLevelEdit ->
      fst (ProjectAccessService.HasEditAccess P U db') = Ok true)
  /\ (ProjectAccessUpdate.Level accessUpdate = AccessLevelView ->
      Project.OwnerID p <> U ->
      Schema.unique_project_user (sql.tables db) ->
      fst (ProjectAccessService.HasEditAccess P U db') = Ok false).
Proof.
  intros H P U Hfind.
  destruct (UpdateAccess_succeeded _ _ _ _ _ H) as [found [Hin [Hid [Eacc Et]]]].
  assert (EP : P = ProjectAccess.ProjectID found) by (subst P; now rewrite Eacc).
  assert (EU : U = ProjectAccess.UserID found) by (subst U; now rewrite Eacc).
  clearbody P U. subst P U.
  set (stored := ProjectAccess.mk
                   (ProjectAccess.ID found) (ProjectAccess.ProjectID found)
                   (ProjectAccess.UserID found)
                   (ProjectAccessUpdate.Level accessUpdate)
                   (ProjectAccess.CreatedAt found) (sql.stamp db)).
  assert (Hnew : In stored (sql.project_access (sql.tables db'))).
  { rewrite Et. cbn [sql.project_access].
    replace stored
      with (ProjectAccessRepository.set_level
              accessID (ProjectAccessUpdate.Level accessUpdate)
              (sql.stamp db) found); [exact (in_map _ _ _ Hin) |].
    unfold ProjectAccessRepository.set_level, stored.
    now rewrite Hid, Z.eqb_refl. }
  split; [| split].
  - rewrite HasViewAccess_sql. rewrite Et at 1. cbn [sql.projects]. rewrite Hfind.
    f_equal. apply orb_true_iff. right. apply has_view_rows.
    exists stored. now cbn.
  - intros Hedit. rewrite HasEditAccess_sql. rewrite Et at 1.
    cbn [sql.projects]. rewrite Hfind.
    f_equal. apply orb_true_iff. right. apply has_edit_rows.
    exists stored. cbn. now rewrite Hedit.
  - intros Hview Hown Huq. rewrite HasEditAccess_sql. rewrite Et at 1.
    cbn [sql.projects]. rewrite Hfind.
    replace (Project.OwnerID p =? ProjectAccess.UserID found) with false
      by (symmetry; now apply Z.eqb_neq).
    cbn [orb]. f_equal. apply not_true_is_false. intros E.
    apply has_edit_rows in E. destruct E as [a' [Ha' [E1 [E2 E3]]]].
    rewrite Et in Ha'. cbn [sql.project_access] in Ha'.
    apply in_map_iff in Ha'. destruct Ha' as [a [<- Ha]].
    assert (Esame : ProjectAccess.ProjectID
                      (ProjectAccessRepository.set_level
                         accessID (ProjectAccessUpdate.Level accessUpdate)
                         (sql.stamp db) a) = ProjectAccess.ProjectID a
                    /\ ProjectAccess.UserID
                         (ProjectAccessRepository.set_level
                            accessID (ProjectAccessUpdate.Level accessUpdate)
                            (sql.stamp db) a) = ProjectAccess.UserID a).
    { unfold ProjectAccessRepository.set_level.
      now destruct (ProjectAccess.ID a =? accessID). }
    destruct Esame as [S1 S2]. rewrite S1 in E1. rewrite S2 in E2.
    assert (a = found).
    { apply (same_key_same_row Schema.project_user _ a found Huq Ha Hin).
      unfold Schema.project_user. now rewrite E1, E2. }
    subst a. unfold ProjectAccessRepository.set_level in E3.
    rewrite Hid, Z.eqb_refl in E3. cbn in E3. congruence.
Qed.

(** ** Listing grants *)

Lemma access_insert_perm (a : ProjectAccess.t) (l : list ProjectAccess.t) :
  Permutation (a :: l) (ProjectAccessRepository.insert_by_created_at a l).
Proof.
  induction l as [|b l IH]; simpl.
  - apply Permutation_refl.
  - destruct (ProjectAccess.CreatedAt b <=? ProjectAccess.CreatedAt a).
    + apply Permutation_refl.
    + eapply perm_trans; [apply perm_swap |]. now apply perm_skip.
Qed.

Lemma access_order_perm (l : list ProjectAccess.t) :
  Permutation l (fold_right ProjectAccessRepository.insert_by_created_at [] l).
Proof.
  induction l as [|a l IH]; simpl.
  - apply perm_nil.
  - eapply perm_trans; [| apply access_insert_perm]. now apply perm_skip.
Qed.

Lemma access_insert_sorted (a : ProjectAccess.t) (l : list ProjectAccess.t) :
  StronglySorted Pages.more_recent l ->
  StronglySorted Pages.more_recent (ProjectAccessRepository.insert_by_created_at a l).
Proof.
  induction l as [|b l IH]; simpl; intros Hs.
  - constructor; constructor.
  - inversion Hs as [|b' l' Hs' Hall]; subst.
    destruct (Z.leb_spec (ProjectAccess.CreatedAt b) (ProjectAccess.CreatedAt a))
      as [Hle | Hgt].
    + constructor; [exact Hs |]. constructor; [exact Hle |].
      eapply Forall_impl; [| exact Hall]. unfold Pages.more_recent. intros; lia.
    + constructor; [now apply IH |].
      eapply Permutation_Forall; [apply access_insert_perm |].
      constructor; [unfold Pages.more_recent; lia | exact Hall].
Qed.

Lemma access_order_sorted (l : list ProjectAccess.t) :
  StronglySorted Pages.more_recent
    (fold_right ProjectAccessRepository.insert_by_created_at [] l).
Proof.
  induction l as [|a l IH]; simpl.
  - constructor.
  - now apply access_insert_sorted.
Qed.

Lemma GetProjectAccess_lists (P : Z) (db : sql.DB) :
  exists l,
    ProjectAccessService.GetProjectAccess P db
    = (Ok l, sql.sent (sql.SelectAccessByProject P) db)
    /\ Permutation (filter (fun a => ProjectAccess.ProjectID a =? P)
                           (sql.project_access (sql.tables db))) l
    /\ (forall a, In a l <-> In a (sql.project_access (sql.tables db))
                             /\ ProjectAccess.ProjectID a = P)
    /\ StronglySorted Pages.more_recent l.
Proof.
  eexists. split; [reflexivity |]. rewrite tables_sent.
  split; [apply access_order_perm |]. split.
  - intros a. rewrite <- (Permutation_in' eq_refl (access_order_perm _)).
    rewrite filter_In, Z.eqb_eq. tauto.
  - apply access_order_sorted.
Qed.

(** X6. The grants of a project, and the grants of a user, are listed in
    full and without strangers, most recently created first, and listing
    them changes no table; the project ids fetched for the visibility
    listing are the project ids of the user's grants. *)
Theorem grants_are_listed_newest_first (db : sql.DB) :
  (forall P,
      exists l,
        ProjectAccessService.GetProjectAccess P db
        = (Ok l, sql.sent (sql.SelectAccessByProject P) db)
        /\ Permutation (filter (fun a => ProjectAccess.ProjectID a =? P)
                               (sql.project_access (sql.tables db))) l
        /\ (forall a, In a l <-> In a (sql.project_access (sql.tables db))
                                 /\ ProjectAccess.ProjectID a = P)
        /\ StronglySorted Pages.more_recent l)
  /\ (forall U,
         exists l ids,
           ProjectAccessService.GetUserAccess U db = (Ok l, db)
           /\ (forall a, In a l <-> In a (sql.project_access (sql.tables db))
                                    /\ ProjectAccess.UserID a = U)
           /\ StronglySorted Pages.more_recent l
           /\ fst (ProjectAccessRepository.GetProjectIDsByUserAccess U db) = Ok ids
           /\ Permutation ids (map ProjectAccess.ProjectID l)).
Proof.
  split.
  - intros P. apply GetProjectAccess_lists.
  - intros U. eexists. eexists. split; [reflexivity |].
    split; [| split; [| split]].
    + intros a. rewrite <- (Permutation_in' eq_refl (access_order_perm _)).
      rewrite filter_In, Z.eqb_eq. tauto.
    + apply access_order_sorted.
    + reflexivity.
    + rewrite tables_sent. apply Permutation_map. apply access_order_perm.
Qed.

(** X7. [ListAccess] answers the owner of the project with all of its
    grants, most recently created first; anyone else, whatever their role,
    is answered 403, and a missing project 404. No table changes. *)
Theorem ListAccess_is_for_the_owner
  (db : sql.DB) (c : gin.Context unit) (projectID : Z) (user : User.t) :
  gin.ParamID c = Some projectID -> gin.GetUser c = Some user ->
  sql.tables (snd (ProjectAccessHandler.ListAccess c db)) = sql.tables db
  /\ (forall p,
         find (fun q => Project.ID q =? projectID) (sql.projects (sql.tables db))
         = Some p ->
         (Project.OwnerID p = User.ID user ->
          exists l,
            fst (ProjectAccessHandler.ListAccess c db)
            = gin.JSON http.StatusOK (gin.AccessListJSON l)
            /\ (forall a, In a l <-> In a (sql.project_access (sql.tables db))
                                     /\ ProjectAccess.ProjectID a = projectID)
            /\ StronglySorted Pages.more_recent l)
         /\ (Project.OwnerID p <> User.ID user ->
             gin.Status (fst (ProjectAccessHandler.ListAccess c db))
             = http.StatusForbidden))
  /\ (find (fun q => Project.ID q =? projectID) (sql.projects (sql.tables db))
      = None ->
      gin.Status (fst (ProjectAccessHandler.ListAccess c db)) = http.StatusNotFound).
Proof.
  intros Hp Hu. unfold ProjectAccessHandler.ListAccess.
  rewrite Hp, Hu, IsOwner_sql.
  destruct (find _ _) as [p|] eqn:Hfind.
  - cbv beta iota.
    destruct (GetProjectAccess_lists
                projectID (sql.sent (sql.SelectProjectByID projectID) db))
      as [l [El [_ [Hin Hs]]]].
    rewrite El. rewrite tables_sent in Hin.
    split; [| split].
    + now destruct (negb _).
    + intros q Eq. inversion Eq; subst q. split.
      * intros Hown.
        replace (Project.OwnerID p =? User.ID user) with true
          by (symmetry; now apply Z.eqb_eq).
        exists l. split; [reflexivity | split; assumption].
      * intros Hnot.
        replace (Project.OwnerID p =? User.ID user) with false
          by (symmetry; now apply Z.eqb_neq).
        reflexivity.
    + discriminate.
  - cbn. split; [reflexivity |]. split; [discriminate | reflexivity].
Qed.

(** X8. The lookup of a grant by project and user agrees with the access
    checks of the repository: it finds a row exactly when the view check
    answers true, the row it finds is a row of that pair, and, the pair
    being unique, the edit check answers true exactly when that row has
    level edit. *)
Theorem GetByProjectAndUser_agrees_with_checks (db : sql.DB) (P U : Z) :
  (fst (ProjectAccessRepository.HasViewAccess P U db) = Ok true
   <-> exists a, fst (ProjectAccessRepository.GetByProjectAndUser P U db) = Ok a)
  /\ (fst (ProjectAccessRepository.HasViewAccess P U db) = Ok false
      <-> fst (ProjectAccessRepository.GetByProjectAndUser P U db)
          = Err ErrProjectAccessNotFound)
  /\ (forall a,
         fst (ProjectAccessRepository.GetByProjectAndUser P U db) = Ok a ->
         In a (sql.project_access (sql.tables db))
         /\ ProjectAccess.ProjectID a = P /\ ProjectAccess.UserID a = U)
  /\ (Schema.unique_project_user (sql.tables db) ->
      (fst (ProjectAccessRepository.HasEditAccess P U db) = Ok true
       <-> exists a,
           fst (ProjectAccessRepository.GetByProjectAndUser P U db) = Ok a
           /\ ProjectAccess.Level a = AccessLevelEdit)).
Proof.
  unfold ProjectAccessRepository.HasViewAccess,
    ProjectAccessRepository.HasEditAccess,
    ProjectAccessRepository.GetByProjectAndUser.
  cbv beta zeta. rewrite !tables_sent, !count_positive. cbn [fst].
  assert (Hrow : forall a,
             find (ProjectAccessRepository.for_project_and_user P U)
                  (sql.project_access (sql.tables db)) = Some a ->
             In a (sql.project_access (sql.tables db))
             /\ ProjectAccess.ProjectID a = P /\ ProjectAccess.UserID a = U).
  { intros a E. apply find_some in E. destruct E as [Hin E].
    unfold ProjectAccessRepository.for_project_and_user in E.
    apply andb_true_iff in E. destruct E as [E1 E2].
    apply Z.eqb_eq in E1, E2. auto. }
  split; [| split; [| split]].
  - destruct (find _ _) as [a|] eqn:E; cbn [fst].
    + rewrite (existsb_of_find _ _ _ E). split; [now exists a | reflexivity].
    + replace (existsb _ _) with false.
      * split; [discriminate | intros [a Ha]; discriminate].
      * symmetry. apply not_true_is_false. intros Hex.
        apply existsb_exists in Hex. destruct Hex as [a [Ha Hf]].
        pose proof (find_none _ _ E a Ha). congruence.
  - destruct (find _ _) as [a|] eqn:E; cbn [fst].
    + rewrite (existsb_of_find _ _ _ E). split; discriminate.
    + replace (existsb _ _) with false; [tauto |].
      symmetry. apply not_true_is_false. intros Hex.
      apply existsb_exists in Hex. destruct Hex as [a [Ha Hf]].
      pose proof (find_none _ _ E a Ha). congruence.
  - intros a. destruct (find _ _) as [b|] eqn:E; cbn [fst]; [| discriminate].
    intros Eb. inversion Eb; subst b. now apply Hrow.
  - intros Huq. split.
    + intros E. inversion E as [Eex]. apply has_edit_rows in Eex.
      destruct Eex as [a [Ha [E1 [E2 E3]]]].
      destruct (find_some_of_in (ProjectAccessRepository.for_project_and_user P U)
                                _ a Ha) as [b Eb].
      { unfold ProjectAccessRepository.for_project_and_user.
        now rewrite E1, E2, !Z.eqb_refl. }
      rewrite Eb. cbn [fst]. exists b. split; [reflexivity |].
      destruct (Hrow b Eb) as [Hb [B1 B2]].
      assert (b = a).
      { apply (same_key_same_row Schema.project_user _ b a Huq Hb Ha).
        unfold Schema.project_user. congruence. }
      now subst b.
    + intros [a [Ea Hedit]].
      destruct (find _ _) as [b|] eqn:Eb; cbn [fst] in Ea; [| discriminate].
      inversion Ea; subst b. f_equal. apply has_edit_rows.
      destruct (Hrow a eq_refl) as [Ha [E1 E2]]. exists a. auto.
Qed.

(** * Projects *)

Lemma collate_sent (st : sql.Statement) (db : sql.DB) :
  sql.collate (sql.sent st db) = sql.collate db.
Proof. reflexivity. Qed.

Lemma stamp_sent (st : sql.Statement) (db : sql.DB) :
  sql.stamp (sql.sent st db) = sql.stamp db.
Proof. reflexivity. Qed.

Lemma collate_refl (db : sql.DB) (a : string) : sql.collate db a a = true.
Proof. unfold sql.collate. apply String.eqb_refl. Qed.

Lemma same_name_and_owner (db : sql.DB) (name : string) (ownerID : Z) :
  existsb (fun p => sql.collate db (Project.Name p) name
                    && (Project.OwnerID p =? ownerID))
          (sql.projects (sql.tables db)) = true
  <-> exists p, In p (sql.projects (sql.tables db))
                /\ sql.collate db (Project.Name p) name = true
                /\ Project.OwnerID p = ownerID.
Proof.
  rewrite existsb_exists. split; intros [p [Hin H]]; exists p; split; auto.
  - apply andb_true_iff in H. destruct H as [H1 H2].
    split; [exact H1 | now apply Z.eqb_eq].
  - destruct H as [-> <-]. now rewrite Z.eqb_refl.
Qed.

Lemma find_below_counter (l : list Project.t) (n : Z) (row : Project.t) :
  Forall (fun p => Project.ID p < n) l -> Project.ID row = n ->
  find (fun q => Project.ID q =? n) (l ++ [row]) = Some row.
Proof.
  intros Hlt Hid. rewrite find_app_none.
  - cbn. now rewrite Hid, Z.eqb_refl.
  - apply find_none_forall. intros p Hp. apply Z.eqb_neq.
    rewrite Forall_forall in Hlt. specialize (Hlt p Hp). lia.
Qed.


Lemma ProjectService_Update_sql (db : sql.DB) (id : Z)
  (projectUpdate : ProjectUpdate.t) (p : Project.t) :
  find (fun q => Project.ID q =? id) (sql.projects (sql.tables db)) = Some p ->
  let name :=
    if String.eqb (ProjectUpdate.Name projectUpdate) EmptyString
    then Project.Name p else ProjectUpdate.Name projectUpdate in
  let set q :=
    if Project.ID q =? id
    then Project.mk (Project.ID q) name (ProjectUpdate.Description projectUpdate)
                    (Project.OwnerID q) (Project.CreatedAt q) (sql.stamp db)
    else q in
  fst (ProjectService.Update id projectUpdate db)
  = Ok (Project.mk id name (ProjectUpdate.Description projectUpdate)
                   (Project.OwnerID p) (Project.CreatedAt p) (sql.now db))
  /\ sql.tables (snd (ProjectService.Update id projectUpdate db))
     = sql.mkTables (map set (sql.projects (sql.tables db)))
                    (sql.project_access (sql.tables db))
                    (sql.users (sql.tables db))
                    (sql.projects_auto_increment (sql.tables db))
                    (sql.project_access_auto_increment (sql.tables db))
                    (sql.users_auto_increment (sql.tables db)).
Proof.
  intros Hfind name set. subst name set.
  assert (Hid : Project.ID p = id).
  { apply find_some in Hfind. now apply Z.eqb_eq. }
  unfold ProjectService.Update, bind.
  cbn [ProjectRepositoryInterface.GetByID ProjectRepositoryInterface.Update
       projectRepo].
  unfold ProjectRepository.Update, bind, ProjectRepository.GetByID.
  cbv beta zeta. cbn [Project.ID Project.Name Project.Description
                      Project.OwnerID Project.CreatedAt].
  rewrite !tables_sent, Hfind. cbv beta iota.
  rewrite !tables_sent, Hid, Hfind. cbn. split; reflexivity.
Qed.


Lemma in_firstn {A : Type} (n : nat) (l : list A) (x : A) :
  In x (firstn n l) -> In x l.
Proof.
  intros H. rewrite <- (firstn_skipn n l). apply in_or_app. now left.
Qed.

Lemma in_skipn {A : Type} (n : nat) (l : list A) (x : A) :
  In x (skipn n l) -> In x l.
Proof.
  intros H. rewrite <- (firstn_skipn n l). apply in_or_app. now right.
Qed.

Lemma paginate_within (page pageSize : Z) (l l' : list Project.t) :
  ProjectAccessService.paginate page pageSize l = Returns (Ok l') ->
  forall x, In x l' -> In x l.
Proof.
  unfold ProjectAccessService.paginate.
  destruct (_ >=? _).
  - intros H. inversion H; subst. intros x [].
  - unfold slice. destruct (_ && _); [| discriminate].
    intros H. inversion H; subst. intros x Hx.
    apply in_firstn in Hx. now apply in_skipn in Hx.
Qed.

(** What is in the combined list of a user. *)
Lemma in_combined (t : sql.Tables) (U : Z) (q : Project.t) :
  In q (Spec.combined t U) ->
  In q (sql.projects t)
  /\ (Project.OwnerID q = U
      \/ exists a, In a (sql.project_access t)
                   /\ ProjectAccess.ProjectID a = Project.ID q
                   /\ ProjectAccess.UserID a = U).
Proof.
  unfold Spec.combined, Spec.GrantedAccessible. intros H.
  apply in_app_or in H. destruct H as [H | H].
  - unfold Spec.Owned in H.
    apply (Permutation_in _ (Permutation_sym (order_by_created_at_desc_perm _))) in H.
    apply filter_In in H. destruct H as [Hin E]. apply Z.eqb_eq in E. auto.
  - apply resolve_ids in H. destruct H as [Hid Hin]. split; [exact Hin |].
    right. unfold Spec.GrantedIds', Spec.GrantedIds in Hid.
    apply filter_In in Hid. destruct Hid as [Hid _].
    apply in_map_iff in Hid. destruct Hid as [a [E Ha]].
    apply filter_In in Ha. destruct Ha as [Ha Eu]. apply Z.eqb_eq in Eu.
    exists a. auto.
Qed.

Lemma combined_has (t : sql.Tables) (U : Z) (q : Project.t) :
  NoDup (map Project.ID (sql.projects t)) ->
  In q (sql.projects t) ->
  (Project.OwnerID q = U
   \/ exists a, In a (sql.project_access t)
                /\ ProjectAccess.ProjectID a = Project.ID q
                /\ ProjectAccess.UserID a = U) ->
  In q (Spec.combined t U).
Proof.
  intros Hnd Hin Hwhy.
  assert (Howned : Project.OwnerID q = U -> In q (Spec.Owned t U)).
  { intros E. unfold Spec.Owned.
    apply (Permutation_in _ (order_by_created_at_desc_perm _)).
    apply filter_In. split; [exact Hin | now apply Z.eqb_eq]. }
  unfold Spec.combined. apply in_or_app.
  destruct (Z.eq_dec (Project.OwnerID q) U) as [E | NE]; [left; now apply Howned |].
  destruct Hwhy as [E | [a [Ha [E1 E2]]]]; [contradiction |].
  right. unfold Spec.GrantedAccessible, Spec.resolve. apply in_flat_map.
  exists (Project.ID q). split.
  - unfold Spec.GrantedIds'. apply filter_In. split.
    + unfold Spec.GrantedIds. apply in_map_iff. exists a. split; [exact E1 |].
      apply filter_In. split; [exact Ha | now apply Z.eqb_eq].
    + apply negb_true_iff. rewrite is_owned_in_table.
      apply not_true_is_false. intros Hex. apply existsb_exists in Hex.
      destruct Hex as [q' [Hq' E]]. apply andb_true_iff in E.
      destruct E as [Eid Eown]. apply Z.eqb_eq in Eid, Eown.
      assert (q' = q)
        by (apply (same_key_same_row Project.ID _ q' q Hnd Hq' Hin Eid)).
      subst q'. contradiction.
  - rewrite (find_by_key Project.ID _ q Hnd Hin). now left.
Qed.

(** X11. The listing shows what may be viewed, and nothing else. Whatever
    the page and page size, every project a listing call hands back is a
    project of the table that the user owns or holds a grant for, one for
    which [HasViewAccess] answers true; and page one of a page size that
    covers the list holds every such project. (Project ids are unique.) *)
Theorem listing_is_what_may_be_viewed (db : sql.DB) (U : Z) :
  NoDup (map Project.ID (sql.projects (sql.tables db))) ->
  (forall page pageSize l q,
      fst (ProjectAccessService.GetAccessibleProjects U page pageSize db)
      = Returns (Ok l) ->
      In q l ->
      In q (sql.projects (sql.tables db))
      /\ fst (ProjectAccessService.HasViewAccess (Project.ID q) U db) = Ok true)
  /\ (forall pageSize q,
         len (Spec.combined (sql.tables db) U) <= pageSize ->
         pageSize <= GoInt.max_int ->
         In q (sql.projects (sql.tables db)) ->
         fst (ProjectAccessService.HasViewAccess (Project.ID q) U db) = Ok true ->
         exists l,
           fst (ProjectAccessService.GetAccessibleProjects U 1 pageSize db)
           = Returns (Ok l)
           /\ In q l).
Proof.
  intros Hnd.
  assert (Hview : forall q, In q (sql.projects (sql.tables db)) ->
            (fst (ProjectAccessService.HasViewAccess (Project.ID q) U db) = Ok true
             <-> Project.OwnerID q = U
                 \/ exists a, In a (sql.project_access (sql.tables db))
                              /\ ProjectAccess.ProjectID a = Project.ID q
                              /\ ProjectAccess.UserID a = U)).
  { intros q Hq. rewrite HasViewAccess_sql, (find_by_key Project.ID _ q Hnd Hq).
    split.
    - intros E. inversion E as [Eb]. apply orb_true_iff in Eb.
      destruct Eb as [Eb | Eb]; [left; now apply Z.eqb_eq |].
      right. now apply has_view_rows.
    - intros [E | E]; f_equal; apply orb_true_iff.
      + left. now apply Z.eqb_eq.
      + right. now apply has_view_rows. }
  split.
  - intros page pageSize l q Hcall Hq.
    assert (Hc : In q (Spec.combined (sql.tables db) U)).
    { rewrite GetAccessibleProjects_sql in Hcall.
      destruct (_ && _).
      - inversion Hcall; subst. destruct Hq.
      - eapply paginate_within; eassumption. }
    apply in_combined in Hc. destruct Hc as [Hin Hwhy].
    split; [exact Hin | now apply Hview].
  - intros pageSize q Hlen Hmax Hq Hcan.
    exists (Spec.combined (sql.tables db) U). split.
    + now apply GetAccessibleProjects_first_page.
    + apply combined_has; auto. now apply Hview.
Qed.

(** ** Paging *)

Lemma firstn_then_firstn {A : Type} (a b : nat) (l : list A) :
  firstn a l ++ firstn b (skipn a l) = firstn (a + b) l.
Proof.
  revert l. induction a as [|a IH]; intros l; [reflexivity |].
  destruct l as [|x l]; cbn.
  - now rewrite firstn_nil.
  - now rewrite IH.
Qed.

Lemma page_of_slice {A : Type} (page pageSize : Z) (l : list A) :
  1 <= page -> 1 <= pageSize ->
  Spec.page_of page pageSize l
  = firstn (Z.to_nat pageSize) (skipn (Z.to_nat ((page - 1) * pageSize)) l).
Proof.
  intros Hp Hs. unfold Spec.page_of, Spec.normalize_page, Spec.normalize_pageSize.
  destruct (Z.leb_spec page 0); [lia |].
  destruct (Z.leb_spec pageSize 0); [lia |].
  destruct (Z.geb_spec ((page - 1) * pageSize) (len l)) as [Hge | Hlt];
    [| reflexivity].
  rewrite skipn_all2; [now rewrite firstn_nil |]. unfold len in Hge. nia.
Qed.

(** X12. Pages follow one another without gap or overlap: for a page size
    of at least one, the first [n] pages of a user's listing, one after
    the other, are the first [n] times page size entries of the combined
    list, as long as that product fits in an [int]. *)
Theorem pages_follow_one_another
  (db : sql.DB) (U pageSize : Z) (n : nat) :
  1 <= pageSize -> Z.of_nat n * pageSize <= GoInt.max_int ->
  Pages.first_pages U pageSize n db
  = firstn (n * Z.to_nat pageSize) (Spec.combined (sql.tables db) U).
Proof.
  intros Hs. unfold Pages.first_pages. induction n as [|n IH]; intros Hmax.
  - reflexivity.
  - rewrite seq_S, flat_map_app, IH by nia. cbn [flat_map plus].
    rewrite app_nil_r.
    rewrite GetAccessibleProjects_sql_in_range.
    2:{ unfold Spec.normalize_page, Spec.normalize_pageSize.
        destruct (Z.leb_spec (Z.of_nat (S n)) 0); [lia |].
        destruct (Z.leb_spec pageSize 0); [lia | exact Hmax]. }
    cbn [Pages.projects_of]. unfold Spec.accessibleProjects.
    rewrite page_of_slice by lia.
    replace (Z.to_nat ((Z.of_nat (S n) - 1) * pageSize))
      with (n * Z.to_nat pageSize)%nat by nia.
    rewrite firstn_then_firstn. f_equal. lia.
Qed.

(** ** Deleting a project *)

Lemma ProjectService_Delete_sql (db : sql.DB) (id : Z) (p : Project.t) :
  find (fun q => Project.ID q =? id) (sql.projects (sql.tables db)) = Some p ->
  fst (ProjectService.Delete id db) = Ok tt
  /\ sql.tables (snd (ProjectService.Delete id db))
     = sql.mkTables
         (filter (fun q => negb (Project.ID q =? id)) (sql.projects (sql.tables db)))
         (filter (fun a => negb (ProjectAccess.ProjectID a =? id))
                 (sql.project_access (sql.tables db)))
         (sql.users (sql.tables db))
         (sql.projects_auto_increment (sql.tables db))
         (sql.project_access_auto_increment (sql.tables db))
         (sql.users_auto_increment (sql.tables db)).
Proof.
  intros Hfind. unfold ProjectService.Delete.
  cbn [ProjectRepositoryInterface.Delete projectRepo].
  unfold ProjectRepository.Delete, bind, ProjectRepository.GetByID.
  cbv beta zeta. rewrite !tables_sent, Hfind. cbn. split; reflexivity.
Qed.

(** X13. Deleting a project that exists succeeds and takes the rows of
    that id out of the project table and the access rows of that project
    with them; every other project and access row stays and the users are
    not touched. From then on the id does not resolve, the access checks
    fail with [ErrProjectNotFound], and no listing of any user, on any
    page, shows a project of that id. Deleting a project that does not
    exist fails with [ErrProjectNotFound] and changes nothing. *)
Theorem Delete_project_takes_its_grants_along (db : sql.DB) (id : Z) :
  let after := snd (ProjectService.Delete id db) in
  (forall p,
      find (fun q => Project.ID q =? id) (sql.projects (sql.tables db)) = Some p ->
      fst (ProjectService.Delete id db) = Ok tt
      /\ (forall q, In q (sql.projects (sql.tables after))
                    <-> In q (sql.projects (sql.tables db)) /\ Project.ID q <> id)
      /\ (forall a, In a (sql.project_access (sql.tables after))
                    <-> In a (sql.project_access (sql.tables db))
                        /\ ProjectAccess.ProjectID a <> id)
      /\ sql.users (sql.tables after) = sql.users (sql.tables db)
      /\ fst (ProjectService.GetByID id after) = Err ErrProjectNotFound
      /\ (forall U,
             fst (ProjectAccessService.HasViewAccess id U after)
             = Err ErrProjectNotFound
             /\ fst (ProjectAccessService.HasEditAccess id U after)
                = Err ErrProjectNotFound)
      /\ (forall U page pageSize l q,
             fst (ProjectAccessService.GetAccessibleProjects U page pageSize after)
             = Returns (Ok l) ->
             In q l -> Project.ID q <> id))
  /\ (find (fun q => Project.ID q =? id) (sql.projects (sql.tables db)) = None ->
      fst (ProjectService.Delete id db) = Err ErrProjectNotFound
      /\ sql.tables after = sql.tables db).
Proof.
  intros after. split.
  - intros p Hfind.
    destruct (ProjectService_Delete_sql db id p Hfind) as [Eok Et]. fold after in Et.
    assert (Hprojects : forall q, In q (sql.projects (sql.tables after))
                          <-> In q (sql.projects (sql.tables db))
                              /\ Project.ID q <> id).
    { intros q. rewrite Et. cbn [sql.projects].
      rewrite filter_In, negb_true_iff, Z.eqb_neq. tauto. }
    assert (Hgone : find (fun q => Project.ID q =? id)
                         (sql.projects (sql.tables after)) = None).
    { apply find_none_forall. intros q Hq. apply Z.eqb_neq. now apply Hprojects. }
    split; [exact Eok |]. split; [exact Hprojects |].
    split; [| split; [| split; [| split]]].
    + intros a. rewrite Et. cbn [sql.project_access].
      rewrite filter_In, negb_true_iff, Z.eqb_neq. tauto.
    + now rewrite Et.
    + unfold ProjectService.GetByID.
      cbn [ProjectRepositoryInterface.GetByID projectRepo].
      unfold ProjectRepository.GetByID. cbv zeta. now rewrite tables_sent, Hgone.
    + intros U. now rewrite HasViewAccess_sql, HasEditAccess_sql, Hgone.
    + intros U page pageSize l q Hcall Hq.
      assert (Hc : In q (Spec.combined (sql.tables after) U)).
      { rewrite GetAccessibleProjects_sql in Hcall.
        destruct (_ && _).
        - inversion Hcall; subst. destruct Hq.
        - eapply paginate_within; eassumption. }
      apply in_combined in Hc. destruct Hc as [Hin _]. now apply Hprojects.
  - intros Hnone. subst after. unfold ProjectService.Delete.
    cbn [ProjectRepositoryInterface.Delete projectRepo].
    unfold ProjectRepository.Delete, bind, ProjectRepository.GetByID.
    cbv beta zeta. rewrite !tables_sent, Hnone. split; reflexivity.
Qed.

(** ** Two ways to ask who owns a project *)

(** X14. For an existing project the ownership query of the repository
    and the ownership check of the service, which does not use it, give
    the same answer: whether the user is the owner. For a project that
    does not exist they differ: the repository answers false, the service
    fails with [ErrProjectNotFound]. Neither changes a table. *)
Theorem IsOwner_of_repository_and_of_service (db : sql.DB) (P U : Z) :
  (forall p,
      NoDup (map Project.ID (sql.projects (sql.tables db))) ->
      In p (sql.projects (sql.tables db)) -> Project.ID p = P ->
      ProjectRepository.IsOwner P U db = (Ok (Project.OwnerID p =? U), db)
      /\ fst (ProjectService.IsOwner P U db) = Ok (Project.OwnerID p =? U))
  /\ ((forall p, In p (sql.projects (sql.tables db)) -> Project.ID p <> P) ->
      ProjectRepository.IsOwner P U db = (Ok false, db)
      /\ fst (ProjectService.IsOwner P U db) = Err ErrProjectNotFound)
  /\ sql.tables (snd (ProjectService.IsOwner P U db)) = sql.tables db.
Proof.
  split; [| split].
  - intros p Hnd Hin <-. split.
    + unfold ProjectRepository.IsOwner. cbv zeta. rewrite count_positive.
      do 2 f_equal.
      destruct (Project.OwnerID p =? U) eqn:E.
      * apply existsb_exists. exists p. split; [exact Hin |].
        now rewrite Z.eqb_refl, E.
      * apply not_true_is_false. intros Hex. apply existsb_exists in Hex.
        destruct Hex as [q [Hq Eq]]. apply andb_true_iff in Eq.
        destruct Eq as [Eid Eown]. apply Z.eqb_eq in Eid.
        assert (q = p) by (apply (same_key_same_row Project.ID _ q p Hnd Hq Hin Eid)).
        subst q. congruence.
    + now rewrite IsOwner_sql, (find_by_key Project.ID _ p Hnd Hin).
  - intros Hmiss. split.
    + unfold ProjectRepository.IsOwner. cbv zeta. rewrite count_positive.
      do 2 f_equal. apply not_true_is_false. intros Hex.
      apply existsb_exists in Hex. destruct Hex as [q [Hq Eq]].
      apply andb_true_iff in Eq. destruct Eq as [Eid _]. apply Z.eqb_eq in Eid.
      now apply (Hmiss q).
    + now rewrite IsOwner_sql, find_project_missing.
  - now rewrite IsOwner_sql.
Qed.

(** ** Listing all projects *)

(** X15. [List] of the project service normalizes a non-positive page to 1
    and a non-positive page size to 10 and, the product of the two fitting
    in an [int], returns that page of all projects, most recently created
    first: the same slice rule as the listing of a user, over the whole
    table. It changes nothing. *)
Theorem List_is_a_page_of_all_projects (db : sql.DB) (page pageSize : Z) :
  Spec.normalize_page page * Spec.normalize_pageSize pageSize <= GoInt.max_int ->
  ProjectService.List page pageSize db
  = (Ok (Spec.page_of page pageSize
           (ProjectRepository.order_by_created_at_desc
              (sql.projects (sql.tables db)))),
     db)
  /\ Permutation (sql.projects (sql.tables db))
                 (ProjectRepository.order_by_created_at_desc
                    (sql.projects (sql.tables db)))
  /\ StronglySorted Spec.more_recent
       (ProjectRepository.order_by_created_at_desc (sql.projects (sql.tables db))).
Proof.
  intros Hmax.
  split; [| split;
            [apply order_by_created_at_desc_perm
            | apply order_by_created_at_desc_sorted]].
  pose proof (normalize_page_positive page) as Hp.
  pose proof (normalize_pageSize_positive pageSize) as Hs.
  unfold ProjectService.List.
  rewrite normalize_page_code, normalize_pageSize_code.
  destruct (offsets_in_range _ _ Hp Hs Hmax) as [Emul [_ Hoff]].
  rewrite Emul.
  cbn [ProjectRepositoryInterfaceRest.List projectRepoRest].
  unfold ProjectRepository.List.
  replace (Spec.normalize_pageSize pageSize <? 0) with false
    by (symmetry; apply Z.ltb_ge; lia).
  replace ((Spec.normalize_page page - 1) * Spec.normalize_pageSize pageSize <? 0)
    with false by (symmetry; apply Z.ltb_ge; lia).
  cbn [orb]. do 2 f_equal.
  rewrite <- (page_of_slice (Spec.normalize_page page)
                            (Spec.normalize_pageSize pageSize)) by assumption.
  unfold Spec.page_of. now rewrite normalize_page_idem, normalize_pageSize_idem.
Qed.

(** * The handlers of [ProjectHandler] *)

Lemma Role_eqb_eq (a b : Role) : Role_eqb a b = true <-> a = b.
Proof. destruct a, b; cbn; split; intros H; try discriminate; reflexivity. Qed.

Lemma HasViewAccess_reads (projectID userID : Z) (db : sql.DB) :
  sql.tables (snd (ProjectAccessService.HasViewAccess projectID userID db))
  = sql.tables db.
Proof.
  unfold ProjectAccessService.HasViewAccess, bind, ret.
  cbn [ProjectRepositoryInterface.GetByID projectRepo
       ProjectAccessRepositoryInterface.HasViewAccess projectAccessRepo].
  unfold ProjectRepository.GetByID, ProjectAccessRepository.HasViewAccess.
  destruct (find _ _) as [p|]; [| reflexivity].
  now destruct (Project.OwnerID p =? userID).
Qed.

Lemma ProjectService_GetByID_sql (id : Z) (db : sql.DB) :
  ProjectService.GetByID id db
  = (match find (fun q => Project.ID q =? id) (sql.projects (sql.tables db)) with
     | Some p => Ok p
     | None => Err ErrProjectNotFound
     end, sql.sent (sql.SelectProjectByID id) db).
Proof.
  unfold ProjectService.GetByID.
  cbn [ProjectRepositoryInterface.GetByID projectRepo].
  unfold ProjectRepository.GetByID. cbv zeta. rewrite tables_sent.
  now destruct (find _ _).
Qed.

(** X16. [GetProject] on an existing project answers 200 with the project
    to an administrator, to the owner and to a user holding a grant for
    it, and 403 to everyone else; on a project that does not exist it
    answers 404, to an administrator as well. No table changes. *)
Theorem GetProject_decides
  (db : sql.DB) (c : gin.Context unit) (id : Z) (user : User.t) :
  gin.ParamID c = Some id -> gin.GetUser c = Some user ->
  sql.tables (snd (ProjectHandler.GetProject c db)) = sql.tables db
  /\ (forall p,
         find (fun q => Project.ID q =? id) (sql.projects (sql.tables db)) = Some p ->
         let may :=
           User.Role_ user = RoleAdmin
           \/ Project.OwnerID p = User.ID user
           \/ exists a, In a (sql.project_access (sql.tables db))
                        /\ ProjectAccess.ProjectID a = id
                        /\ ProjectAccess.UserID a = User.ID user in
         (may -> fst (ProjectHandler.GetProject c db)
                 = gin.JSON http.StatusOK (gin.ProjectJSON p))
         /\ (~ may -> gin.Status (fst (ProjectHandler.GetProject c db))
                      = http.StatusForbidden))
  /\ (find (fun q => Project.ID q =? id) (sql.projects (sql.tables db)) = None ->
      gin.Status (fst (ProjectHandler.GetProject c db)) = http.StatusNotFound).
Proof.
  intros Hp Hu. unfold ProjectHandler.GetProject. rewrite Hp, Hu.
  pose proof (HasViewAccess_sql id (User.ID user) db) as Hfst.
  pose proof (HasViewAccess_reads id (User.ID user) db) as Hsnd.
  destruct (ProjectAccessService.HasViewAccess id (User.ID user) db)
    as [res db1]. cbn [fst snd] in Hfst, Hsnd. subst res.
  rewrite ProjectService_GetByID_sql, Hsnd.
  destruct (find _ _) as [p|] eqn:Hfind.
  - split; [| split].
    + destruct (_ && _); cbn [snd]; [exact Hsnd | now rewrite tables_sent].
    + intros q Eq. inversion Eq; subst q. cbv zeta. split.
      * intros Hmay.
        replace (negb _ && negb _) with false; [reflexivity |].
        symmetry. apply andb_false_iff.
        destruct Hmay as [Hadmin | [Hown | Hgrant]].
        -- right. apply negb_false_iff. now apply Role_eqb_eq.
        -- left. apply negb_false_iff. apply orb_true_iff. left.
           now apply Z.eqb_eq.
        -- left. apply negb_false_iff. apply orb_true_iff. right.
           now apply has_view_rows.
      * intros Hnot.
        replace (negb _ && negb _) with true; [reflexivity |].
        symmetry. apply andb_true_iff. split; apply negb_true_iff.
        -- apply not_true_is_false. intros E. apply Hnot.
           apply orb_true_iff in E. destruct E as [E | E].
           ++ right. left. now apply Z.eqb_eq.
           ++ right. right. now apply has_view_rows.
        -- apply not_true_is_false. intros E. apply Hnot. left.
           now apply Role_eqb_eq.
    + discriminate.
  - cbn. split; [exact Hsnd |]. split; [discriminate | reflexivity].
Qed.

Lemma HasEditAccess_call (id userID : Z) (db : sql.DB) :
  exists db1,
    ProjectAccessService.HasEditAccess id userID db
    = (match find (fun q => Project.ID q =? id) (sql.projects (sql.tables db)) with
       | None => Err ErrProjectNotFound
       | Some p =>
           Ok ((Project.OwnerID p =? userID)
               || existsb (fun a =>
                             ProjectAccessRepository.for_project_and_user id userID a
                             && AccessLevel_eqb (ProjectAccess.Level a)
                                                AccessLevelEdit)
                          (sql.project_access (sql.tables db)))
       end, db1)
    /\ sql.tables db1 = sql.tables db /\ sql.now db1 = sql.now db
    /\ sql.server db1 = sql.server db.
Proof.
  pose proof (HasEditAccess_sql id userID db) as Hfst.
  pose proof (HasEditAccess_reads id userID db) as Hsnd.
  assert (Hnow : sql.now (snd (ProjectAccessService.HasEditAccess id userID db))
                 = sql.now db
                 /\ sql.server (snd (ProjectAccessService.HasEditAccess
                                       id userID db))
                    = sql.server db).
  { unfold ProjectAccessService.HasEditAccess, bind, ret.
    cbn [ProjectRepositoryInterface.GetByID projectRepo
         ProjectAccessRepositoryInterface.HasEditAccess projectAccessRepo].
    unfold ProjectRepository.GetByID, ProjectAccessRepository.HasEditAccess.
    destruct (find _ _) as [p|]; [| split; reflexivity].
    now destruct (Project.OwnerID p =? userID). }
  destruct Hnow as [Hnow Hserver].
  destruct (ProjectAccessService.HasEditAccess id userID db) as [res db1].
  cbn [fst snd] in *. subst res. now exists db1.
Qed.

Lemma same_tables_same_update (id : Z) (projectUpdate : ProjectUpdate.t)
  (db db1 : sql.DB) :
  sql.tables db1 = sql.tables db -> sql.now db1 = sql.now db ->
  sql.server db1 = sql.server db ->
  fst (ProjectService.Update id projectUpdate db1)
  = fst (ProjectService.Update id projectUpdate db)
  /\ sql.tables (snd (ProjectService.Update id projectUpdate db1))
     = sql.tables (snd (ProjectService.Update id projectUpdate db)).
Proof.
  intros Ht Hn Hs. unfold ProjectService.Update, bind.
  cbn [ProjectRepositoryInterface.GetByID ProjectRepositoryInterface.Update
       projectRepo].
  unfold ProjectRepository.Update, bind, ProjectRepository.GetByID.
  cbv beta zeta. rewrite !tables_sent, Ht.
  destruct (find _ _) as [p|]; [| split; [reflexivity | exact Ht]].
  cbv beta iota. cbn [Project.ID]. rewrite !tables_sent, Ht.
  destruct (find _ _) as [p'|];
    [| split; [reflexivity | cbn; exact Ht]].
  rewrite !stamp_sent. unfold sql.stamp. cbn. rewrite Hn, Ht, Hs.
  split; reflexivity.
Qed.

(** X17. [UpdateProject] on an existing project lets in an administrator,
    the owner and a user holding an edit grant, and answers them with what
    [Update] of the service yields, the tables being left as that call
    leaves them; everyone else, a user holding a view grant included, is
    answered 403 and no table changes. *)
Theorem UpdateProject_needs_edit_access
  (db : sql.DB) (c : gin.Context ProjectUpdate.t) (id : Z)
  (projectUpdate : ProjectUpdate.t) (user : User.t) (p : Project.t) :
  gin.ParamID c = Some id -> gin.ShouldBindJSON c = Some projectUpdate ->
  gin.GetUser c = Some user ->
  find (fun q => Project.ID q =? id) (sql.projects (sql.tables db)) = Some p ->
  let may :=
    User.Role_ user = RoleAdmin
    \/ Project.OwnerID p = User.ID user
    \/ exists a, In a (sql.project_access (sql.tables db))
                 /\ ProjectAccess.ProjectID a = id
                 /\ ProjectAccess.UserID a = User.ID user
                 /\ ProjectAccess.Level a = AccessLevelEdit in
  (may ->
   exists updated,
     fst (ProjectService.Update id projectUpdate db) = Ok updated
     /\ fst (ProjectHandler.UpdateProject c db)
        = gin.JSON http.StatusOK (gin.ProjectJSON updated)
     /\ sql.tables (snd (ProjectHandler.UpdateProject c db))
        = sql.tables (snd (ProjectService.Update id projectUpdate db)))
  /\ (~ may ->
      gin.Status (fst (ProjectHandler.UpdateProject c db)) = http.StatusForbidden
      /\ sql.tables (snd (ProjectHandler.UpdateProject c db)) = sql.tables db).
Proof.
  intros Hp Hb Hu Hfind may. subst may.
  unfold ProjectHandler.UpdateProject. rewrite Hp, Hb, Hu.
  destruct (HasEditAccess_call id (User.ID user) db) as [db1 [-> [Ht [Hn Hs]]]].
  rewrite Hfind. split.
  - intros Hmay.
    replace (negb _ && negb _) with false.
    2:{ symmetry. apply andb_false_iff.
        destruct Hmay as [Hadmin | [Hown | Hgrant]].
        - right. apply negb_false_iff. now apply Role_eqb_eq.
        - left. apply negb_false_iff. apply orb_true_iff. left.
          now apply Z.eqb_eq.
        - left. apply negb_false_iff. apply orb_true_iff. right.
          now apply has_edit_rows. }
    destruct (same_tables_same_update id projectUpdate db db1 Ht Hn Hs)
      as [Ef Es].
    destruct (ProjectService_Update_sql db id projectUpdate p Hfind) as [Eok _].
    rewrite Eok in Ef. eexists. split; [exact Eok |].
    destruct (ProjectService.Update id projectUpdate db1) as [res db2].
    cbn [fst snd] in Ef, Es. subst res. split; [reflexivity | exact Es].
  - intros Hnot.
    replace (negb _ && negb _) with true; [split; [reflexivity | exact Ht] |].
    symmetry. apply andb_true_iff. split; apply negb_true_iff.
    + apply not_true_is_false. intros E. apply Hnot.
      apply orb_true_iff in E. destruct E as [E | E].
      * right. left. now apply Z.eqb_eq.
      * right. right. now apply has_edit_rows.
    + apply not_true_is_false. intros E. apply Hnot. left.
      now apply Role_eqb_eq.
Qed.

(** X18. [DeleteProject] on an existing project lets in the owner and an
    administrator only: they are answered 200 and the project goes with
    its grants, as [Delete] of the service leaves the tables; anyone else,
    whatever grant they hold, is answered 403 and no table changes. *)
Theorem DeleteProject_is_for_owner_and_admin
  (db : sql.DB) (c : gin.Context unit) (id : Z) (user : User.t) (p : Project.t) :
  gin.ParamID c = Some id -> gin.GetUser c = Some user ->
  find (fun q => Project.ID q =? id) (sql.projects (sql.tables db)) = Some p ->
  let may := User.Role_ user = RoleAdmin \/ Project.OwnerID p = User.ID user in
  (may ->
   fst (ProjectHandler.DeleteProject c db)
   = gin.JSON http.StatusOK (gin.H_message "Project deleted successfully")
   /\ sql.tables (snd (ProjectHandler.DeleteProject c db))
      = sql.tables (snd (ProjectService.Delete id db)))
  /\ (~ may ->
      gin.Status (fst (ProjectHandler.DeleteProject c db)) = http.StatusForbidden
      /\ sql.tables (snd (ProjectHandler.DeleteProject c db)) = sql.tables db).
Proof.
  intros Hp Hu Hfind may. subst may.
  unfold ProjectHandler.DeleteProject. rewrite Hp, Hu, IsOwner_sql, Hfind.
  cbv beta iota. split.
  - intros Hmay.
    replace (negb _ && negb _) with false.
    2:{ symmetry. apply andb_false_iff. destruct Hmay as [Hadmin | Hown].
        - right. apply negb_false_iff. now apply Role_eqb_eq.
        - left. apply negb_false_iff. now apply Z.eqb_eq. }
    destruct (ProjectService_Delete_sql
                (sql.sent (sql.SelectProjectByID id) db) id p) as [Eok Et];
      [now rewrite tables_sent |].
    destruct (ProjectService_Delete_sql db id p Hfind) as [_ Et'].
    rewrite tables_sent in Et. rewrite Et'.
    destruct (ProjectService.Delete id _) as [res db2].
    cbn [fst snd] in Eok, Et. subst res. split; [reflexivity | exact Et].
  - intros Hnot.
    replace (negb _ && negb _) with true; [split; reflexivity |].
    symmetry. apply andb_true_iff. split; apply negb_true_iff.
    + apply Z.eqb_neq. intros E. apply Hnot. now right.
    + apply not_true_is_false. intros E. apply Hnot. left.
      now apply Role_eqb_eq.
Qed.

Lemma GetAccessibleProjects_reads (U page pageSize : Z) (db : sql.DB) :
  sql.tables (snd (ProjectAccessService.GetAccessibleProjects U page pageSize db))
  = sql.tables db.
Proof.
  unfold ProjectAccessService.GetAccessibleProjects.
  cbn [ProjectRepositoryInterface.ListByOwner projectRepo
       ProjectAccessRepositoryInterface.GetProjectIDsByUserAccess projectAccessRepo].
  unfold ProjectRepository.ListByOwner,
    ProjectAccessRepository.GetProjectIDsByUserAccess.
  cbv beta zeta iota.
  destruct (_ && _); [reflexivity |].
  destruct (len _ =? 0); [reflexivity |].
  rewrite resolveAccessible_sql. reflexivity.
Qed.

(** X19. [ListProjects] answers by role. Without a user in the context it
    answers 401. When the product of the normalized page and page size fits
    in an [int], an administrator gets the page of all projects, most
    recently created first, and any other user the page of the projects
    that user owns or holds a grant for. A page of 0 or less is listed as
    page 1 and a page size of 0 or less as 10, whatever the role. Listing
    changes no table. *)
Theorem ListProjects_answers_by_role (db : sql.DB) (c : query.Context) :
  (query.GetUser c = None ->
   ProjectHandler.ListProjects c db
   = (Returns (query.Refused
                 (gin.JSON http.StatusUnauthorized
                           (gin.H_error "User not found in context"))), db))
  /\ sql.tables (snd (ProjectHandler.ListProjects c db)) = sql.tables db
  /\ (forall user,
         query.GetUser c = Some user ->
         Spec.normalize_page (query.Page c)
         * Spec.normalize_pageSize (query.PageSize c) <= GoInt.max_int ->
         (User.Role_ user = RoleAdmin ->
          fst (ProjectHandler.ListProjects c db)
          = Returns (query.ProjectsJSON http.StatusOK
                       (Spec.page_of (query.Page c) (query.PageSize c)
                          (ProjectRepository.order_by_created_at_desc
                             (sql.projects (sql.tables db))))))
         /\ (User.Role_ user <> RoleAdmin ->
             fst (ProjectHandler.ListProjects c db)
             = Returns (query.ProjectsJSON http.StatusOK
                          (Spec.accessibleProjects (sql.tables db) (User.ID user)
                             (query.Page c) (query.PageSize c)))))
  /\ ProjectHandler.ListProjects c db
     = ProjectHandler.ListProjects
         (query.mkContext (Spec.normalize_page (query.Page c))
                          (Spec.normalize_pageSize (query.PageSize c))
                          (query.GetUser c)) db.
Proof.
  split; [| split; [| split]].
  - intros Hnone. unfold ProjectHandler.ListProjects. now rewrite Hnone.
  - unfold ProjectHandler.ListProjects.
    destruct (query.GetUser c) as [user|]; [| reflexivity].
    destruct (Role_eqb (User.Role_ user) RoleAdmin).
    + unfold ProjectService.List.
      cbn [ProjectRepositoryInterfaceRest.List projectRepoRest].
      unfold ProjectRepository.List. cbv zeta.
      destruct (_ || _); reflexivity.
    + pose proof (GetAccessibleProjects_reads
                    (User.ID user) (query.Page c) (query.PageSize c) db) as Hr.
      destruct (ProjectAccessService.GetAccessibleProjects _ _ _ _)
        as [[[l | e] |] db1]; exact Hr.
  - intros user Hu Hmax. unfold ProjectHandler.ListProjects. rewrite Hu. split.
    + intros Hadmin.
      replace (Role_eqb (User.Role_ user) RoleAdmin) with true
        by (symmetry; now apply Role_eqb_eq).
      assert (E : ProjectService.List (query.Page c) (query.PageSize c) db
                  = (Ok (Spec.page_of (query.Page c) (query.PageSize c)
                           (ProjectRepository.order_by_created_at_desc
                              (sql.projects (sql.tables db)))), db)).
      { pose proof (normalize_page_positive (query.Page c)) as Hp.
        pose proof (normalize_pageSize_positive (query.PageSize c)) as Hs.
        unfold ProjectService.List.
        rewrite normalize_page_code, normalize_pageSize_code.
        destruct (offsets_in_range _ _ Hp Hs Hmax) as [Emul [_ Hoff]].
        rewrite Emul.
        cbn [ProjectRepositoryInterfaceRest.List projectRepoRest].
        unfold ProjectRepository.List.
        replace (Spec.normalize_pageSize (query.PageSize c) <? 0) with false
          by (symmetry; apply Z.ltb_ge; lia).
        replace ((Spec.normalize_page (query.Page c) - 1)
                 * Spec.normalize_pageSize (query.PageSize c) <? 0)
          with false by (symmetry; apply Z.ltb_ge; lia).
        cbn [orb]. do 2 f_equal.
        rewrite <- (page_of_slice (Spec.normalize_page (query.Page c))
                                  (Spec.normalize_pageSize (query.PageSize c)))
          by assumption.
        unfold Spec.page_of.
        now rewrite normalize_page_idem, normalize_pageSize_idem. }
      now rewrite E.
    + intros Hnot.
      replace (Role_eqb (User.Role_ user) RoleAdmin) with false.
      2:{ symmetry. apply not_true_is_false. intros E.
          now apply Role_eqb_eq in E. }
      pose proof (GetAccessibleProjects_sql_in_range
                    db (User.ID user) (query.Page c) (query.PageSize c) Hmax) as E.
      destruct (ProjectAccessService.GetAccessibleProjects _ _ _ _) as [res db1].
      cbn [fst] in E. now subst res.
  - unfold ProjectHandler.ListProjects.
    cbn [query.Page query.PageSize query.GetUser].
    destruct (query.GetUser c) as [user|]; [| reflexivity].
    replace (ProjectService.List (Spec.normalize_page (query.Page c))
               (Spec.normalize_pageSize (query.PageSize c)) db)
      with (ProjectService.List (query.Page c) (query.PageSize c) db).
    2:{ unfold ProjectService.List.
        now rewrite !normalize_page_code, !normalize_pageSize_code,
          normalize_page_idem, normalize_pageSize_idem. }
    replace (ProjectAccessService.GetAccessibleProjects (User.ID user)
               (Spec.normalize_page (query.Page c))
               (Spec.normalize_pageSize (query.PageSize c)) db)
      with (ProjectAccessService.GetAccessibleProjects (User.ID user)
              (query.Page c) (query.PageSize c) db).
    2:{ unfold ProjectAccessService.GetAccessibleProjects.
        now rewrite !normalize_page_code, !normalize_pageSize_code,
          normalize_page_idem, normalize_pageSize_idem. }
    reflexivity.
Qed.

(** ** Creating a project through the handler *)

Lemma ProjectService_Create_sql (db : sql.DB) (projectCreate : ProjectCreate.t)
  (ownerID : Z) :
  exists sent_,
    sql.tables sent_ = sql.tables db /\ sql.now sent_ = sql.now db
    /\ ProjectService.Create projectCreate ownerID db
       = if existsb (fun p => sql.collate db (Project.Name p)
                                          (ProjectCreate.Name projectCreate)
                              && (Project.OwnerID p =? ownerID))
                    (sql.projects (sql.tables db))
         then (Err ErrProjectExists,
               sql.sent (sql.CountProjectsByNameAndOwner
                           (ProjectCreate.Name projectCreate) ownerID) db)
         else if negb (existsb (fun u => User.ID u =? ownerID)
                               (sql.users (sql.tables db)))
         then (Err ErrSQL, sent_)
         else
           let row :=
             Project.mk (sql.projects_auto_increment (sql.tables db))
                        (ProjectCreate.Name projectCreate)
                        (ProjectCreate.Description projectCreate)
                        ownerID (sql.stamp db) (sql.stamp db) in
           (Ok (Project.mk (sql.projects_auto_increment (sql.tables db))
                           (ProjectCreate.Name projectCreate)
                           (ProjectCreate.Description projectCreate)
                           ownerID (sql.now db) (sql.now db)),
            sql.with_tables
              (sql.mkTables (sql.projects (sql.tables db) ++ [row])
                            (sql.project_access (sql.tables db))
                            (sql.users (sql.tables db))
                            (sql.projects_auto_increment (sql.tables db) + 1)
                            (sql.project_access_auto_increment (sql.tables db))
                            (sql.users_auto_increment (sql.tables db)))
              sent_).
Proof.
  eexists. split; [| split].
  3:{ unfold ProjectService.Create.
      cbn [ProjectRepositoryInterface.Create projectRepo].
      unfold ProjectRepository.Create. cbv zeta.
      cbn [Project.Name Project.OwnerID Project.Description].
      rewrite !tables_sent, !collate_sent, !stamp_sent, count_positive.
      reflexivity. }
  - reflexivity.
  - reflexivity.
Qed.

(** X20. [CreateProject] makes the caller the owner. A project already
    owned by the caller whose name the collation of the server equates
    with the new name, as it does a name with itself, gives 409 and
    changes nothing. Otherwise a caller who is a user is answered 201 with
    the new project, owned by the caller and carrying the next id and the
    instant of the call; the table gets that project with the time stamps
    the column keeps; and, ids being below the counter and access rows
    referring to existing projects, the caller may then edit the new
    project while nobody else may so much as view it. *)
Theorem CreateProject_makes_the_caller_owner
  (db : sql.DB) (c : gin.Context ProjectCreate.t)
  (projectCreate : ProjectCreate.t) (user : User.t) :
  gin.ShouldBindJSON c = Some projectCreate -> gin.GetUser c = Some user ->
  let t := sql.tables db in
  let after := snd (ProjectHandler.CreateProject c db) in
  let taken :=
    exists p, In p (sql.projects t)
              /\ sql.collate db (Project.Name p) (ProjectCreate.Name projectCreate)
                 = true
              /\ Project.OwnerID p = User.ID user in
  (taken ->
   gin.Status (fst (ProjectHandler.CreateProject c db)) = http.StatusConflict
   /\ sql.tables after = t)
  /\ ((exists p, In p (sql.projects t)
                 /\ Project.Name p = ProjectCreate.Name projectCreate
                 /\ Project.OwnerID p = User.ID user) -> taken)
  /\ (~ taken -> (exists u, In u (sql.users t) /\ User.ID u = User.ID user) ->
      let id := sql.projects_auto_increment t in
      let row :=
        Project.mk id (ProjectCreate.Name projectCreate)
                   (ProjectCreate.Description projectCreate)
                   (User.ID user) (sql.stamp db) (sql.stamp db) in
      fst (ProjectHandler.CreateProject c db)
      = gin.JSON http.StatusCreated
                 (gin.ProjectJSON
                    (Project.mk id (ProjectCreate.Name projectCreate)
                                (ProjectCreate.Description projectCreate)
                                (User.ID user) (sql.now db) (sql.now db)))
      /\ sql.projects (sql.tables after) = sql.projects t ++ [row]
      /\ sql.project_access (sql.tables after) = sql.project_access t
      /\ (Forall (fun p => Project.ID p < sql.projects_auto_increment t)
                 (sql.projects t) ->
          Schema.access_references_project t ->
          fst (ProjectAccessService.HasEditAccess id (User.ID user) after)
          = Ok true
          /\ forall U, U <> User.ID user ->
               fst (ProjectAccessService.HasViewAccess id U after) = Ok false)).
Proof.
  intros Hb Hu t after taken. subst taken after t.
  unfold ProjectHandler.CreateProject. rewrite Hb, Hu.
  destruct (ProjectService_Create_sql db projectCreate (User.ID user))
    as [sent_ [Ht [Hn ->]]].
  split; [| split].
  - intros Htaken. apply same_name_and_owner in Htaken. rewrite Htaken.
    cbn. split; reflexivity.
  - intros [p [Hin [Ename Eown]]]. exists p. split; [exact Hin |].
    split; [| exact Eown]. rewrite Ename. apply collate_refl.
  - intros Hfree [u [Hin Eu]].
    replace (existsb _ (sql.projects _)) with false.
    2:{ symmetry. apply not_true_is_false. intros E.
        now apply same_name_and_owner in E. }
    replace (existsb _ (sql.users _)) with true.
    2:{ symmetry. apply existsb_exists. exists u. split; [exact Hin |].
        now apply Z.eqb_eq. }
    cbv zeta.
    cbn [negb fst snd sql.tables sql.with_tables sql.projects sql.project_access].
    split; [reflexivity |]. split; [reflexivity |]. split; [reflexivity |].
    intros Hbelow Hfk.
    rewrite HasEditAccess_sql.
    cbn [sql.tables sql.with_tables sql.projects sql.project_access Project.ID].
    rewrite find_below_counter; [| exact Hbelow | reflexivity].
    cbn [Project.OwnerID]. rewrite Z.eqb_refl. split; [reflexivity |].
    intros U HU. rewrite HasViewAccess_sql.
    cbn [sql.tables sql.with_tables sql.projects sql.project_access].
    rewrite find_below_counter; [| exact Hbelow | reflexivity].
    cbn [Project.OwnerID].
    replace (User.ID user =? U) with false
      by (symmetry; apply Z.eqb_neq; congruence).
    cbn [orb]. f_equal. apply not_true_is_false. intros E.
    apply has_view_rows in E. destruct E as [a [Ha [E1 _]]].
    unfold Schema.access_references_project in Hfk.
    rewrite Forall_forall in Hfk. specialize (Hfk a Ha).
    apply in_map_iff in Hfk. destruct Hfk as [q [Eq Hq]].
    rewrite Forall_forall in Hbelow. specialize (Hbelow q Hq). lia.
Qed.

(** ** Granting through the handler *)

Lemma GetProject_granted (db : sql.DB) (c : gin.Context unit) (id : Z)
  (user : User.t) (p : Project.t) :
  gin.ParamID c = Some id -> gin.GetUser c = Some user ->
  find (fun q => Project.ID q =? id) (sql.projects (sql.tables db)) = Some p ->
  existsb (ProjectAccessRepository.for_project_and_user id (User.ID user))
          (sql.project_access (sql.tables db)) = true ->
  fst (ProjectHandler.GetProject c db)
  = gin.JSON http.StatusOK (gin.ProjectJSON p).
Proof.
  intros Hp Hu Hfind Hrow. unfold ProjectHandler.GetProject. rewrite Hp, Hu.
  pose proof (HasViewAccess_sql id (User.ID user) db) as Hfst.
  pose proof (HasViewAccess_reads id (User.ID user) db) as Hsnd.
  destruct (ProjectAccessService.HasViewAccess id (User.ID user) db)
    as [res db1]. cbn [fst snd] in Hfst, Hsnd. subst res.
  rewrite ProjectService_GetByID_sql, Hsnd, Hfind, Hrow, orb_true_r.
  reflexivity.
Qed.

(** X21. [GrantAccess] called by the owner of an existing project for
    somebody else. A user id that no user carries is answered 500, not
    404, and changes nothing. An existing user without a grant for the
    project is answered 201 with the new grant, which is appended to the
    access table with the time stamps the column keeps; the projects stay
    as they are, and from then on [GetProject] answers that user 200 with
    the project. *)
Theorem GrantAccess_by_the_owner
  (db : sql.DB) (c : gin.Context ProjectAccessCreate.t) (projectID : Z)
  (accessCreate : ProjectAccessCreate.t) (owner : User.t) (p : Project.t) :
  gin.ParamID c = Some projectID ->
  gin.ShouldBindJSON c = Some accessCreate ->
  gin.GetUser c = Some owner ->
  find (fun q => Project.ID q =? projectID) (sql.projects (sql.tables db))
  = Some p ->
  Project.OwnerID p = User.ID owner ->
  ProjectAccessCreate.UserID accessCreate <> User.ID owner ->
  let t := sql.tables db in
  let U := ProjectAccessCreate.UserID accessCreate in
  let after := snd (ProjectAccessHandler.GrantAccess c db) in
  ((forall u, In u (sql.users t) -> User.ID u <> U) ->
   fst (ProjectAccessHandler.GrantAccess c db)
   = gin.JSON http.StatusInternalServerError (gin.H_error "Failed to grant access")
   /\ sql.tables after = t)
  /\ ((exists u, In u (sql.users t) /\ User.ID u = U) ->
      (forall a, In a (sql.project_access t) ->
                 ProjectAccess.ProjectID a = projectID ->
                 ProjectAccess.UserID a <> U) ->
      let row :=
        ProjectAccess.mk (sql.project_access_auto_increment t) projectID U
                         (ProjectAccessCreate.Level accessCreate)
                         (sql.stamp db) (sql.stamp db) in
      fst (ProjectAccessHandler.GrantAccess c db)
      = gin.JSON http.StatusCreated
                 (gin.AccessJSON
                    (ProjectAccess.mk (sql.project_access_auto_increment t)
                                      projectID U
                                      (ProjectAccessCreate.Level accessCreate)
                                      (sql.now db) (sql.now db)))
      /\ sql.project_access (sql.tables after) = sql.project_access t ++ [row]
      /\ sql.projects (sql.tables after) = sql.projects t
      /\ forall (c' : gin.Context unit) (user : User.t),
           gin.ParamID c' = Some projectID -> gin.GetUser c' = Some user ->
           User.ID user = U ->
           fst (ProjectHandler.GetProject c' after)
           = gin.JSON http.StatusOK (gin.ProjectJSON p)).
Proof.
  intros Hp Hb Hu Hfind Hown Hself t U after. subst after U t.
  unfold ProjectAccessHandler.GrantAccess.
  rewrite Hp, Hb, Hu, IsOwner_sql, Hfind. cbv beta iota.
  replace (Project.OwnerID p =? User.ID owner) with true
    by (symmetry; now apply Z.eqb_eq).
  replace (ProjectAccessCreate.UserID accessCreate =? User.ID owner) with false
    by (symmetry; now apply Z.eqb_neq).
  cbn [negb].
  unfold ProjectAccessService.GrantAccess, bind.
  cbn [ProjectRepositoryInterface.GetByID projectRepo
       UserRepositoryInterface.GetByID userRepo
       ProjectAccessRepositoryInterface.Create projectAccessRepo].
  unfold ProjectRepository.GetByID, UserRepository.GetByID.
  rewrite !tables_sent, Hfind. cbv beta iota zeta. rewrite !tables_sent.
  split.
  - intros Hmiss. rewrite (find_user_missing _ _ Hmiss). cbn. split; reflexivity.
  - intros Hex Hnew. destruct (find_user_exists _ _ Hex) as [u Efu]. rewrite Efu.
    cbv beta iota zeta.
    unfold ProjectAccessRepository.Create. cbv zeta.
    cbn [ProjectAccess.ProjectID ProjectAccess.UserID ProjectAccess.Level].
    rewrite !tables_sent, count_positive.
    rewrite (no_row_for_pair _ projectID _ Hnew).
    rewrite (existsb_of_find _ _ _ Hfind), (existsb_of_find _ _ _ Efu).
    cbn [negb orb fst snd sql.tables sql.with_tables sql.sent sql.now
         sql.projects sql.project_access error_eqb].
    split; [reflexivity |]. split; [reflexivity |]. split; [reflexivity |].
    intros c' user Hp' Hu' Eid.
    apply (GetProject_granted _ c' projectID user p Hp' Hu').
    + exact Hfind.
    + cbn [sql.tables sql.with_tables sql.sent sql.project_access].
      rewrite existsb_app.
      cbn [existsb]. unfold ProjectAccessRepository.for_project_and_user at 2.
      cbn [ProjectAccess.ProjectID ProjectAccess.UserID].
      rewrite Eid, !Z.eqb_refl. cbn. now rewrite orb_true_r.
Qed.

(** * What every request keeps *)

(** A request changes the tables through one of seven writes of the
    repositories, or not at all: a property of the tables that the seven
    keep is kept by every request. *)
Section WhatWritesKeep.

Variable P : sql.Tables -> Prop.
Hypothesis grant_inserted :
  forall access, Schema.keeps P (ProjectAccessRepository.Create access).
Hypothesis grant_updated :
  forall access, Schema.keeps P (ProjectAccessRepository.Update access).
Hypothesis grant_deleted :
  forall id, Schema.keeps P (ProjectAccessRepository.Delete id).
Hypothesis project_inserted :
  forall project, Schema.keeps P (ProjectRepository.Create project).
Hypothesis project_updated :
  forall project, Schema.keeps P (ProjectRepository.Update project).
Hypothesis project_deleted :
  forall id, Schema.keeps P (ProjectRepository.Delete id).
Hypothesis user_inserted :
  forall user, Schema.keeps P (UserRepository.Create user).

Lemma UserRepository_GetByID_reads (id : Z) (db : sql.DB) :
  sql.tables (snd (UserRepository.GetByID id db)) = sql.tables db.
Proof. unfold UserRepository.GetByID. now destruct (find _ _). Qed.

Lemma serve_keeps_what_writes_keep (req : System.Request) (db : sql.DB) :
  P (sql.tables db) -> P (sql.tables (System.serve db req)).
Proof.
  intros H. destruct req; cbn [System.serve].
  - unfold ProjectAccessHandler.GrantAccess.
    destruct (gin.ParamID c) as [projectID|]; [| exact H].
    destruct (gin.ShouldBindJSON c) as [accessCreate|]; [| exact H].
    destruct (gin.GetUser c) as [userModel|]; [| exact H].
    rewrite IsOwner_sql.
    destruct (find _ _) as [p|]; [| exact H]. cbv beta iota.
    destruct (negb _); [exact H |].
    destruct (_ =? _); [exact H |].
    assert (Hk : Schema.keeps P
                   (ProjectAccessService.GrantAccess projectID accessCreate)).
    { unfold ProjectAccessService.GrantAccess.
      cbn [ProjectRepositoryInterface.GetByID projectRepo
           UserRepositoryInterface.GetByID userRepo
           ProjectAccessRepositoryInterface.Create projectAccessRepo].
      apply keeps_bind;
        [apply keeps_reading, ProjectRepository_GetByID_reads | intros _].
      apply keeps_bind;
        [apply keeps_reading, UserRepository_GetByID_reads | intros _].
      apply grant_inserted. }
    specialize (Hk (sql.sent (sql.SelectProjectByID projectID) db) H).
    answered Hk.
  - unfold ProjectAccessHandler.UpdateAccess.
    destruct (gin.ParamID c) as [projectID|]; [| exact H].
    destruct (gin.ParamAccessID c) as [accessID|]; [| exact H].
    destruct (gin.ShouldBindJSON c) as [accessUpdate|]; [| exact H].
    destruct (gin.GetUser c) as [userModel|]; [| exact H].
    rewrite IsOwner_sql.
    destruct (find _ _) as [p|]; [| exact H]. cbv beta iota.
    destruct (negb _); [exact H |].
    assert (Hk : Schema.keeps P
                   (ProjectAccessService.UpdateAccess accessID accessUpdate)).
    { unfold ProjectAccessService.UpdateAccess.
      cbn [ProjectAccessRepositoryInterface.GetByID
           ProjectAccessRepositoryInterface.Update projectAccessRepo].
      apply keeps_bind;
        [apply keeps_reading, ProjectAccessRepository_GetByID_reads | intros a].
      apply grant_updated. }
    specialize (Hk (sql.sent (sql.SelectProjectByID projectID) db) H).
    answered Hk.
  - unfold ProjectAccessHandler.RevokeAccess.
    destruct (gin.ParamID c) as [projectID|]; [| exact H].
    destruct (gin.ParamAccessID c) as [accessID|]; [| exact H].
    destruct (gin.GetUser c) as [userModel|]; [| exact H].
    rewrite IsOwner_sql.
    destruct (find _ _) as [p|]; [| exact H]. cbv beta iota.
    destruct (negb _); [exact H |].
    unfold ProjectAccessService.RevokeAccess.
    cbn [ProjectAccessRepositoryInterface.Delete projectAccessRepo].
    pose proof (grant_deleted accessID
                  (sql.sent (sql.SelectProjectByID projectID) db) H) as Hk.
    answered Hk.
  - unfold ProjectHandler.CreateProject.
    destruct (gin.ShouldBindJSON c) as [projectCreate|]; [| exact H].
    destruct (gin.GetUser c) as [userModel|]; [| exact H].
    unfold ProjectService.Create.
    cbn [ProjectRepositoryInterface.Create projectRepo].
    match goal with
    | |- context [ProjectRepository.Create ?project db] =>
        pose proof (project_inserted project db H) as Hk
    end.
    answered Hk.
  - unfold ProjectHandler.UpdateProject.
    destruct (gin.ParamID c) as [id|]; [| exact H].
    destruct (gin.ShouldBindJSON c) as [projectUpdate|]; [| exact H].
    destruct (gin.GetUser c) as [userModel|]; [| exact H].
    pose proof (HasEditAccess_reads id (User.ID userModel) db) as Hread.
    destruct (ProjectAccessService.HasEditAccess id (User.ID userModel) db)
      as [[hasEditAccess | e] db1]; cbn [snd] in Hread.
    2:{ destruct (error_eqb e ErrProjectNotFound); cbn [snd]; now rewrite Hread. }
    destruct (_ && _); [cbn [snd]; now rewrite Hread |].
    rewrite <- Hread in H.
    assert (Hk : Schema.keeps P (ProjectService.Update id projectUpdate)).
    { unfold ProjectService.Update.
      cbn [ProjectRepositoryInterface.GetByID
           ProjectRepositoryInterface.Update projectRepo].
      apply keeps_bind;
        [apply keeps_reading, ProjectRepository_GetByID_reads | intros project].
      apply project_updated. }
    specialize (Hk db1 H).
    answered Hk.
  - unfold ProjectHandler.DeleteProject.
    destruct (gin.ParamID c) as [id|]; [| exact H].
    destruct (gin.GetUser c) as [userModel|]; [| exact H].
    rewrite IsOwner_sql.
    destruct (find _ _) as [p|]; [| exact H]. cbv beta iota.
    destruct (_ && _); [exact H |].
    unfold ProjectService.Delete.
    cbn [ProjectRepositoryInterface.Delete projectRepo].
    pose proof (project_deleted id
                  (sql.sent (sql.SelectProjectByID id) db) H) as Hk.
    answered Hk.
  - now apply user_inserted.
  - exact H.
Qed.

Lemma run_keeps_what_writes_keep (reqs : list System.Request) (db : sql.DB) :
  P (sql.tables db) -> P (sql.tables (System.run reqs db)).
Proof.
  revert db. induction reqs as [|req reqs IH]; intros db H.
  - exact H.
  - cbn [System.run fold_left]. apply IH.
    now apply serve_keeps_what_writes_keep.
Qed.

End WhatWritesKeep.

(** ** Keys of the schema *)

Lemma Forall_below_next {A : Type} (key : A -> Z) (n : Z) (l : list A) :
  Forall (fun x => key x < n) l -> Forall (fun x => key x < n + 1) l.
Proof. apply Forall_impl. intros; lia. Qed.

Lemma fresh_key {A : Type} (key : A -> Z) (n : Z) (l : list A) :
  Forall (fun x => key x < n) l -> ~ In n (map key l).
Proof.
  intros Hall Hin. apply in_map_iff in Hin. destruct Hin as [x [E Hx]].
  rewrite Forall_forall in Hall. specialize (Hall x Hx). lia.
Qed.

Lemma primary_key_snoc {A : Type} (key : A -> Z) (n : Z) (l : list A) (row : A) :
  key row = n ->
  NoDup (map key l) /\ Forall (fun x => key x < n) l ->
  NoDup (map key (l ++ [row])) /\ Forall (fun x => key x < n + 1) (l ++ [row]).
Proof.
  intros E [Hnd Hall]. split.
  - rewrite map_app. cbn [map]. apply NoDup_snoc; [exact Hnd |].
    rewrite E. now apply fresh_key.
  - apply Forall_app. split; [now apply Forall_below_next |].
    constructor; [lia | constructor].
Qed.

Lemma primary_key_filter {A : Type} (key : A -> Z) (n : Z) (f : A -> bool)
  (l : list A) :
  NoDup (map key l) /\ Forall (fun x => key x < n) l ->
  NoDup (map key (filter f l)) /\ Forall (fun x => key x < n) (filter f l).
Proof.
  intros [Hnd Hall]. split; [now apply NoDup_map_filter |].
  rewrite Forall_forall in *. intros x Hx. apply filter_In in Hx. now apply Hall.
Qed.

Lemma primary_key_map {A : Type} (key : A -> Z) (n : Z) (set : A -> A)
  (l : list A) :
  (forall x, key (set x) = key x) ->
  NoDup (map key l) /\ Forall (fun x => key x < n) l ->
  NoDup (map key (map set l)) /\ Forall (fun x => key x < n) (map set l).
Proof.
  intros Hkey [Hnd Hall]. split.
  - rewrite map_map. now rewrite (map_ext _ key Hkey).
  - rewrite Forall_forall in *. intros y Hy. apply in_map_iff in Hy.
    destruct Hy as [x [<- Hx]]. rewrite Hkey. now apply Hall.
Qed.

Lemma set_level_ID (id : Z) (level : AccessLevel) (now : Z) (a : ProjectAccess.t) :
  ProjectAccess.ID (ProjectAccessRepository.set_level id level now a)
  = ProjectAccess.ID a.
Proof.
  unfold ProjectAccessRepository.set_level.
  now destruct (ProjectAccess.ID a =? id).
Qed.

Lemma Keys_grant_inserted (access : ProjectAccess.t) :
  Schema.keeps Keys.kept (ProjectAccessRepository.Create access).
Proof.
  intros db H. unfold ProjectAccessRepository.Create. cbv zeta.
  rewrite !tables_sent.
  destruct (_ >? 0); [exact H |].
  destruct (_ || _); [exact H |].
  cbn [snd sql.tables sql.with_tables sql.sent].
  destruct H as [Ha [Hu [He Ho]]].
  split; [| split; [exact Hu | split; [exact He | exact Ho]]].
  unfold Keys.access_primary_key in *.
  cbn [sql.project_access sql.project_access_auto_increment].
  now apply primary_key_snoc.
Qed.

Lemma Keys_grant_updated (access : ProjectAccess.t) :
  Schema.keeps Keys.kept (ProjectAccessRepository.Update access).
Proof.
  unfold ProjectAccessRepository.Update. apply keeps_bind.
  - apply keeps_reading, ProjectAccessRepository_GetByID_reads.
  - intros _ db H. cbn [snd sql.tables sql.with_tables sql.sent].
    destruct H as [Ha [Hu [He Ho]]].
    split; [| split; [exact Hu | split; [exact He | exact Ho]]].
    unfold Keys.access_primary_key in *.
    cbn [sql.project_access sql.project_access_auto_increment].
    apply primary_key_map; [| exact Ha]. intros a. apply set_level_ID.
Qed.

Lemma Keys_grant_deleted (id : Z) :
  Schema.keeps Keys.kept (ProjectAccessRepository.Delete id).
Proof.
  unfold ProjectAccessRepository.Delete. apply keeps_bind.
  - apply keeps_reading, ProjectAccessRepository_GetByID_reads.
  - intros _ db H. cbn [snd sql.tables sql.with_tables sql.sent].
    destruct H as [Ha [Hu [He Ho]]].
    split; [| split; [exact Hu | split; [exact He | exact Ho]]].
    unfold Keys.access_primary_key in *.
    cbn [sql.project_access sql.project_access_auto_increment].
    now apply primary_key_filter.
Qed.

Lemma Keys_project_inserted (project : Project.t) :
  Schema.keeps Keys.kept (ProjectRepository.Create project).
Proof.
  intros db H. unfold ProjectRepository.Create. cbv zeta.
  rewrite !tables_sent.
  destruct (_ >? 0); [exact H |].
  destruct (negb _) eqn:Eowner; [exact H |].
  cbn [snd sql.tables sql.with_tables sql.sent].
  destruct H as [Ha [Hu [He Ho]]].
  split; [exact Ha | split; [exact Hu | split; [exact He |]]].
  unfold Keys.project_references_owner in *. cbn [sql.projects sql.users].
  apply Forall_app. split; [exact Ho |].
  constructor; [| constructor]. cbn [Project.OwnerID].
  apply negb_false_iff, existsb_exists in Eowner.
  destruct Eowner as [u [Hin E]]. apply Z.eqb_eq in E.
  apply in_map_iff. now exists u.
Qed.

Lemma Keys_project_updated (project : Project.t) :
  Schema.keeps Keys.kept (ProjectRepository.Update project).
Proof.
  unfold ProjectRepository.Update. apply keeps_bind.
  - apply keeps_reading, ProjectRepository_GetByID_reads.
  - intros _ db H. cbn [snd sql.tables sql.with_tables sql.sent].
    destruct H as [Ha [Hu [He Ho]]].
    split; [exact Ha | split; [exact Hu | split; [exact He |]]].
    unfold Keys.project_references_owner in *. cbn [sql.projects sql.users].
    rewrite Forall_forall in *. intros q Hq. apply in_map_iff in Hq.
    destruct Hq as [p [<- Hp]]. specialize (Ho p Hp).
    now destruct (Project.ID p =? Project.ID project).
Qed.

Lemma Keys_project_deleted (id : Z) :
  Schema.keeps Keys.kept (ProjectRepository.Delete id).
Proof.
  unfold ProjectRepository.Delete. apply keeps_bind.
  - apply keeps_reading, ProjectRepository_GetByID_reads.
  - intros _ db H. cbn [snd sql.tables sql.with_tables sql.sent].
    destruct H as [Ha [Hu [He Ho]]].
    split; [| split; [exact Hu | split; [exact He |]]].
    + unfold Keys.access_primary_key in *.
      cbn [sql.project_access sql.project_access_auto_increment].
      now apply primary_key_filter.
    + unfold Keys.project_references_owner in *. cbn [sql.projects sql.users].
      rewrite Forall_forall in *. intros p Hp. apply filter_In in Hp.
      now apply Ho.
Qed.

Lemma Keys_user_inserted (user : User.t) :
  Schema.keeps Keys.kept (UserRepository.Create user).
Proof.
  intros db H. unfold UserRepository.Create. cbv zeta.
  rewrite !tables_sent, !collate_sent, count_positive.
  destruct (existsb _ _) eqn:Eemail; [exact H |].
  cbn [snd sql.tables sql.with_tables sql.sent].
  destruct H as [Ha [Hu [He Ho]]].
  split; [exact Ha | split; [| split]].
  - unfold Keys.users_primary_key in *.
    cbn [sql.users sql.users_auto_increment].
    now apply primary_key_snoc.
  - unfold Keys.users_unique_email in *. cbn [sql.users].
    rewrite map_app. cbn [map User.Email]. apply NoDup_snoc; [exact He |].
    intros Hin. apply in_map_iff in Hin. destruct Hin as [u [E Hin]].
    assert (Hyes : existsb (fun v => sql.collate db (User.Email v) (User.Email user))
                           (sql.users (sql.tables db)) = true).
    { apply existsb_exists. exists u. split; [exact Hin |].
      rewrite E. apply collate_refl. }
    congruence.
  - unfold Keys.project_references_owner in *. cbn [sql.projects sql.users].
    eapply Forall_impl; [| exact Ho]. intros p Hp. cbv beta in *.
    rewrite map_app. apply in_or_app. now left.
Qed.

(** X22. In every state the handlers can reach from the migrated schema
    the ids of access rows and of users are unique and below the counter
    of their table, no two users share an email address, and the owner of
    every project is a registered user. *)
Theorem reachable_keeps_keys (db : sql.DB) :
  System.reachable db -> Keys.kept (sql.tables db).
Proof.
  intros [server [reqs ->]].
  apply (run_keeps_what_writes_keep Keys.kept
           Keys_grant_inserted Keys_grant_updated Keys_grant_deleted
           Keys_project_inserted Keys_project_updated Keys_project_deleted
           Keys_user_inserted).
  unfold Keys.kept, Keys.access_primary_key, Keys.users_primary_key,
    Keys.users_unique_email, Keys.project_references_owner. cbn.
  repeat split; constructor.
Qed.

(** ** No project twice in a listing *)

Lemma NoDup_slice {A : Type} (n m : nat) (l : list A) :
  NoDup l -> NoDup (firstn n (skipn m l)).
Proof.
  intros H. rewrite <- (firstn_skipn m l) in H. apply NoDup_app_remove_l in H.
  rewrite <- (firstn_skipn n (skipn m l)) in H.
  now apply NoDup_app_remove_r in H.
Qed.

Lemma resolve_keys (t : sql.Tables) (ids : list Z) :
  map Project.ID (Spec.resolve t ids)
  = filter (fun id => existsb (fun p => Project.ID p =? id) (sql.projects t)) ids.
Proof.
  unfold Spec.resolve. induction ids as [|id ids IH]; [reflexivity |].
  cbn [flat_map filter]. rewrite map_app, IH.
  destruct (find _ _) as [p|] eqn:E.
  - rewrite (existsb_of_find _ _ _ E). apply find_some in E.
    destruct E as [_ E]. apply Z.eqb_eq in E. cbn. now rewrite E.
  - replace (existsb _ _) with false; [reflexivity |].
    symmetry. apply not_true_is_false. intros Hex.
    apply existsb_exists in Hex. destruct Hex as [p [Hp Ep]].
    pose proof (find_none _ _ E p Hp) as Hn. cbv beta in Hn. congruence.
Qed.

Lemma NoDup_filter {A : Type} (f : A -> bool) (l : list A) :
  NoDup l -> NoDup (filter f l).
Proof.
  intros H. rewrite <- (map_id (filter f l)). apply NoDup_map_filter.
  now rewrite map_id.
Qed.

Lemma granted_ids_once (t : sql.Tables) (U : Z) :
  Schema.unique_project_user t -> NoDup (Spec.GrantedIds t U).
Proof.
  unfold Schema.unique_project_user, Spec.GrantedIds.
  generalize (sql.project_access t). intros l.
  induction l as [|a l IH]; cbn [map filter]; intros Hnd; [constructor |].
  inversion Hnd as [|k ks Hnotin Hnd']; subst.
  destruct (Z.eqb_spec (ProjectAccess.UserID a) U) as [E | _]; [| now apply IH].
  cbn [map]. constructor; [| now apply IH].
  intros Hin. apply Hnotin. apply in_map_iff in Hin.
  destruct Hin as [b [Eb Hb]]. apply filter_In in Hb.
  destruct Hb as [Hb Eu]. apply Z.eqb_eq in Eu.
  apply in_map_iff. exists b. split; [| exact Hb].
  unfold Schema.project_user. congruence.
Qed.

Lemma combined_once (t : sql.Tables) (U : Z) :
  NoDup (map Project.ID (sql.projects t)) -> Schema.unique_project_user t ->
  NoDup (map Project.ID (Spec.combined t U)).
Proof.
  intros Hpk Huniq. unfold Spec.combined. rewrite map_app. apply NoDup_app.
  - unfold Spec.Owned.
    apply (Permutation_NoDup
             (Permutation_map Project.ID (order_by_created_at_desc_perm _))).
    now apply NoDup_map_filter.
  - unfold Spec.GrantedAccessible. rewrite resolve_keys.
    apply NoDup_filter. unfold Spec.GrantedIds'. apply NoDup_filter.
    now apply granted_ids_once.
  - intros id Howned Hgranted.
    unfold Spec.GrantedAccessible in Hgranted. rewrite resolve_keys in Hgranted.
    apply filter_In in Hgranted. destruct Hgranted as [Hid _].
    unfold Spec.GrantedIds' in Hid. apply filter_In in Hid.
    destruct Hid as [_ Hnot]. apply negb_true_iff in Hnot.
    assert (Hyes : Spec.is_owned t U id = true); [| congruence].
    unfold Spec.is_owned. apply in_map_iff in Howned.
    destruct Howned as [p [E Hp]]. apply existsb_exists. exists p.
    split; [exact Hp | now apply Z.eqb_eq].
Qed.

Lemma paginate_slice (page pageSize : Z) (l l' : list Project.t) :
  ProjectAccessService.paginate page pageSize l = Returns (Ok l') ->
  exists n m, l' = firstn n (skipn m l).
Proof.
  unfold ProjectAccessService.paginate.
  destruct (_ >=? _).
  - intros H. inversion H; subst. now exists 0%nat, 0%nat.
  - unfold slice. destruct (_ && _); [| discriminate].
    intros H. inversion H; subst. eauto.
Qed.

(** X23. No project shows twice in a listing. Project ids being unique and
    no user holding two access rows for one project, the list a listing
    call hands back carries every project id at most once, whatever the
    page and the page size; so it is in every state the handlers can
    reach. A second access row of the user for a project is what it takes
    to see the project twice. *)
Theorem listing_shows_a_project_once (U : Z) :
  (forall db page pageSize l,
      NoDup (map Project.ID (sql.projects (sql.tables db))) ->
      Schema.unique_project_user (sql.tables db) ->
      fst (ProjectAccessService.GetAccessibleProjects U page pageSize db)
      = Returns (Ok l) ->
      NoDup (map Project.ID l))
  /\ (forall db page pageSize l,
         System.reachable db ->
         fst (ProjectAccessService.GetAccessibleProjects U page pageSize db)
         = Returns (Ok l) ->
         NoDup (map Project.ID l))
  /\ (forall (p : Project.t) (a b : ProjectAccess.t) (now : Z)
             (server : sql.Server),
         Project.OwnerID p <> U ->
         ProjectAccess.ProjectID a = Project.ID p -> ProjectAccess.UserID a = U ->
         ProjectAccess.ProjectID b = Project.ID p -> ProjectAccess.UserID b = U ->
         fst (ProjectAccessService.GetAccessibleProjects U 1 10
                (sql.mkDB (sql.mkTables [p] [a; b] [] 0 0 0) now [] server))
         = Returns (Ok [p; p])).
Proof.
  assert (Hlist : forall db page pageSize l,
             NoDup (map Project.ID (sql.projects (sql.tables db))) ->
             Schema.unique_project_user (sql.tables db) ->
             fst (ProjectAccessService.GetAccessibleProjects U page pageSize db)
             = Returns (Ok l) ->
             NoDup (map Project.ID l)).
  { intros db page pageSize l Hpk Huniq Hcall.
    rewrite GetAccessibleProjects_sql in Hcall.
    destruct (_ && _).
    - inversion Hcall; subst. constructor.
    - apply paginate_slice in Hcall. destruct Hcall as [n [m ->]].
      rewrite <- firstn_map, <- skipn_map. apply NoDup_slice.
      now apply combined_once. }
  split; [exact Hlist | split].
  - intros db page pageSize l Hreach.
    destruct (reachable_consistent db Hreach) as [[Hpk _] [_ [_ [Huniq _]]]].
    now apply Hlist.
  - intros p a b now server Hown Ea1 Ea2 Eb1 Eb2.
    rewrite GetAccessibleProjects_sql.
    unfold Spec.GrantedIds, Spec.Owned, Spec.combined, Spec.GrantedAccessible,
      Spec.GrantedIds', Spec.is_owned, Spec.Owned, Spec.resolve, Spec.GrantedIds.
    cbn [sql.tables sql.projects sql.project_access filter map].
    rewrite Ea2, Eb2, Z.eqb_refl.
    replace (Project.OwnerID p =? U) with false
      by (symmetry; now apply Z.eqb_neq).
    cbn [map filter ProjectRepository.order_by_created_at_desc fold_right
         existsb negb flat_map find app].
    rewrite Ea1, Eb1, !Z.eqb_refl. reflexivity.
Qed.

(** * Users *)




(** * The rest of the code at work on the installations of [Scenario] *)

(** Granting on [Scenario.shared]: a project that is not there, a user who
    is not there, Carol who holds a grant already, and Alice who does not. *)
Lemma GrantAccess_case_by_case_witness :
  fst (ProjectAccessService.GrantAccess
         99 (ProjectAccessCreate.mk 1 AccessLevelEdit) Scenario.shared)
  = Err ErrProjectNotFound
  /\ fst (ProjectAccessService.GrantAccess
            2 (ProjectAccessCreate.mk 42 AccessLevelEdit) Scenario.shared)
     = Err ErrUserNotFound
  /\ fst (ProjectAccessService.GrantAccess
            2 (ProjectAccessCreate.mk 3 AccessLevelEdit) Scenario.shared)
     = Err ErrProjectAccessExists
  /\ fst (ProjectAccessService.GrantAccess
            2 (ProjectAccessCreate.mk 1 AccessLevelEdit) Scenario.shared)
     = Ok (ProjectAccess.mk 2 2 1 AccessLevelEdit 7 7).
Proof.
  assert (Hbeta : exists p, In p (sql.projects (sql.tables Scenario.shared))
                            /\ Project.ID p = 2).
  { exists (Project.mk 2 "Beta" "second" 2 5 5). split; [concrete_in | reflexivity]. }
  destruct (GrantAccess_case_by_case
              Scenario.shared 99 (ProjectAccessCreate.mk 1 AccessLevelEdit))
    as [Hmissing _].
  destruct (GrantAccess_case_by_case
              Scenario.shared 2 (ProjectAccessCreate.mk 42 AccessLevelEdit))
    as [_ [Hnobody _]].
  destruct (GrantAccess_case_by_case
              Scenario.shared 2 (ProjectAccessCreate.mk 3 AccessLevelEdit))
    as [_ [_ [Htwice _]]].
  destruct (GrantAccess_case_by_case
              Scenario.shared 2 (ProjectAccessCreate.mk 1 AccessLevelEdit))
    as [_ [_ [_ Hnew]]].
  split; [| split; [| split]].
  - refine (proj1 (Hmissing _)).
    vm_compute. intros p [<- | [<- | []]]; discriminate.
  - refine (proj1 (Hnobody Hbeta _)).
    vm_compute. intros u [<- | [<- | [<- | []]]]; discriminate.
  - refine (proj1 (Htwice Hbeta _ _)).
    + exists Scenario.carol. split; [concrete_in | reflexivity].
    + exists (ProjectAccess.mk 1 2 3 AccessLevelView 6 6).
      split; [concrete_in | split; reflexivity].
  - refine (proj1 (Hnew Hbeta _ _)).
    + exists Scenario.alice. split; [concrete_in | reflexivity].
    + vm_compute. intros a [<- | []] _. discriminate.
Defined.

(** Bob grants Alice edit access to project 1 of [Scenario.tenths], at
    instant 49: the grant handed back carries that instant, the row of the
    table the whole second 40. *)
Lemma granted_access_is_found_witness :
  let call :=
    ProjectAccessService.GrantAccess
      1 (ProjectAccessCreate.mk 1 AccessLevelEdit) Scenario.tenths in
  let row := ProjectAccess.mk 1 1 1 AccessLevelEdit 49 49 in
  let kept := ProjectAccess.mk 1 1 1 AccessLevelEdit 40 40 in
  call = (Ok row, snd call)
  /\ fst (ProjectAccessService.HasViewAccess 1 1 (snd call)) = Ok true
  /\ fst (ProjectAccessRepository.GetByProjectAndUser 1 1 (snd call)) = Ok kept
  /\ fst (ProjectAccessService.HasEditAccess 1 1 (snd call)) = Ok true
  /\ fst (ProjectAccessRepository.GetByID 1 (snd call)) = Ok kept.
Proof.
  intros call row kept.
  assert (Hbelow : Forall (fun a => ProjectAccess.ID a
                                    < sql.project_access_auto_increment
                                        (sql.tables Scenario.tenths))
                          (sql.project_access (sql.tables Scenario.tenths)))
    by (vm_compute; constructor).
  assert (E : call = (Ok row, snd call)) by (vm_compute; reflexivity).
  destruct (granted_access_is_found
              Scenario.tenths (snd call) 1
              (ProjectAccessCreate.mk 1 AccessLevelEdit) row E)
    as [Hview [_ [Hfound [Hedit [_ Hid]]]]].
  split; [exact E |]. split; [exact Hview |].
  split; [refine (eq_trans Hfound _); vm_compute; reflexivity |].
  split; [exact (Hedit eq_refl) |].
  refine (eq_trans (Hid Hbelow) _). vm_compute. reflexivity.
Defined.

(** No grant of [Scenario.shared] has id 99. *)
Lemma missing_grant_is_not_found_witness :
  fst (ProjectAccessService.UpdateAccess
         99 (ProjectAccessUpdate.mk AccessLevelEdit) Scenario.shared)
  = Err ErrProjectAccessNotFound
  /\ fst (ProjectAccessService.RevokeAccess 99 Scenario.shared)
     = Err ErrProjectAccessNotFound
  /\ fst (ProjectAccessHandler.UpdateAccess
            (Scenario.as_user Scenario.bob (Some 2) (Some 99)
               (Some (ProjectAccessUpdate.mk AccessLevelEdit)))
            Scenario.shared)
     = gin.JSON http.StatusNotFound (gin.H_error "Access record not found")
  /\ fst (ProjectAccessHandler.RevokeAccess
            (Scenario.as_user Scenario.bob (Some 2) (Some 99) None)
            Scenario.shared)
     = gin.JSON http.StatusNotFound (gin.H_error "Access record not found").
Proof.
  assert (Hmiss : forall a, In a (sql.project_access (sql.tables Scenario.shared)) ->
                            ProjectAccess.ID a <> 99).
  { vm_compute. intros a [<- | []]. discriminate. }
  destruct (missing_grant_is_not_found Scenario.shared 99 Hmiss)
    as [Hupdate [Hrevoke Hhandlers]].
  destruct (Hupdate (ProjectAccessUpdate.mk AccessLevelEdit)) as [Hu _].
  destruct Hrevoke as [Hr _].
  destruct (Hhandlers
              (Scenario.as_user Scenario.bob (Some 2) (Some 99)
                 (Some (ProjectAccessUpdate.mk AccessLevelEdit)))
              (Scenario.as_user Scenario.bob (Some 2) (Some 99) None)
              2 Scenario.bob (Project.mk 2 "Beta" "second" 2 5 5))
    as [[H1 _] [H2 _]];
    try reflexivity; try discriminate.
  split; [exact Hu |]. split; [exact Hr |]. split; [exact H1 | exact H2].
Defined.

(** Bob takes Carol's grant on project 2 of [Scenario.shared] back. *)
Lemma RevokeAccess_removes_the_grant_witness :
  let after := snd (ProjectAccessService.RevokeAccess 1 Scenario.shared) in
  fst (ProjectAccessService.RevokeAccess 1 Scenario.shared) = Ok tt
  /\ fst (ProjectAccessRepository.GetByID 1 after) = Err ErrProjectAccessNotFound
  /\ fst (ProjectAccessService.HasViewAccess 2 3 after) = Ok false.
Proof.
  intros after.
  assert (Hin : In (ProjectAccess.mk 1 2 3 AccessLevelView 6 6)
                   (sql.project_access (sql.tables Scenario.shared)))
    by concrete_in.
  destruct (RevokeAccess_removes_the_grant
              Scenario.shared 1 (ProjectAccess.mk 1 2 3 AccessLevelView 6 6)
              Hin eq_refl)
    as [Hok [_ [_ [_ [Hgone Hview]]]]].
  split; [exact Hok |]. split; [exact Hgone |].
  apply (Hview ltac:(unfold Schema.unique_project_user; concrete_nodup)
               (Project.mk 2 "Beta" "second" 2 5 5)).
  - vm_compute. reflexivity.
  - discriminate.
Defined.

(** Carol's grant in [Scenario.shared] raised to edit, and Alice's grant on
    project 5 of [Scenario.listing] lowered to view. *)
Lemma UpdateAccess_changes_what_the_user_may_do_witness :
  let raised :=
    ProjectAccessService.UpdateAccess
      1 (ProjectAccessUpdate.mk AccessLevelEdit) Scenario.shared in
  let lowered :=
    ProjectAccessService.UpdateAccess
      3 (ProjectAccessUpdate.mk AccessLevelView) Scenario.listing in
  (fst (ProjectAccessService.HasViewAccess 2 3 (snd raised)) = Ok true
   /\ fst (ProjectAccessService.HasEditAccess 2 3 (snd raised)) = Ok true)
  /\ (fst (ProjectAccessService.HasViewAccess 5 1 (snd lowered)) = Ok true
      /\ fst (ProjectAccessService.HasEditAccess 5 1 (snd lowered)) = Ok false).
Proof.
  intros raised lowered.
  assert (Huniq : Schema.unique_project_user (sql.tables Scenario.listing))
    by (unfold Schema.unique_project_user; concrete_nodup).
  assert (Er : raised = (Ok (ProjectAccess.mk 1 2 3 AccessLevelEdit 6 7), snd raised))
    by (vm_compute; reflexivity).
  assert (El : lowered
               = (Ok (ProjectAccess.mk 3 5 1 AccessLevelView 11 12), snd lowered))
    by (vm_compute; reflexivity).
  assert (Hbeta : find (fun q => Project.ID q =? 2)
                       (sql.projects (sql.tables Scenario.shared))
                  = Some (Project.mk 2 "Beta" "second" 2 5 5))
    by (vm_compute; reflexivity).
  assert (Hepsilon : find (fun q => Project.ID q =? 5)
                          (sql.projects (sql.tables Scenario.listing))
                     = Some (Project.mk 5 "Epsilon" "fifth" 2 9 9))
    by (vm_compute; reflexivity).
  destruct (UpdateAccess_changes_what_the_user_may_do
              Scenario.shared (snd raised) 1
              (ProjectAccessUpdate.mk AccessLevelEdit) _ _ Er Hbeta)
    as [Hview [Hedit _]].
  destruct (UpdateAccess_changes_what_the_user_may_do
              Scenario.listing (snd lowered) 3
              (ProjectAccessUpdate.mk AccessLevelView) _ _ El Hepsilon)
    as [Hview' [_ Hnot]].
  cbn [ProjectAccess.ProjectID ProjectAccess.UserID] in Hview, Hedit, Hview', Hnot.
  split; split.
  - exact Hview.
  - exact (Hedit eq_refl).
  - exact Hview'.
  - refine (Hnot eq_refl _ Huniq). discriminate.
Defined.

(** The grants of project 2 of [Scenario.listing] as Bob, its owner, is
    shown them; Carol is turned away, and project 99 is not there. *)
Lemma ListAccess_is_for_the_owner_witness :
  (exists l,
      fst (ProjectAccessHandler.ListAccess
             (Scenario.as_user Scenario.bob (Some 2) None None) Scenario.listing)
      = gin.JSON http.StatusOK (gin.AccessListJSON l)
      /\ (forall a, In a l <-> In a (sql.project_access (sql.tables Scenario.listing))
                               /\ ProjectAccess.ProjectID a = 2)
      /\ StronglySorted Pages.more_recent l)
  /\ gin.Status (fst (ProjectAccessHandler.ListAccess
                        (Scenario.as_user Scenario.carol (Some 2) None None)
                        Scenario.listing))
     = http.StatusForbidden
  /\ gin.Status (fst (ProjectAccessHandler.ListAccess
                        (Scenario.as_user Scenario.bob (Some 99) None None)
                        Scenario.listing))
     = http.StatusNotFound.
Proof.
  assert (Hbeta : find (fun q => Project.ID q =? 2)
                       (sql.projects (sql.tables Scenario.listing))
                  = Some (Project.mk 2 "Beta" "second" 2 5 5))
    by (vm_compute; reflexivity).
  assert (Hnone : find (fun q => Project.ID q =? 99)
                       (sql.projects (sql.tables Scenario.listing)) = None)
    by (vm_compute; reflexivity).
  destruct (ListAccess_is_for_the_owner
              Scenario.listing (Scenario.as_user Scenario.bob (Some 2) None None)
              2 Scenario.bob eq_refl eq_refl) as [_ [Hbob _]].
  destruct (ListAccess_is_for_the_owner
              Scenario.listing (Scenario.as_user Scenario.carol (Some 2) None None)
              2 Scenario.carol eq_refl eq_refl) as [_ [Hcarol _]].
  destruct (ListAccess_is_for_the_owner
              Scenario.listing (Scenario.as_user Scenario.bob (Some 99) None None)
              99 Scenario.bob eq_refl eq_refl) as [_ [_ Hmissing]].
  destruct (Hbob _ Hbeta) as [Hlist _].
  destruct (Hcarol _ Hbeta) as [_ Hrefused].
  split; [exact (Hlist eq_refl) |].
  split; [refine (Hrefused _); discriminate | exact (Hmissing Hnone)].
Defined.

(** Alice's edit grant on project 5 of [Scenario.listing], looked up by
    project and user, and Carol's missing one. *)
Lemma GetByProjectAndUser_agrees_with_checks_witness :
  (exists a,
      fst (ProjectAccessRepository.GetByProjectAndUser 5 1 Scenario.listing) = Ok a
      /\ ProjectAccess.Level a = AccessLevelEdit)
  /\ fst (ProjectAccessRepository.GetByProjectAndUser 5 3 Scenario.listing)
     = Err ErrProjectAccessNotFound.
Proof.
  assert (Huniq : Schema.unique_project_user (sql.tables Scenario.listing))
    by (unfold Schema.unique_project_user; concrete_nodup).
  assert (Hedit : fst (ProjectAccessRepository.HasEditAccess 5 1 Scenario.listing)
                  = Ok true) by (vm_compute; reflexivity).
  assert (Hview : fst (ProjectAccessRepository.HasViewAccess 5 3 Scenario.listing)
                  = Ok false) by (vm_compute; reflexivity).
  destruct (GetByProjectAndUser_agrees_with_checks Scenario.listing 5 1)
    as [_ [_ [_ Hlevel]]].
  destruct (GetByProjectAndUser_agrees_with_checks Scenario.listing 5 3)
    as [_ [Hnone _]].
  split.
  - exact (proj1 (Hlevel Huniq) Hedit).
  - exact (proj1 Hnone Hview).
Defined.



(** Alice's listing of [Scenario.listing]: Beta is on it, so she may view
    it; she may view Epsilon, so it is on page one of ten. *)
Lemma listing_is_what_may_be_viewed_witness :
  fst (ProjectAccessService.HasViewAccess 2 1 Scenario.listing) = Ok true
  /\ exists l,
       fst (ProjectAccessService.GetAccessibleProjects 1 1 10 Scenario.listing)
       = Returns (Ok l)
       /\ In (Project.mk 5 "Epsilon" "fifth" 2 9 9) l.
Proof.
  assert (Hpk : NoDup (map Project.ID (sql.projects (sql.tables Scenario.listing))))
    by concrete_nodup.
  assert (Hpage :
            fst (ProjectAccessService.GetAccessibleProjects 1 1 10 Scenario.listing)
            = Returns (Ok [Project.mk 4 "Delta" "fourth" 1 8 8;
                           Project.mk 3 "Gamma" "third" 1 7 7;
                           Project.mk 1 "Alpha" "first" 1 4 4;
                           Project.mk 2 "Beta" "second" 2 5 5;
                           Project.mk 5 "Epsilon" "fifth" 2 9 9]))
    by (vm_compute; reflexivity).
  assert (Hbeta : In (Project.mk 2 "Beta" "second" 2 5 5)
                     [Project.mk 4 "Delta" "fourth" 1 8 8;
                      Project.mk 3 "Gamma" "third" 1 7 7;
                      Project.mk 1 "Alpha" "first" 1 4 4;
                      Project.mk 2 "Beta" "second" 2 5 5;
                      Project.mk 5 "Epsilon" "fifth" 2 9 9])
    by (cbn; intuition reflexivity).
  assert (Hlen : len (Spec.combined (sql.tables Scenario.listing) 1) <= 10)
    by (vm_compute; discriminate).
  assert (Hmax : 10 <= GoInt.max_int) by (vm_compute; discriminate).
  assert (Hepsilon : In (Project.mk 5 "Epsilon" "fifth" 2 9 9)
                        (sql.projects (sql.tables Scenario.listing)))
    by concrete_in.
  assert (Hview : fst (ProjectAccessService.HasViewAccess
                         (Project.ID (Project.mk 5 "Epsilon" "fifth" 2 9 9)) 1
                         Scenario.listing) = Ok true)
    by (vm_compute; reflexivity).
  destruct (listing_is_what_may_be_viewed Scenario.listing 1 Hpk)
    as [Hshown Hall].
  split.
  - exact (proj2 (Hshown 1 10 _ _ Hpage Hbeta)).
  - exact (Hall 10 _ Hlen Hmax Hepsilon Hview).
Defined.

(** Three pages of five over the twelve projects of [Scenario.twelve]. *)
Lemma pages_follow_one_another_witness :
  Pages.first_pages 1 5 3 Scenario.twelve
  = firstn (3 * Z.to_nat 5) (Spec.combined (sql.tables Scenario.twelve) 1).
Proof.
  assert (Hsize : 1 <= 5) by lia.
  assert (Hmax : Z.of_nat 3 * 5 <= GoInt.max_int) by (vm_compute; discriminate).
  exact (pages_follow_one_another Scenario.twelve 1 5 3 Hsize Hmax).
Defined.

(** Project 2 of [Scenario.listing] is deleted: Carol's and Alice's grants
    on it go too. *)
Lemma Delete_project_takes_its_grants_along_witness :
  let after := snd (ProjectService.Delete 2 Scenario.listing) in
  fst (ProjectService.Delete 2 Scenario.listing) = Ok tt
  /\ (forall a, In a (sql.project_access (sql.tables after))
                <-> In a (sql.project_access (sql.tables Scenario.listing))
                    /\ ProjectAccess.ProjectID a <> 2)
  /\ fst (ProjectService.GetByID 2 after) = Err ErrProjectNotFound
  /\ fst (ProjectAccessService.HasViewAccess 2 3 after) = Err ErrProjectNotFound
  /\ fst (ProjectService.Delete 99 Scenario.listing) = Err ErrProjectNotFound.
Proof.
  intros after.
  assert (Hbeta : find (fun q => Project.ID q =? 2)
                       (sql.projects (sql.tables Scenario.listing))
                  = Some (Project.mk 2 "Beta" "second" 2 5 5))
    by (vm_compute; reflexivity).
  assert (Hnone : find (fun q => Project.ID q =? 99)
                       (sql.projects (sql.tables Scenario.listing)) = None)
    by (vm_compute; reflexivity).
  destruct (Delete_project_takes_its_grants_along Scenario.listing 2)
    as [Hthere _].
  destruct (Delete_project_takes_its_grants_along Scenario.listing 99)
    as [_ Hmissing].
  destruct (Hthere _ Hbeta) as [Hok [_ [Hrows [_ [Hget [Hchecks _]]]]]].
  destruct (Hchecks 3) as [Hview _].
  destruct (Hmissing Hnone) as [Herr _].
  split; [exact Hok |]. split; [exact Hrows |]. split; [exact Hget |].
  split; [exact Hview | exact Herr].
Defined.

(** Bob owns project 2 of [Scenario.shared]; no project 99 is there. *)
Lemma IsOwner_of_repository_and_of_service_witness :
  (ProjectRepository.IsOwner 2 2 Scenario.shared = (Ok true, Scenario.shared)
   /\ fst (ProjectService.IsOwner 2 2 Scenario.shared) = Ok true)
  /\ (ProjectRepository.IsOwner 99 2 Scenario.shared = (Ok false, Scenario.shared)
      /\ fst (ProjectService.IsOwner 99 2 Scenario.shared) = Err ErrProjectNotFound).
Proof.
  assert (Hpk : NoDup (map Project.ID (sql.projects (sql.tables Scenario.shared))))
    by concrete_nodup.
  assert (Hbeta : In (Project.mk 2 "Beta" "second" 2 5 5)
                     (sql.projects (sql.tables Scenario.shared)))
    by concrete_in.
  assert (Hnone : forall p, In p (sql.projects (sql.tables Scenario.shared)) ->
                            Project.ID p <> 99).
  { vm_compute. intros p [<- | [<- | []]]; discriminate. }
  destruct (IsOwner_of_repository_and_of_service Scenario.shared 2 2)
    as [Hthere _].
  destruct (IsOwner_of_repository_and_of_service Scenario.shared 99 2)
    as [_ [Hmissing _]].
  split.
  - exact (Hthere (Project.mk 2 "Beta" "second" 2 5 5) Hpk Hbeta eq_refl).
  - exact (Hmissing Hnone).
Defined.

(** Page two of two over all the projects of [Scenario.listing]. *)
Lemma List_is_a_page_of_all_projects_witness :
  ProjectService.List 2 2 Scenario.listing
  = (Ok (Spec.page_of 2 2
           (ProjectRepository.order_by_created_at_desc
              (sql.projects (sql.tables Scenario.listing)))),
     Scenario.listing)
  /\ Spec.page_of 2 2
       (ProjectRepository.order_by_created_at_desc
          (sql.projects (sql.tables Scenario.listing)))
     = [Project.mk 3 "Gamma" "third" 1 7 7; Project.mk 2 "Beta" "second" 2 5 5].
Proof.
  assert (Hmax : Spec.normalize_page 2 * Spec.normalize_pageSize 2 <= GoInt.max_int)
    by (vm_compute; discriminate).
  split.
  - exact (proj1 (List_is_a_page_of_all_projects Scenario.listing 2 2 Hmax)).
  - vm_compute. reflexivity.
Defined.

(** Reading projects of [Staff.staffed]: Carol holds a grant on project 2
    and none on project 1; the administrator reads project 1 and is told
    that project 99 is not there. *)
Lemma GetProject_decides_witness :
  fst (ProjectHandler.GetProject
         (Scenario.as_user Scenario.carol (Some 2) None None) Staff.staffed)
  = gin.JSON http.StatusOK (gin.ProjectJSON (Project.mk 2 "Beta" "second" 2 5 5))
  /\ gin.Status (fst (ProjectHandler.GetProject
                        (Scenario.as_user Scenario.carol (Some 1) None None)
                        Staff.staffed))
     = http.StatusForbidden
  /\ fst (ProjectHandler.GetProject
            (Scenario.as_user Staff.root (Some 1) None None) Staff.staffed)
     = gin.JSON http.StatusOK (gin.ProjectJSON (Project.mk 1 "Alpha" "first" 1 4 4))
  /\ gin.Status (fst (ProjectHandler.GetProject
                        (Scenario.as_user Staff.root (Some 99) None None)
                        Staff.staffed))
     = http.StatusNotFound.
Proof.
  assert (Halpha : find (fun q => Project.ID q =? 1)
                        (sql.projects (sql.tables Staff.staffed))
                   = Some (Project.mk 1 "Alpha" "first" 1 4 4))
    by (vm_compute; reflexivity).
  assert (Hbeta : find (fun q => Project.ID q =? 2)
                       (sql.projects (sql.tables Staff.staffed))
                  = Some (Project.mk 2 "Beta" "second" 2 5 5))
    by (vm_compute; reflexivity).
  assert (Hnone : find (fun q => Project.ID q =? 99)
                       (sql.projects (sql.tables Staff.staffed)) = None)
    by (vm_compute; reflexivity).
  assert (Hgrant : exists a, In a (sql.project_access (sql.tables Staff.staffed))
                             /\ ProjectAccess.ProjectID a = 2
                             /\ ProjectAccess.UserID a = User.ID Scenario.carol).
  { exists (ProjectAccess.mk 1 2 3 AccessLevelView 6 6).
    split; [concrete_in | split; reflexivity]. }
  assert (Hnot : ~ (User.Role_ Scenario.carol = RoleAdmin
                    \/ Project.OwnerID (Project.mk 1 "Alpha" "first" 1 4 4)
                       = User.ID Scenario.carol
                    \/ exists a, In a (sql.project_access (sql.tables Staff.staffed))
                                 /\ ProjectAccess.ProjectID a = 1
                                 /\ ProjectAccess.UserID a = User.ID Scenario.carol)).
  { assert (Hrows : forall a, In a (sql.project_access (sql.tables Staff.staffed)) ->
                              ProjectAccess.ProjectID a <> 1).
    { vm_compute. intros a [<- | [<- | [<- | []]]]; discriminate. }
    intros [H | [H | [a [Hin [H1 H2]]]]];
      [discriminate H | discriminate H | exact (Hrows a Hin H1)]. }
  destruct (GetProject_decides
              Staff.staffed (Scenario.as_user Scenario.carol (Some 2) None None)
              2 Scenario.carol eq_refl eq_refl) as [_ [Hcarol2 _]].
  destruct (GetProject_decides
              Staff.staffed (Scenario.as_user Scenario.carol (Some 1) None None)
              1 Scenario.carol eq_refl eq_refl) as [_ [Hcarol1 _]].
  destruct (GetProject_decides
              Staff.staffed (Scenario.as_user Staff.root (Some 1) None None)
              1 Staff.root eq_refl eq_refl) as [_ [Hroot1 _]].
  destruct (GetProject_decides
              Staff.staffed (Scenario.as_user Staff.root (Some 99) None None)
              99 Staff.root eq_refl eq_refl) as [_ [_ Hroot99]].
  destruct (Hcarol2 _ Hbeta) as [Hyes _].
  destruct (Hcarol1 _ Halpha) as [_ Hno].
  destruct (Hroot1 _ Halpha) as [Hadmin _].
  split; [exact (Hyes (or_intror (or_intror Hgrant))) |].
  split; [exact (Hno Hnot) |].
  split; [exact (Hadmin (or_introl eq_refl)) | exact (Hroot99 Hnone)].
Defined.

(** Updating projects of [Scenario.listing]: Alice holds an edit grant on
    project 5 and a view grant on project 2. *)
Lemma UpdateProject_needs_edit_access_witness :
  (exists updated,
      fst (ProjectService.Update 5 (ProjectUpdate.mk "Eta" "fifth") Scenario.listing)
      = Ok updated
      /\ fst (ProjectHandler.UpdateProject
                (Scenario.as_user Scenario.alice (Some 5) None
                   (Some (ProjectUpdate.mk "Eta" "fifth")))
                Scenario.listing)
         = gin.JSON http.StatusOK (gin.ProjectJSON updated))
  /\ gin.Status (fst (ProjectHandler.UpdateProject
                        (Scenario.as_user Scenario.alice (Some 2) None
                           (Some (ProjectUpdate.mk "Eta" "fifth")))
                        Scenario.listing))
     = http.StatusForbidden.
Proof.
  assert (Hbeta : find (fun q => Project.ID q =? 2)
                       (sql.projects (sql.tables Scenario.listing))
                  = Some (Project.mk 2 "Beta" "second" 2 5 5))
    by (vm_compute; reflexivity).
  assert (Hepsilon : find (fun q => Project.ID q =? 5)
                          (sql.projects (sql.tables Scenario.listing))
                     = Some (Project.mk 5 "Epsilon" "fifth" 2 9 9))
    by (vm_compute; reflexivity).
  assert (Hgrant : exists a, In a (sql.project_access (sql.tables Scenario.listing))
                             /\ ProjectAccess.ProjectID a = 5
                             /\ ProjectAccess.UserID a = User.ID Scenario.alice
                             /\ ProjectAccess.Level a = AccessLevelEdit).
  { exists (ProjectAccess.mk 3 5 1 AccessLevelEdit 11 11).
    split; [concrete_in | repeat split]. }
  assert (Hnot : ~ (User.Role_ Scenario.alice = RoleAdmin
                    \/ Project.OwnerID (Project.mk 2 "Beta" "second" 2 5 5)
                       = User.ID Scenario.alice
                    \/ exists a, In a (sql.project_access (sql.tables Scenario.listing))
                                 /\ ProjectAccess.ProjectID a = 2
                                 /\ ProjectAccess.UserID a = User.ID Scenario.alice
                                 /\ ProjectAccess.Level a = AccessLevelEdit)).
  { assert (Hrows : forall a, In a (sql.project_access (sql.tables Scenario.listing)) ->
                              ProjectAccess.ProjectID a = 2 ->
                              ProjectAccess.Level a <> AccessLevelEdit).
    { vm_compute. intros a [<- | [<- | [<- | []]]]; discriminate. }
    intros [H | [H | [a [Hin [H1 [H2 H3]]]]]];
      [discriminate H | discriminate H | exact (Hrows a Hin H1 H3)]. }
  destruct (UpdateProject_needs_edit_access
              Scenario.listing
              (Scenario.as_user Scenario.alice (Some 5) None
                 (Some (ProjectUpdate.mk "Eta" "fifth")))
              5 (ProjectUpdate.mk "Eta" "fifth") Scenario.alice _
              eq_refl eq_refl eq_refl Hepsilon) as [Hmay _].
  destruct (UpdateProject_needs_edit_access
              Scenario.listing
              (Scenario.as_user Scenario.alice (Some 2) None
                 (Some (ProjectUpdate.mk "Eta" "fifth")))
              2 (ProjectUpdate.mk "Eta" "fifth") Scenario.alice _
              eq_refl eq_refl eq_refl Hbeta) as [_ Hmaynot].
  split.
  - destruct (Hmay (or_intror (or_intror Hgrant))) as [updated [Hu [Hanswer _]]].
    exists updated. split; [exact Hu | exact Hanswer].
  - exact (proj1 (Hmaynot Hnot)).
Defined.

(** Deleting project 5 of [Staff.staffed]: Bob owns it, Alice holds an edit
    grant on it, and the administrator may delete anything. *)
Lemma DeleteProject_is_for_owner_and_admin_witness :
  fst (ProjectHandler.DeleteProject
         (Scenario.as_user Scenario.bob (Some 5) None None) Staff.staffed)
  = gin.JSON http.StatusOK (gin.H_message "Project deleted successfully")
  /\ gin.Status (fst (ProjectHandler.DeleteProject
                        (Scenario.as_user Scenario.alice (Some 5) None None)
                        Staff.staffed))
     = http.StatusForbidden
  /\ fst (ProjectHandler.DeleteProject
            (Scenario.as_user Staff.root (Some 5) None None) Staff.staffed)
     = gin.JSON http.StatusOK (gin.H_message "Project deleted successfully").
Proof.
  assert (Hepsilon : find (fun q => Project.ID q =? 5)
                          (sql.projects (sql.tables Staff.staffed))
                     = Some (Project.mk 5 "Epsilon" "fifth" 2 9 9))
    by (vm_compute; reflexivity).
  assert (Hnot : ~ (User.Role_ Scenario.alice = RoleAdmin
                    \/ Project.OwnerID (Project.mk 5 "Epsilon" "fifth" 2 9 9)
                       = User.ID Scenario.alice)).
  { intros [H | H]; discriminate H. }
  destruct (DeleteProject_is_for_owner_and_admin
              Staff.staffed (Scenario.as_user Scenario.bob (Some 5) None None)
              5 Scenario.bob _ eq_refl eq_refl Hepsilon) as [Hbob _].
  destruct (DeleteProject_is_for_owner_and_admin
              Staff.staffed (Scenario.as_user Scenario.alice (Some 5) None None)
              5 Scenario.alice _ eq_refl eq_refl Hepsilon) as [_ Halice].
  destruct (DeleteProject_is_for_owner_and_admin
              Staff.staffed (Scenario.as_user Staff.root (Some 5) None None)
              5 Staff.root _ eq_refl eq_refl Hepsilon) as [Hroot _].
  split; [exact (proj1 (Hbob (or_intror eq_refl))) |].
  split; [exact (proj1 (Halice Hnot)) | exact (proj1 (Hroot (or_introl eq_refl)))].
Defined.

(** Listing the projects of [Staff.staffed]: nobody, the administrator,
    and Alice asking for page 0 of size 0. *)
Lemma ListProjects_answers_by_role_witness :
  ProjectHandler.ListProjects (query.mkContext 1 2 None) Staff.staffed
  = (Returns (query.Refused
                (gin.JSON http.StatusUnauthorized
                          (gin.H_error "User not found in context"))),
     Staff.staffed)
  /\ fst (ProjectHandler.ListProjects
            (query.mkContext 1 2 (Some Staff.root)) Staff.staffed)
     = Returns (query.ProjectsJSON http.StatusOK
                  (Spec.page_of 1 2
                     (ProjectRepository.order_by_created_at_desc
                        (sql.projects (sql.tables Staff.staffed)))))
  /\ fst (ProjectHandler.ListProjects
            (query.mkContext 0 0 (Some Scenario.alice)) Staff.staffed)
     = Returns (query.ProjectsJSON http.StatusOK
                  (Spec.accessibleProjects (sql.tables Staff.staffed) 1 0 0))
  /\ ProjectHandler.ListProjects
       (query.mkContext 0 0 (Some Scenario.alice)) Staff.staffed
     = ProjectHandler.ListProjects
         (query.mkContext 1 10 (Some Scenario.alice)) Staff.staffed.
Proof.
  assert (Hfew : Spec.normalize_page 1 * Spec.normalize_pageSize 2 <= GoInt.max_int)
    by (vm_compute; discriminate).
  assert (Hdefault : Spec.normalize_page 0 * Spec.normalize_pageSize 0
                     <= GoInt.max_int)
    by (vm_compute; discriminate).
  assert (Huser : User.Role_ Scenario.alice <> RoleAdmin) by discriminate.
  destruct (ListProjects_answers_by_role
              Staff.staffed (query.mkContext 1 2 None)) as [Hnobody _].
  destruct (ListProjects_answers_by_role
              Staff.staffed (query.mkContext 1 2 (Some Staff.root)))
    as [_ [_ [Hroot _]]].
  destruct (ListProjects_answers_by_role
              Staff.staffed (query.mkContext 0 0 (Some Scenario.alice)))
    as [_ [_ [Halice Hsame]]].
  split; [exact (Hnobody eq_refl) |].
  split; [| split].
  - exact (proj1 (Hroot Staff.root eq_refl Hfew) eq_refl).
  - exact (proj2 (Halice Scenario.alice eq_refl Hdefault) Huser).
  - exact Hsame.
Defined.

(** Alice creates her first project on [Scenario.tenths], at instant 49,
    and calls it beta; Bob, who has a Beta, asks for a BETA. *)
Lemma CreateProject_makes_the_caller_owner_witness :
  let create :=
    Scenario.as_user Scenario.alice None None
      (Some (ProjectCreate.mk "beta" "mine")) in
  let after := snd (ProjectHandler.CreateProject create Scenario.tenths) in
  fst (ProjectHandler.CreateProject create Scenario.tenths)
  = gin.JSON http.StatusCreated (gin.ProjectJSON (Project.mk 2 "beta" "mine" 1 49 49))
  /\ sql.projects (sql.tables after)
     = [Project.mk 1 "Beta" "second" 2 30 30; Project.mk 2 "beta" "mine" 1 40 40]
  /\ fst (ProjectAccessService.HasEditAccess 2 1 after) = Ok true
  /\ fst (ProjectAccessService.HasViewAccess 2 2 after) = Ok false
  /\ gin.Status
       (fst (ProjectHandler.CreateProject
               (Scenario.as_user Scenario.bob None None
                  (Some (ProjectCreate.mk "BETA" "mine")))
               Scenario.tenths))
     = http.StatusConflict.
Proof.
  intros create after.
  assert (Hrows : forall p, In p (sql.projects (sql.tables Scenario.tenths)) ->
                            Project.OwnerID p <> 1).
  { vm_compute. intros p [<- | []]. discriminate. }
  assert (Hfree : ~ exists p, In p (sql.projects (sql.tables Scenario.tenths))
                              /\ sql.collate Scenario.tenths (Project.Name p)
                                   (ProjectCreate.Name (ProjectCreate.mk "beta" "mine"))
                                 = true
                              /\ Project.OwnerID p = User.ID Scenario.alice).
  { intros [p [Hin [_ Hown]]]. exact (Hrows p Hin Hown). }
  assert (Hbeta : In (Project.mk 1 "Beta" "second" 2 30 30)
                     (sql.projects (sql.tables Scenario.tenths)))
    by (vm_compute; intuition reflexivity).
  assert (Hsame : sql.collate Scenario.tenths "Beta" "BETA" = true)
    by (vm_compute; reflexivity).
  assert (Htaken : exists p, In p (sql.projects (sql.tables Scenario.tenths))
                             /\ sql.collate Scenario.tenths (Project.Name p)
                                  (ProjectCreate.Name (ProjectCreate.mk "BETA" "mine"))
                                = true
                             /\ Project.OwnerID p = User.ID Scenario.bob).
  { exists (Project.mk 1 "Beta" "second" 2 30 30).
    split; [exact Hbeta | split; [exact Hsame | reflexivity]]. }
  assert (Halice : exists u, In u (sql.users (sql.tables Scenario.tenths))
                             /\ User.ID u = User.ID Scenario.alice).
  { exists (User.mk 1 "alice" "alice@example.com" "hash" RoleUser 10 10).
    split; [vm_compute; intuition reflexivity | reflexivity]. }
  assert (Hbelow : Forall (fun p => Project.ID p
                                    < sql.projects_auto_increment
                                        (sql.tables Scenario.tenths))
                          (sql.projects (sql.tables Scenario.tenths)))
    by (vm_compute; repeat constructor).
  assert (Hfk : Schema.access_references_project (sql.tables Scenario.tenths))
    by (vm_compute; constructor).
  assert (Hbob : 2 <> User.ID Scenario.alice) by discriminate.
  destruct (CreateProject_makes_the_caller_owner
              Scenario.tenths create (ProjectCreate.mk "beta" "mine")
              Scenario.alice eq_refl eq_refl) as [_ [_ Hnew]].
  destruct (CreateProject_makes_the_caller_owner
              Scenario.tenths
              (Scenario.as_user Scenario.bob None None
                 (Some (ProjectCreate.mk "BETA" "mine")))
              (ProjectCreate.mk "BETA" "mine")
              Scenario.bob eq_refl eq_refl) as [Hagain _].
  destruct (Hnew Hfree Halice) as [Hanswer [Hprojects [_ Hthen]]].
  destruct (Hthen Hbelow Hfk) as [Hedit Hview].
  split; [refine (eq_trans Hanswer _); vm_compute; reflexivity |].
  split; [refine (eq_trans Hprojects _); vm_compute; reflexivity |].
  split; [exact Hedit |].
  split; [exact (Hview 2 Hbob) | exact (proj1 (Hagain Htaken))].
Defined.

(** Bob, who owns project 2 of [Scenario.shared], grants Alice edit access
    to it, after which she reads it; user 42 is nobody. *)
Lemma GrantAccess_by_the_owner_witness :
  let grant :=
    Scenario.as_user Scenario.bob (Some 2) None
      (Some (ProjectAccessCreate.mk 1 AccessLevelEdit)) in
  let after := snd (ProjectAccessHandler.GrantAccess grant Scenario.shared) in
  fst (ProjectAccessHandler.GrantAccess grant Scenario.shared)
  = gin.JSON http.StatusCreated
             (gin.AccessJSON (ProjectAccess.mk 2 2 1 AccessLevelEdit 7 7))
  /\ fst (ProjectHandler.GetProject
            (Scenario.as_user Scenario.alice (Some 2) None None) after)
     = gin.JSON http.StatusOK (gin.ProjectJSON (Project.mk 2 "Beta" "second" 2 5 5))
  /\ fst (ProjectAccessHandler.GrantAccess
            (Scenario.as_user Scenario.bob (Some 2) None
               (Some (ProjectAccessCreate.mk 42 AccessLevelEdit)))
            Scenario.shared)
     = gin.JSON http.StatusInternalServerError
                (gin.H_error "Failed to grant access").
Proof.
  intros grant after.
  assert (Hbeta : find (fun q => Project.ID q =? 2)
                       (sql.projects (sql.tables Scenario.shared))
                  = Some (Project.mk 2 "Beta" "second" 2 5 5))
    by (vm_compute; reflexivity).
  assert (Halice : exists u, In u (sql.users (sql.tables Scenario.shared))
                             /\ User.ID u
                                = ProjectAccessCreate.UserID
                                    (ProjectAccessCreate.mk 1 AccessLevelEdit)).
  { exists Scenario.alice. split; [concrete_in | reflexivity]. }
  assert (Hnew : forall a, In a (sql.project_access (sql.tables Scenario.shared)) ->
                           ProjectAccess.ProjectID a = 2 ->
                           ProjectAccess.UserID a
                           <> ProjectAccessCreate.UserID
                                (ProjectAccessCreate.mk 1 AccessLevelEdit)).
  { vm_compute. intros a [<- | []] _. discriminate. }
  assert (Hnobody : forall u, In u (sql.users (sql.tables Scenario.shared)) ->
                              User.ID u
                              <> ProjectAccessCreate.UserID
                                   (ProjectAccessCreate.mk 42 AccessLevelEdit)).
  { vm_compute. intros u [<- | [<- | [<- | []]]]; discriminate. }
  assert (H1 : ProjectAccessCreate.UserID (ProjectAccessCreate.mk 1 AccessLevelEdit)
               <> User.ID Scenario.bob) by discriminate.
  assert (H42 : ProjectAccessCreate.UserID (ProjectAccessCreate.mk 42 AccessLevelEdit)
                <> User.ID Scenario.bob) by discriminate.
  destruct (GrantAccess_by_the_owner
              Scenario.shared grant 2 (ProjectAccessCreate.mk 1 AccessLevelEdit)
              Scenario.bob _ eq_refl eq_refl eq_refl Hbeta eq_refl H1)
    as [_ Hgranted].
  destruct (GrantAccess_by_the_owner
              Scenario.shared
              (Scenario.as_user Scenario.bob (Some 2) None
                 (Some (ProjectAccessCreate.mk 42 AccessLevelEdit)))
              2 (ProjectAccessCreate.mk 42 AccessLevelEdit)
              Scenario.bob _ eq_refl eq_refl eq_refl Hbeta eq_refl H42)
    as [Hmissing _].
  destruct (Hgranted Halice Hnew) as [Hanswer [_ [_ Hreads]]].
  split; [exact Hanswer |].
  split.
  - exact (Hreads (Scenario.as_user Scenario.alice (Some 2) None None)
                  Scenario.alice eq_refl eq_refl eq_refl).
  - exact (proj1 (Hmissing Hnobody)).
Defined.

(** The keys hold in [Scenario.listing], which the handlers reached. *)
Lemma reachable_keeps_keys_witness :
  Keys.kept (sql.tables Scenario.listing).
Proof.
  exact (reachable_keeps_keys Scenario.listing listing_reachable).
Defined.

(** Alice's listing of [Scenario.listing], where she owns three projects
    and holds grants on two, shows five different projects. *)
Lemma listing_shows_a_project_once_witness :
  exists l,
    fst (ProjectAccessService.GetAccessibleProjects 1 1 10 Scenario.listing)
    = Returns (Ok l)
    /\ List.length l = 5%nat
    /\ NoDup (map Project.ID l).
Proof.
  assert (Hpage :
            fst (ProjectAccessService.GetAccessibleProjects 1 1 10 Scenario.listing)
            = Returns (Ok [Project.mk 4 "Delta" "fourth" 1 8 8;
                           Project.mk 3 "Gamma" "third" 1 7 7;
                           Project.mk 1 "Alpha" "first" 1 4 4;
                           Project.mk 2 "Beta" "second" 2 5 5;
                           Project.mk 5 "Epsilon" "fifth" 2 9 9]))
    by (vm_compute; reflexivity).
  destruct (listing_shows_a_project_once 1) as [_ [Hreached _]].
  eexists. split; [exact Hpage |]. split; [reflexivity |].
  exact (Hreached Scenario.listing 1 10 _ listing_reachable Hpage).
Defined.

